(** * Collaborative e-book reader: session engine and quota configuration

    A shallow embedding of
    - [backend/src/config/limits.js]: the limits object, the environment
      overrides, [deepMerge], [getCurrentLimits] and [LIMIT_VALIDATORS];
    - the Socket.IO server (join-session, create-highlight, create-comment,
      update-progress, disconnect), its tables and its HTTP routes for
      uploads, highlights, comments, profiles and progress;
    - the older server's [add-highlight] handler;
    - the reader component's furthest-progress test and chapter buttons.

    JavaScript numbers that are only counted and compared are integers of [Z];
    percentages are rationals, the rounding of the browser's arithmetic
    being a parameter; strings are [string]; objects used as records are
    records; the limits object, which [deepMerge] walks generically, is a
    tree of [value]. *)

From stdpp Require Import gmap strings list fin_maps pretty.
From Stdlib Require Import ZArith QArith Qminmax Lia.

#[local] Set Warnings "-register-all".

(* ===================================================================== *)
(** ** limits.js *)
(* ===================================================================== *)

Module Limits.

Local Open Scope Z_scope.

(** A JavaScript value as the configuration uses them. *)
Inductive value :=
| VUndef
| VNum (n : Z)
| VBool (b : bool)
| VStr (s : string)
| VArr (items : list value)
| VObj (fields : list (string * value)).

(** [obj[k]] on the own properties, in insertion order. *)
Fixpoint getField (k : string) (fields : list (string * value)) : value :=
  match fields with
  | [] => VUndef
  | (k', v) :: rest => if String.eqb k k' then v else getField k rest
  end.

(** [obj[k] = v]: an existing key keeps its place, a new one goes last. *)
Fixpoint setField (k : string) (v : value) (fields : list (string * value))
  : list (string * value) :=
  match fields with
  | [] => [(k, v)]
  | (k', v') :: rest =>
      if String.eqb k k' then (k', v) :: rest else (k', v') :: setField k v rest
  end.

Definition prop (v : value) (k : string) : value :=
  match v with VObj f => getField k f | _ => VUndef end.

(** [{ ...v }]. Exact for objects, numbers, booleans and undefined; a string
    or an array never reaches a spread in this configuration. *)
Definition spread (v : value) : list (string * value) :=
  match v with VObj f => f | _ => [] end.

Definition truthy (v : value) : bool :=
  match v with
  | VUndef => false
  | VNum n => negb (Z.eqb n 0)
  | VBool b => b
  | VStr s => negb (String.eqb s "")
  | VArr _ => true
  | VObj _ => true
  end.

(** [v || {}] *)
Definition orEmpty (v : value) : value := if truthy v then v else VObj [].

(** [deepMerge(target, source)]: a copy of [target] in which every key of
    [source] is overwritten, object values being merged recursively. *)
Fixpoint deepMerge (target source : value) {struct source} : value :=
  let fix go (src result : list (string * value)) {struct src} :=
    match src with
    | [] => result
    | (k, v) :: rest =>
        let v' := match v with
                  | VObj _ => deepMerge (orEmpty (prop target k)) v
                  | _ => v
                  end in
        go rest (setField k v' result)
    end in
  match source with
  | VObj src => VObj (go src (spread target))
  | _ => VObj (spread target)
  end.

Definition MVP_LIMITS : value :=
  VObj [
    ("FILE"%string, VObj [
      ("MAX_SIZE_MB"%string, VNum 25);
      ("MAX_SIZE_BYTES"%string, VNum (25 * 1024 * 1024));
      ("ALLOWED_TYPES"%string, VArr [VStr ".epub"]);
      ("UPLOAD_TIMEOUT_MS"%string, VNum 60000);
      ("VALIDATE_EPUB_STRUCTURE"%string, VBool true) ]);
    ("USER"%string, VObj [
      ("MAX_CONCURRENT_PER_SESSION"%string, VNum 5);
      ("SESSION_TIMEOUT_MINUTES"%string, VNum 30);
      ("SESSION_TIMEOUT_MS"%string, VNum (30 * 60 * 1000));
      ("PROFILE_PERSISTENCE_HOURS"%string, VNum 24);
      ("PROFILE_PERSISTENCE_MS"%string, VNum (24 * 60 * 60 * 1000));
      ("REQUIRE_AUTHENTICATION"%string, VBool false);
      ("MAX_SESSIONS_PER_USER"%string, VNum 1) ]);
    ("CONTENT"%string, VObj [
      ("HIGHLIGHTS"%string, VObj [
        ("MAX_PER_USER_PER_BOOK"%string, VNum 100);
        ("MAX_PER_PAGE"%string, VNum 50);
        ("MIN_TEXT_LENGTH"%string, VNum 1);
        ("MAX_TEXT_LENGTH"%string, VNum 1000) ]);
      ("COMMENTS"%string, VObj [
        ("MAX_PER_HIGHLIGHT"%string, VNum 5);
        ("MAX_LENGTH_CHARS"%string, VNum 500);
        ("MIN_LENGTH_CHARS"%string, VNum 1);
        ("MAX_REPLY_DEPTH"%string, VNum 2) ]);
      ("REPLIES"%string, VObj [
        ("MAX_PER_COMMENT"%string, VNum 10);
        ("MAX_LENGTH_CHARS"%string, VNum 300);
        ("MIN_LENGTH_CHARS"%string, VNum 1) ]) ]);
    ("PERFORMANCE"%string, VObj [
      ("EPUB"%string, VObj [
        ("MAX_PAGES"%string, VNum 1000);
        ("MAX_MEMORY_MB"%string, VNum 50);
        ("MAX_MEMORY_BYTES"%string, VNum (50 * 1024 * 1024));
        ("RENDER_TIMEOUT_MS"%string, VNum 30000);
        ("PARSE_TIMEOUT_MS"%string, VNum 15000) ]);
      ("WEBSOCKET"%string, VObj [
        ("MAX_MESSAGES_PER_SECOND"%string, VNum 10);
        ("MAX_MESSAGE_SIZE_BYTES"%string, VNum (1024 * 1024));
        ("RECONNECTION_ATTEMPTS"%string, VNum 5);
        ("RECONNECTION_DELAY_MS"%string, VNum 1000) ]);
      ("DATABASE"%string, VObj [
        ("QUERY_TIMEOUT_MS"%string, VNum 5000);
        ("MAX_CONCURRENT_QUERIES"%string, VNum 10);
        ("CONNECTION_TIMEOUT_MS"%string, VNum 10000) ]);
      ("API"%string, VObj [
        ("RATE_LIMIT_REQUESTS_PER_MINUTE"%string, VNum 60);
        ("RATE_LIMIT_WINDOW_MS"%string, VNum 60000) ]) ]);
    ("FEATURES"%string, VObj [
      ("REAL_TIME_COLLABORATION"%string, VBool true);
      ("OFFLINE_SUPPORT"%string, VBool false);
      ("EXPORT_FEATURES"%string, VBool false);
      ("ADVANCED_NAVIGATION"%string, VBool false);
      ("SEARCH_FUNCTIONALITY"%string, VBool false);
      ("BOOKMARKING"%string, VBool false);
      ("NOTES_FEATURE"%string, VBool false) ]);
    ("UI"%string, VObj [
      ("MAX_HIGHLIGHTS_VISIBLE"%string, VNum 50);
      ("MAX_COMMENTS_VISIBLE"%string, VNum 20);
      ("AUTO_SAVE_INTERVAL_MS"%string, VNum 5000);
      ("DEBOUNCE_DELAY_MS"%string, VNum 300);
      ("TOOLTIP_DISPLAY_TIME_MS"%string, VNum 3000) ]);
    ("STORAGE"%string, VObj [
      ("MAX_EPUB_FILES"%string, VNum 100);
      ("MAX_FILE_AGE_DAYS"%string, VNum 30);
      ("MAX_DATABASE_SIZE_MB"%string, VNum 1000);
      ("BACKUP_RETENTION_DAYS"%string, VNum 7) ])
  ].

Definition ENVIRONMENT_OVERRIDES : value :=
  VObj [
    ("development"%string, VObj [
      ("FILE"%string, VObj [
        ("MAX_SIZE_MB"%string, VNum 50);
        ("UPLOAD_TIMEOUT_MS"%string, VNum 120000) ]);
      ("USER"%string, VObj [
        ("MAX_CONCURRENT_PER_SESSION"%string, VNum 10) ]);
      ("PERFORMANCE"%string, VObj [
        ("DATABASE"%string, VObj [
          ("QUERY_TIMEOUT_MS"%string, VNum 10000) ]) ]) ]);
    ("testing"%string, VObj [
      ("FILE"%string, VObj [
        ("MAX_SIZE_MB"%string, VNum 10);
        ("UPLOAD_TIMEOUT_MS"%string, VNum 30000) ]);
      ("USER"%string, VObj [
        ("MAX_CONCURRENT_PER_SESSION"%string, VNum 3) ]);
      ("CONTENT"%string, VObj [
        ("HIGHLIGHTS"%string, VObj [
          ("MAX_PER_USER_PER_BOOK"%string, VNum 10) ]) ]) ]);
    ("production"%string, VObj [])
  ].

(** [getCurrentLimits(environment = 'production')]; [None] is a call with no
    argument. A name that is no key of [ENVIRONMENT_OVERRIDES] selects
    nothing enumerable, so the result is the copy of the base limits. *)
Definition getCurrentLimits (environment : option string) : value :=
  let environment := default "production"%string environment in
  let baseLimits := VObj (spread MVP_LIMITS) in
  let overrides := orEmpty (prop ENVIRONMENT_OVERRIDES environment) in
  deepMerge baseLimits overrides.

(** [limits.A.B.C] *)
Fixpoint at_path (v : value) (path : list string) : value :=
  match path with
  | [] => v
  | k :: rest => at_path (prop v k) rest
  end.

(** Relational operators on numbers; a comparison with [undefined] is false. *)
Definition num_lt (a b : value) : bool :=
  match a, b with VNum x, VNum y => x <? y | _, _ => false end.
Definition num_le (a b : value) : bool :=
  match a, b with VNum x, VNum y => x <=? y | _, _ => false end.
Definition num_gt (a b : value) : bool := num_lt b a.
Definition num_ge (a b : value) : bool := num_le b a.

(** The paths read by the validators and by the server. *)
Definition FILE_MAX_SIZE_BYTES : list string :=
  ["FILE"; "MAX_SIZE_BYTES"]%string.
Definition USER_MAX_CONCURRENT_PER_SESSION : list string :=
  ["USER"; "MAX_CONCURRENT_PER_SESSION"]%string.
Definition USER_SESSION_TIMEOUT_MS : list string :=
  ["USER"; "SESSION_TIMEOUT_MS"]%string.
Definition HIGHLIGHTS_MAX_PER_USER_PER_BOOK : list string :=
  ["CONTENT"; "HIGHLIGHTS"; "MAX_PER_USER_PER_BOOK"]%string.
Definition COMMENTS_MAX_PER_HIGHLIGHT : list string :=
  ["CONTENT"; "COMMENTS"; "MAX_PER_HIGHLIGHT"]%string.
Definition COMMENTS_MAX_LENGTH_CHARS : list string :=
  ["CONTENT"; "COMMENTS"; "MAX_LENGTH_CHARS"]%string.
Definition COMMENTS_MIN_LENGTH_CHARS : list string :=
  ["CONTENT"; "COMMENTS"; "MIN_LENGTH_CHARS"]%string.
Definition COMMENTS_MAX_REPLY_DEPTH : list string :=
  ["CONTENT"; "COMMENTS"; "MAX_REPLY_DEPTH"]%string.
Definition EPUB_MAX_PAGES : list string :=
  ["PERFORMANCE"; "EPUB"; "MAX_PAGES"]%string.
Definition WEBSOCKET_MAX_MESSAGES_PER_SECOND : list string :=
  ["PERFORMANCE"; "WEBSOCKET"; "MAX_MESSAGES_PER_SECOND"]%string.

(** [LIMIT_VALIDATORS]: each one starts with
    [const limits = getCurrentLimits();]. *)
Definition validateFileSize (fileSizeBytes : Z) : bool :=
  let limits := getCurrentLimits None in
  num_le (VNum fileSizeBytes) (at_path limits FILE_MAX_SIZE_BYTES).

Definition validateUserCount (currentUserCount : Z) : bool :=
  let limits := getCurrentLimits None in
  num_lt (VNum currentUserCount) (at_path limits USER_MAX_CONCURRENT_PER_SESSION).

(** [now] is the value of [Date.now()]. *)
Definition validateSessionTimeout (now lastActivityTime : Z) : bool :=
  let limits := getCurrentLimits None in
  num_lt (VNum (now - lastActivityTime)) (at_path limits USER_SESSION_TIMEOUT_MS).

Definition validateHighlightCount (userHighlightCount : Z) : bool :=
  let limits := getCurrentLimits None in
  num_lt (VNum userHighlightCount) (at_path limits HIGHLIGHTS_MAX_PER_USER_PER_BOOK).

Definition validateCommentCount (highlightCommentCount : Z) : bool :=
  let limits := getCurrentLimits None in
  num_lt (VNum highlightCommentCount) (at_path limits COMMENTS_MAX_PER_HIGHLIGHT).

Definition validateCommentLength (commentLength : Z) : bool :=
  let limits := getCurrentLimits None in
  num_ge (VNum commentLength) (at_path limits COMMENTS_MIN_LENGTH_CHARS) &&
  num_le (VNum commentLength) (at_path limits COMMENTS_MAX_LENGTH_CHARS).

Definition validateEpubPageCount (pageCount : Z) : bool :=
  let limits := getCurrentLimits None in
  num_le (VNum pageCount) (at_path limits EPUB_MAX_PAGES).

Definition validateMessageRate (messagesPerSecond : Z) : bool :=
  let limits := getCurrentLimits None in
  num_le (VNum messagesPerSecond) (at_path limits WEBSOCKET_MAX_MESSAGES_PER_SECOND).

(** [process.env.NODE_ENV || 'development'], the server's selector. *)
Definition server_environment (NODE_ENV : option string) : string :=
  match NODE_ENV with
  | Some s => if String.eqb s "" then "development"%string else s
  | None => "development"%string
  end.

End Limits.

(* ===================================================================== *)
(** ** Socket.IO, as the handlers use it *)
(* ===================================================================== *)

Module Socket.

Definition str_eqb (a b : string) : bool := String.eqb a b.

(** A room is the set of sockets that joined it. *)
Definition members (rooms : gmap string (gset string)) (room : string)
  : gset string := default ∅ (rooms !! room).

(** [socket.join(room)] *)
Definition socket_join (sock room : string) (rooms : gmap string (gset string))
  : gmap string (gset string) :=
  <[room := {[sock]} ∪ members rooms room]> rooms.

Section Emit.

Variable payload : Type.

(** One delivered message: the receiving socket, the event name, the data. *)
Record emit := {
  to : string;
  event : string;
  body : payload }.

(** [socket.emit(ev, p)] reaches the socket itself. *)
Definition socket_emit (sock ev : string) (p : payload) : list emit :=
  [{| to := sock; event := ev; body := p |}].

(** [socket.to(room).emit(ev, p)] reaches every socket of the room but the
    sender, once each. *)
Definition socket_to_emit (rooms : gmap string (gset string))
  (sock room ev : string) (p : payload) : list emit :=
  (λ r, {| to := r; event := ev; body := p |})
    <$> elements (members rooms room ∖ {[sock]}).

(** The events a socket received under a given name. *)
Definition received (sock ev : string) (out : list emit) : list emit :=
  List.filter (λ m, str_eqb (to m) sock && str_eqb (event m) ev) out.

End Emit.

Arguments Build_emit {payload}.
Arguments to {payload}.
Arguments event {payload}.
Arguments body {payload}.
Arguments socket_emit {payload}.
Arguments socket_to_emit {payload}.
Arguments received {payload}.

End Socket.

(* ===================================================================== *)
(** ** The Socket.IO server and its HTTP routes *)
(* ===================================================================== *)

Module Server.

Import Limits Socket.
Local Open Scope Z_scope.

(** *** Tables

    The columns the handlers write or read. A row's primary key is its id;
    columns filled by [DEFAULT CURRENT_TIMESTAMP] and never read are left
    out. A column an [INSERT] does not name holds [NULL], written [None].
    The database is the handlers' environment: whether a statement reports
    an error to its callback is an input of each handler, and an [INSERT]
    also fails when the primary key is taken or when a column declared
    [NOT NULL] is left without a value. Foreign keys are declared but not
    enforced (the server never sets [PRAGMA foreign_keys]).

    A string of the model is a JavaScript string whose code units are all
    below 256, one character for each code unit: its [String.length] is the
    [.length] of the JavaScript string. *)

Record session_row := {
  s_book_id : string;
  s_user_count : Z;
  s_last_activity : Z }.

Record user_row := {
  u_id : string;
  u_session_id : option string;
  u_username : string;
  u_color : string }.

(** [highlights]: [book_id], [user_id] and [username] are [NOT NULL]; both
    statements that insert a highlight give it a colour. *)
Record highlight_row := {
  h_id : string;
  h_book_id : string;
  h_user_id : string;
  h_username : option string;
  h_chapter : option Z;
  h_text : option string;
  h_text_content : option string;
  h_cfi : option string;
  h_position : option Z;
  h_color : string }.

(** [comments]: [user_id] and [username] are [NOT NULL]. *)
Record comment_row := {
  c_id : string;
  c_book_id : option string;
  c_user_id : string;
  c_username : option string;
  c_chapter : option Z;
  c_text : option string;
  c_comment : option string;
  c_content : option string;
  c_position : option Z;
  c_highlight_id : option string;
  c_parent_id : option string }.

Record progress_row := {
  p_book_id : string;
  p_user_id : string;
  p_username : string;
  p_progress : Q;
  p_chapter : Z;
  p_created_at : Z;
  p_last_updated : Z }.

Record profile_row := {
  bp_book_id : string;
  bp_username : string;
  bp_color : string;
  bp_created_at : Z;
  bp_last_used : Z }.

Record db := {
  sessions : gmap string session_row;
  users : list user_row;
  highlights : list highlight_row;
  comments : list comment_row;
  user_progress : gmap string progress_row;
  book_profiles : gmap string profile_row }.

(** [initializeDatabase] drops and recreates every table. *)
Definition empty_db : db := {|
  sessions := ∅; users := []; highlights := []; comments := [];
  user_progress := ∅; book_profiles := ∅ |}.

Definition set_sessions (f : gmap string session_row → gmap string session_row)
  (d : db) : db := {|
  sessions := f (sessions d); users := users d; highlights := highlights d;
  comments := comments d; user_progress := user_progress d;
  book_profiles := book_profiles d |}.

Definition set_users (f : list user_row → list user_row) (d : db) : db := {|
  sessions := sessions d; users := f (users d); highlights := highlights d;
  comments := comments d; user_progress := user_progress d;
  book_profiles := book_profiles d |}.

Definition set_highlights (f : list highlight_row → list highlight_row)
  (d : db) : db := {|
  sessions := sessions d; users := users d; highlights := f (highlights d);
  comments := comments d; user_progress := user_progress d;
  book_profiles := book_profiles d |}.

Definition set_comments (f : list comment_row → list comment_row)
  (d : db) : db := {|
  sessions := sessions d; users := users d; highlights := highlights d;
  comments := f (comments d); user_progress := user_progress d;
  book_profiles := book_profiles d |}.

Definition set_user_progress
  (f : gmap string progress_row → gmap string progress_row) (d : db) : db := {|
  sessions := sessions d; users := users d; highlights := highlights d;
  comments := comments d; user_progress := f (user_progress d);
  book_profiles := book_profiles d |}.

Definition set_book_profiles
  (f : gmap string profile_row → gmap string profile_row) (d : db) : db := {|
  sessions := sessions d; users := users d; highlights := highlights d;
  comments := comments d; user_progress := user_progress d;
  book_profiles := f (book_profiles d) |}.

Definition opt_is (o : option string) (s : string) : bool :=
  match o with Some s' => str_eqb s' s | None => false end.

(** [SELECT * FROM users WHERE session_id = ?]: the session's roster. *)
Definition roster (d : db) (sessionId : string) : list user_row :=
  List.filter (λ r, opt_is (u_session_id r) sessionId) (users d).

Definition has_user (d : db) (userId : string) : bool :=
  existsb (λ r, str_eqb (u_id r) userId) (users d).

(** [INSERT INTO users ...]; [None] when the callback receives an error. *)
Definition insert_user (err : bool) (row : user_row) (d : db) : option db :=
  if err || has_user d (u_id row) then None
  else Some (set_users (λ us, us ++ [row]) d).

(** [DELETE FROM users WHERE id = ?]; deleting no row is not an error. *)
Definition delete_user (err : bool) (userId : string) (d : db) : option db :=
  if err then None
  else Some (set_users (List.filter (λ r, negb (str_eqb (u_id r) userId))) d).

(** [UPDATE sessions SET user_count = user_count + delta ... WHERE id = ?],
    [touch] giving the new [last_activity] when the statement sets it. Both
    handlers issue it without a callback: when it fails ([err]) the table
    stays as it was and nobody is told. *)
Definition bump_user_count (err : bool) (delta : Z) (touch : option Z)
  (sessionId : string) (d : db) : db :=
  if err then d else
  set_sessions
    (alter (λ s, {| s_book_id := s_book_id s;
                    s_user_count := s_user_count s + delta;
                    s_last_activity := default (s_last_activity s) touch |})
           sessionId) d.

(** [INSERT INTO sessions (id, book_id)], [user_count] taking its default 0. *)
Definition insert_session (err : bool) (sessionId bookId : string) (now : Z)
  (d : db) : option db :=
  if err then None else
  match sessions d !! sessionId with
  | Some _ => None
  | None =>
      Some (set_sessions
              (insert sessionId {| s_book_id := bookId; s_user_count := 0;
                                   s_last_activity := now |}) d)
  end.

(** [SELECT COUNT( * ) FROM highlights WHERE user_id = ? AND book_id = ?] *)
Definition count_highlights (d : db) (userId bookId : string) : Z :=
  Z.of_nat (length (List.filter
    (λ h, str_eqb (h_user_id h) userId && str_eqb (h_book_id h) bookId)
    (highlights d))).

(** [INSERT INTO highlights ...]; [None] when the callback receives an
    error, as it does when the row has no [username]. *)
Definition insert_highlight (err : bool) (row : highlight_row) (d : db)
  : option db :=
  match h_username row with
  | None => None
  | Some _ =>
      if err || existsb (λ h, str_eqb (h_id h) (h_id row)) (highlights d)
      then None
      else Some (set_highlights (λ hs, hs ++ [row]) d)
  end.

(** [SELECT COUNT( * ) FROM comments WHERE highlight_id = ?] *)
Definition count_comments (d : db) (highlightId : string) : Z :=
  Z.of_nat (length (List.filter
    (λ c, opt_is (c_highlight_id c) highlightId) (comments d))).

(** [INSERT INTO comments ...]; [None] when the callback receives an error,
    as it does when the row has no [username]. *)
Definition insert_comment (err : bool) (row : comment_row) (d : db)
  : option db :=
  match c_username row with
  | None => None
  | Some _ =>
      if err || existsb (λ c, str_eqb (c_id c) (c_id row)) (comments d)
      then None
      else Some (set_comments (λ cs, cs ++ [row]) d)
  end.

(** *** What the handlers send *)

Record user := {
  id : string;
  username : string;
  color : string }.

Record highlight := {
  hl_id : string;
  hl_bookId : string;
  hl_userId : string;
  hl_cfi : string;
  hl_textContent : string;
  hl_color : string;
  hl_username : string;
  hl_userColor : string;
  hl_createdDate : Z }.

Record comment := {
  cm_id : string;
  cm_highlightId : string;
  cm_userId : string;
  cm_content : string;
  cm_parentId : option string;
  cm_username : string;
  cm_userColor : string;
  cm_createdDate : Z }.

Record progress_update := {
  pu_userId : string;
  pu_username : string;
  pu_color : string;
  pu_cfi : string;
  pu_percentage : Q }.

Inductive payload :=
| PText (msg : string)
| PUser (u : user)
| PUsers (rows : list user_row)
| PHighlight (h : highlight)
| PComment (c : comment)
| PProgress (p : progress_update).

(** The variables each connection's handlers close over. A handler's test
    [!currentUser || !currentSession] holds when either is [null] or the
    session id is the empty string. *)
Record closure := {
  currentUser : option user;
  currentSession : option string }.

Definition fresh_closure : closure :=
  {| currentUser := None; currentSession := None |}.

(** *** generateUserProfile

    The three draws are the values of
    [Math.floor(Math.random() * array.length)], each below 10. *)

Definition adjectives : list string :=
  ["Cheerful"; "Curious"; "Witty"; "Brave"; "Clever"; "Friendly"; "Gentle";
   "Happy"; "Kind"; "Lively"]%string.
Definition animals : list string :=
  ["Penguin"; "Dolphin"; "Elephant"; "Giraffe"; "Kangaroo"; "Lion"; "Owl";
   "Panda"; "Tiger"; "Zebra"]%string.
Definition colors : list string :=
  ["#FF6B6B"; "#4ECDC4"; "#45B7D1"; "#96CEB4"; "#FFEAA7"; "#DDA0DD";
   "#98D8C8"; "#F7DC6F"; "#BB8FCE"; "#85C1E9"]%string.

Record draws := {
  d_adjective : nat;
  d_animal : nat;
  d_color : nat }.

Record profile := {
  pf_username : string;
  pf_color : string }.

Definition generateUserProfile (r : draws) : profile :=
  let adjective := nth (d_adjective r) adjectives ""%string in
  let animal := nth (d_animal r) animals ""%string in
  let color := nth (d_color r) colors ""%string in
  {| pf_username := (adjective ++ " " ++ animal)%string; pf_color := color |}.

(** *** join-session *)

(** The message's data: the handler reads [sessionId] and nothing else. *)
Record join_data := {
  jd_sessionId : string;
  jd_participantId : option string }.

(** What the environment supplies to one run of the handler: the clock, the
    random draws, the value of [uuidv4()], and whether each statement fails:
    the [SELECT] of the session, the [INSERT] of the user, the [UPDATE] of
    the count and the [SELECT] of the roster. *)
Record join_env := {
  je_now : Z;
  je_draws : draws;
  je_uuid : string;
  je_get_err : bool;
  je_insert_err : bool;
  je_update_err : bool;
  je_all_err : bool }.

Definition result : Type :=
  closure * db * gmap string (gset string) * list (emit payload).

Definition join_session (limits : value) (sock : string) (data : join_data)
  (env : join_env) (c : closure) (d : db) (rooms : gmap string (gset string))
  : result :=
  let sessionId := jd_sessionId data in
  match (if je_get_err env then None else sessions d !! sessionId) with
  | None => (c, d, rooms, socket_emit sock "error" (PText "Session not found"))
  | Some session =>
      if num_ge (VNum (s_user_count session))
                (at_path limits USER_MAX_CONCURRENT_PER_SESSION)
      then (c, d, rooms, socket_emit sock "error" (PText "Session is full"))
      else
        let profile := generateUserProfile (je_draws env) in
        let userId := je_uuid env in
        match insert_user (je_insert_err env)
                {| u_id := userId; u_session_id := Some sessionId;
                   u_username := pf_username profile;
                   u_color := pf_color profile |} d with
        | None =>
            (c, d, rooms,
             socket_emit sock "error" (PText "Failed to create user"))
        | Some d1 =>
            let d2 := bump_user_count (je_update_err env) 1
                        (Some (je_now env)) sessionId d1 in
            let me := {| id := userId; username := pf_username profile;
                         color := pf_color profile |} in
            let rooms' := socket_join sock sessionId rooms in
            ({| currentUser := Some me; currentSession := Some sessionId |},
             d2, rooms',
             socket_emit sock "user-joined" (PUser me)
             ++ socket_to_emit rooms' sock sessionId "user-joined-session"
                  (PUser me)
             ++ (if je_all_err env then []
                 else socket_emit sock "session-users"
                        (PUsers (roster d2 sessionId))))
        end
  end.

(** *** create-highlight

    The handler's [INSERT] names the columns id, book_id, user_id, cfi,
    text_content and color. *)

Record highlight_data := {
  hd_bookId : string;
  hd_cfi : string;
  hd_textContent : string;
  hd_color : option string }.

Record write_env := {
  we_now : Z;
  we_uuid : string;
  we_count_err : bool;
  we_insert_err : bool }.

(** [color || fallback] *)
Definition or_color (color : option string) (fallback : string) : string :=
  match color with
  | Some s => if str_eqb s "" then fallback else s
  | None => fallback
  end.

Definition create_highlight (limits : value) (sock : string)
  (data : highlight_data) (env : write_env) (c : closure) (d : db)
  (rooms : gmap string (gset string)) : result :=
  match currentUser c, currentSession c with
  | Some me, Some session =>
      if str_eqb session "" then
        (c, d, rooms,
         socket_emit sock "error" (PText "Not connected to session"))
      else
      let highlightId := we_uuid env in
      if we_count_err env
         || num_ge (VNum (count_highlights d (id me) (hd_bookId data)))
                   (at_path limits HIGHLIGHTS_MAX_PER_USER_PER_BOOK)
      then (c, d, rooms,
            socket_emit sock "error" (PText "Highlight limit reached"))
      else
        match insert_highlight (we_insert_err env)
                {| h_id := highlightId; h_book_id := hd_bookId data;
                   h_user_id := id me; h_username := None;
                   h_chapter := None; h_text := None;
                   h_text_content := Some (hd_textContent data);
                   h_cfi := Some (hd_cfi data); h_position := None;
                   h_color := or_color (hd_color data) (color me) |} d with
        | None =>
            (c, d, rooms,
             socket_emit sock "error" (PText "Failed to create highlight"))
        | Some d1 =>
            let highlight := {|
              hl_id := highlightId; hl_bookId := hd_bookId data;
              hl_userId := id me; hl_cfi := hd_cfi data;
              hl_textContent := hd_textContent data;
              hl_color := or_color (hd_color data) (color me);
              hl_username := username me; hl_userColor := color me;
              hl_createdDate := we_now env |} in
            (c, d1, rooms,
             socket_emit sock "highlight-created" (PHighlight highlight)
             ++ socket_to_emit rooms sock session "highlight-added"
                  (PHighlight highlight))
        end
  | _, _ =>
      (c, d, rooms, socket_emit sock "error" (PText "Not connected to session"))
  end.

(** *** create-comment

    The handler's [INSERT] names the columns id, highlight_id, user_id,
    content and parent_id. *)

Record comment_data := {
  cd_highlightId : string;
  cd_content : string;
  cd_parentId : option string }.

(** [parentId || null], and [highlightId || null] in the HTTP route *)
Definition or_null (parentId : option string) : option string :=
  match parentId with
  | Some s => if str_eqb s "" then None else Some s
  | None => None
  end.

(** [content.length] *)
Definition content_length (content : string) : Z :=
  Z.of_nat (String.length content).

Definition create_comment (limits : value) (sock : string)
  (data : comment_data) (env : write_env) (c : closure) (d : db)
  (rooms : gmap string (gset string)) : result :=
  match currentUser c, currentSession c with
  | Some me, Some session =>
      if str_eqb session "" then
        (c, d, rooms,
         socket_emit sock "error" (PText "Not connected to session"))
      else
      let commentId := we_uuid env in
      if num_lt (VNum (content_length (cd_content data)))
                (at_path limits COMMENTS_MIN_LENGTH_CHARS)
         || num_gt (VNum (content_length (cd_content data)))
                   (at_path limits COMMENTS_MAX_LENGTH_CHARS)
      then (c, d, rooms,
            socket_emit sock "error" (PText "Comment length invalid"))
      else
      if we_count_err env
         || num_ge (VNum (count_comments d (cd_highlightId data)))
                   (at_path limits COMMENTS_MAX_PER_HIGHLIGHT)
      then (c, d, rooms,
            socket_emit sock "error" (PText "Comment limit reached"))
      else
        match insert_comment (we_insert_err env)
                {| c_id := commentId; c_book_id := None; c_user_id := id me;
                   c_username := None; c_chapter := None; c_text := None;
                   c_comment := None; c_content := Some (cd_content data);
                   c_position := None;
                   c_highlight_id := Some (cd_highlightId data);
                   c_parent_id := or_null (cd_parentId data) |} d with
        | None =>
            (c, d, rooms,
             socket_emit sock "error" (PText "Failed to create comment"))
        | Some d1 =>
            let comment := {|
              cm_id := commentId; cm_highlightId := cd_highlightId data;
              cm_userId := id me; cm_content := cd_content data;
              cm_parentId := or_null (cd_parentId data);
              cm_username := username me; cm_userColor := color me;
              cm_createdDate := we_now env |} in
            (c, d1, rooms,
             socket_emit sock "comment-created" (PComment comment)
             ++ socket_to_emit rooms sock session "comment-added"
                  (PComment comment))
        end
  | _, _ =>
      (c, d, rooms, socket_emit sock "error" (PText "Not connected to session"))
  end.

(** *** update-progress *)

Record progress_data := {
  pd_cfi : string;
  pd_percentage : Q }.

Definition update_progress (sock : string) (data : progress_data)
  (c : closure) (d : db) (rooms : gmap string (gset string)) : result :=
  match currentUser c, currentSession c with
  | Some me, Some session =>
      if str_eqb session "" then (c, d, rooms, [])
      else
        (c, d, rooms,
         socket_to_emit rooms sock session "user-progress-updated"
           (PProgress {| pu_userId := id me; pu_username := username me;
                         pu_color := color me; pu_cfi := pd_cfi data;
                         pu_percentage := pd_percentage data |}))
  | _, _ => (c, d, rooms, [])
  end.

(** *** disconnect

    The handler leaves [currentUser] and [currentSession] as they are.
    [delete_err] and [update_err] tell whether the [DELETE] of the user and
    the [UPDATE] of the count fail; the [UPDATE] is issued only after a
    [DELETE] that reported no error. *)

Definition disconnect (sock : string) (delete_err update_err : bool)
  (c : closure) (d : db) (rooms : gmap string (gset string)) : result :=
  match currentUser c, currentSession c with
  | Some me, Some session =>
      if str_eqb session "" then (c, d, rooms, [])
      else
        match delete_user delete_err (id me) d with
        | None => (c, d, rooms, [])
        | Some d1 =>
            (c, bump_user_count update_err (-1) None session d1, rooms,
             socket_to_emit rooms sock session "user-left" (PUser me))
        end
  | _, _ => (c, d, rooms, [])
  end.

(** *** join-session, one database statement at a time

    The handler is a chain of callbacks: the [SELECT] of the session, whose
    callback checks the limit and issues the [INSERT]; the [INSERT], whose
    callback sets the closure variables, joins the room, emits, and issues
    the [UPDATE] of the count and the [SELECT] of the roster. Between two
    statements of one request the event loop may run the statements and
    callbacks of another; a callback itself runs to completion. *)

Inductive pending :=
| PGet (data : join_data)
| PInsert (sessionId : string) (me : user)
| PUpdate (sessionId : string)
| PAll (sessionId : string).

Definition join_step (limits : value) (sock : string) (env : join_env)
  (p : pending) (c : closure) (d : db) (rooms : gmap string (gset string))
  : result * option pending :=
  match p with
  | PGet data =>
      let sessionId := jd_sessionId data in
      match (if je_get_err env then None else sessions d !! sessionId) with
      | None =>
          ((c, d, rooms, socket_emit sock "error" (PText "Session not found")),
           None)
      | Some session =>
          if num_ge (VNum (s_user_count session))
                    (at_path limits USER_MAX_CONCURRENT_PER_SESSION)
          then ((c, d, rooms,
                 socket_emit sock "error" (PText "Session is full")), None)
          else
            let profile := generateUserProfile (je_draws env) in
            ((c, d, rooms, []),
             Some (PInsert sessionId
                     {| id := je_uuid env; username := pf_username profile;
                        color := pf_color profile |}))
      end
  | PInsert sessionId me =>
      match insert_user (je_insert_err env)
              {| u_id := id me; u_session_id := Some sessionId;
                 u_username := username me; u_color := color me |} d with
      | None =>
          ((c, d, rooms,
            socket_emit sock "error" (PText "Failed to create user")), None)
      | Some d1 =>
          let rooms' := socket_join sock sessionId rooms in
          (({| currentUser := Some me; currentSession := Some sessionId |},
            d1, rooms',
            socket_emit sock "user-joined" (PUser me)
            ++ socket_to_emit rooms' sock sessionId "user-joined-session"
                 (PUser me)),
           Some (PUpdate sessionId))
      end
  | PUpdate sessionId =>
      ((c, bump_user_count (je_update_err env) 1 (Some (je_now env))
             sessionId d, rooms, []),
       Some (PAll sessionId))
  | PAll sessionId =>
      ((c, d, rooms,
        if je_all_err env then []
        else socket_emit sock "session-users" (PUsers (roster d sessionId))),
       None)
  end.

(** One request's statements run back to back. *)
Fixpoint join_steps (fuel : nat) (limits : value) (sock : string)
  (env : join_env) (p : option pending) (c : closure) (d : db)
  (rooms : gmap string (gset string)) : result :=
  match fuel, p with
  | S fuel', Some p =>
      let '((c1, d1, rooms1, out1), p') := join_step limits sock env p c d rooms in
      let '(c2, d2, rooms2, out2) := join_steps fuel' limits sock env p' c1 d1 rooms1 in
      (c2, d2, rooms2, out1 ++ out2)
  | _, _ => (c, d, rooms, [])
  end.

(** *** HTTP routes *)

Inductive reply :=
| RError (status : Z) (error : string)
| RSuccess.

Record progress_body := {
  pb_profile_id : option string;
  pb_username : option string;
  pb_progress : option Q;
  pb_chapter : option Z }.

(** [chapter || 1] *)
Definition or_one (chapter : option Z) : Z :=
  match chapter with
  | Some n => if Z.eqb n 0 then 1 else n
  | None => 1
  end.

(** [POST /api/books/:bookId/progress] *)
Definition post_progress (bookId : string) (body : progress_body) (now : Z)
  (insert_err update_err : bool) (d : db) : db * reply :=
  match pb_profile_id body, pb_username body, pb_progress body with
  | Some profile_id, Some username, Some progress =>
      if str_eqb profile_id "" || str_eqb username "" then
        (d, RError 400 "Missing required fields")
      else
        let progressId := (bookId ++ "_" ++ profile_id)%string in
        let chapter := or_one (pb_chapter body) in
        if insert_err then (d, RError 500 "Failed to update progress")
        else
          let d1 :=
            set_user_progress
              (λ t, match t !! progressId with
                    | Some _ => t
                    | None =>
                        <[progressId :=
                            {| p_book_id := bookId; p_user_id := profile_id;
                               p_username := username; p_progress := progress;
                               p_chapter := chapter; p_created_at := now;
                               p_last_updated := now |}]> t
                    end) d in
          if update_err then (d1, RError 500 "Failed to update progress")
          else
            (set_user_progress
               (alter (λ r, {| p_book_id := p_book_id r;
                               p_user_id := p_user_id r;
                               p_username := username;
                               p_progress := progress;
                               p_chapter := chapter;
                               p_created_at := p_created_at r;
                               p_last_updated := now |}) progressId) d1,
             RSuccess)
  | _, _, _ => (d, RError 400 "Missing required fields")
  end.

(** [POST /api/books/:bookId/highlights]. The body's fields as the reader
    component sends them: strings, and numbers for the chapter and the
    position; [!x] holds of a field left out, of the empty string and of 0.
    The [INSERT] names the columns id, book_id, user_id, username, text,
    chapter, position, color and created_date. *)
Record highlight_body := {
  hb_text : option string;
  hb_chapter : option Z;
  hb_position : option Z;
  hb_color : option string;
  hb_profile_id : option string;
  hb_username : option string }.

Record new_highlight := {
  nh_id : string;
  nh_book_id : string;
  nh_user_id : string;
  nh_username : string;
  nh_text : string;
  nh_chapter : Z;
  nh_position : option Z;
  nh_color : string;
  nh_created_date : Z }.

Inductive posted (A : Type) :=
| PostError (status : Z) (error : string)
| PostJson (body : A).
Arguments PostError {A} status error.
Arguments PostJson {A} body.

Definition post_highlight (bookId : string) (body : highlight_body)
  (uuid : string) (now : Z) (err : bool) (d : db)
  : db * posted new_highlight :=
  match hb_text body, hb_chapter body, hb_profile_id body, hb_username body with
  | Some text, Some chapter, Some profile_id, Some username =>
      if str_eqb text "" || Z.eqb chapter 0 || str_eqb profile_id ""
         || str_eqb username ""
      then (d, PostError 400 "Missing required fields")
      else
        let highlightId := uuid in
        match insert_highlight err
                {| h_id := highlightId; h_book_id := bookId;
                   h_user_id := profile_id; h_username := Some username;
                   h_chapter := Some chapter; h_text := Some text;
                   h_text_content := None; h_cfi := None;
                   h_position := hb_position body;
                   h_color := or_color (hb_color body) "#ffeb3b" |} d with
        | None => (d, PostError 500 "Failed to create highlight")
        | Some d1 =>
            (d1,
             PostJson {| nh_id := highlightId; nh_book_id := bookId;
                         nh_user_id := profile_id; nh_username := username;
                         nh_text := text; nh_chapter := chapter;
                         nh_position := hb_position body;
                         nh_color := or_color (hb_color body) "#ffeb3b";
                         nh_created_date := now |})
        end
  | _, _, _, _ => (d, PostError 400 "Missing required fields")
  end.

(** [POST /api/books/:bookId/comments]. The [INSERT] names the columns id,
    book_id, user_id, username, text, comment, chapter, position and
    highlight_id, the last with [highlightId || null]; it names neither
    content nor parent_id. *)
Record comment_body := {
  cb_text : option string;
  cb_selectedText : option string;
  cb_chapter : option Z;
  cb_position : option Z;
  cb_highlightId : option string;
  cb_profile_id : option string;
  cb_username : option string }.

Record new_comment := {
  nc_id : string;
  nc_book_id : string;
  nc_user_id : string;
  nc_username : string;
  nc_text : string;
  nc_comment : string;
  nc_chapter : Z;
  nc_position : option Z;
  nc_highlight_id : option string;
  nc_created_at : Z }.

Definition post_comment (bookId : string) (body : comment_body)
  (uuid : string) (now : Z) (err : bool) (d : db)
  : db * posted new_comment :=
  match cb_text body, cb_selectedText body, cb_chapter body,
        cb_profile_id body, cb_username body with
  | Some text, Some selectedText, Some chapter, Some profile_id,
    Some username =>
      if str_eqb text "" || str_eqb selectedText "" || Z.eqb chapter 0
         || str_eqb profile_id "" || str_eqb username ""
      then (d, PostError 400 "Missing required fields")
      else
        let commentId := uuid in
        match insert_comment err
                {| c_id := commentId; c_book_id := Some bookId;
                   c_user_id := profile_id; c_username := Some username;
                   c_chapter := Some chapter; c_text := Some selectedText;
                   c_comment := Some text; c_content := None;
                   c_position := cb_position body;
                   c_highlight_id := or_null (cb_highlightId body);
                   c_parent_id := None |} d with
        | None => (d, PostError 500 "Failed to create comment")
        | Some d1 =>
            (d1,
             PostJson {| nc_id := commentId; nc_book_id := bookId;
                         nc_user_id := profile_id; nc_username := username;
                         nc_text := selectedText; nc_comment := text;
                         nc_chapter := chapter;
                         nc_position := cb_position body;
                         nc_highlight_id := cb_highlightId body;
                         nc_created_at := now |})
        end
  | _, _, _, _, _ => (d, PostError 400 "Missing required fields")
  end.

(** The stored progress of a profile on a book. *)
Definition stored_progress (d : db) (bookId profile_id : string) : option Q :=
  p_progress <$> user_progress d !! (bookId ++ "_" ++ profile_id)%string.

(** [PUT /api/books/:bookId/profiles/:profileId/use] *)
Definition put_profile_use (bookId profileId : string) (now : Z) (err : bool)
  (d : db) : db * reply :=
  if err then (d, RError 500 "Failed to update profile")
  else
    match book_profiles d !! profileId with
    | Some row =>
        if str_eqb (bp_book_id row) bookId then
          (set_book_profiles
             (insert profileId
                {| bp_book_id := bp_book_id row;
                   bp_username := bp_username row; bp_color := bp_color row;
                   bp_created_at := bp_created_at row;
                   bp_last_used := now |}) d,
           RSuccess)
        else (d, RError 404 "Profile not found")
    | None => (d, RError 404 "Profile not found")
    end.

(** *** The server as a whole, one event at a time *)

Record state := {
  st_db : db;
  st_rooms : gmap string (gset string);
  st_conns : gmap string closure }.

(** A started server: tables recreated, nobody connected. *)
Definition init : state :=
  {| st_db := empty_db; st_rooms := ∅; st_conns := ∅ |}.

(** What reaches the server: a new connection; the session row an upload
    creates; the messages of a socket; the loss of a connection. *)
Inductive server_event :=
| Connect (sock : string)
| Upload (sessionId bookId : string) (now : Z) (err : bool)
| JoinSession (sock : string) (data : join_data) (env : join_env)
| CreateHighlight (sock : string) (data : highlight_data) (env : write_env)
| CreateComment (sock : string) (data : comment_data) (env : write_env)
| UpdateProgress (sock : string) (data : progress_data)
| Disconnect (sock : string) (delete_err update_err : bool).

(** A message on a connected socket runs its handler on the socket's closure. *)
Definition on_socket (sock : string)
  (h : closure → db → gmap string (gset string) → result) (st : state)
  : state * list (emit payload) :=
  match st_conns st !! sock with
  | None => (st, [])
  | Some c =>
      let '(c', d', rooms', out) := h c (st_db st) (st_rooms st) in
      ({| st_db := d'; st_rooms := rooms';
          st_conns := <[sock := c']> (st_conns st) |}, out)
  end.

(** A closing socket has left its rooms when [disconnect] fires. *)
Definition leave_all (sock : string) (rooms : gmap string (gset string))
  : gmap string (gset string) :=
  (λ ms, ms ∖ {[sock]}) <$> rooms.

Definition step (limits : value) (e : server_event) (st : state)
  : state * list (emit payload) :=
  match e with
  | Connect sock =>
      match st_conns st !! sock with
      | Some _ => (st, [])
      | None =>
          ({| st_db := st_db st; st_rooms := st_rooms st;
              st_conns := <[sock := fresh_closure]> (st_conns st) |}, [])
      end
  | Upload sessionId bookId now err =>
      ({| st_db := default (st_db st)
                     (insert_session err sessionId bookId now (st_db st));
          st_rooms := st_rooms st; st_conns := st_conns st |}, [])
  | JoinSession sock data env =>
      on_socket sock (join_session limits sock data env) st
  | CreateHighlight sock data env =>
      on_socket sock (create_highlight limits sock data env) st
  | CreateComment sock data env =>
      on_socket sock (create_comment limits sock data env) st
  | UpdateProgress sock data =>
      on_socket sock (update_progress sock data) st
  | Disconnect sock delete_err update_err =>
      match st_conns st !! sock with
      | None => (st, [])
      | Some c =>
          let rooms0 := leave_all sock (st_rooms st) in
          let '(_, d', _, out) :=
            disconnect sock delete_err update_err c (st_db st) rooms0 in
          ({| st_db := d'; st_rooms := rooms0;
              st_conns := delete sock (st_conns st) |}, out)
      end
  end.

Fixpoint run (limits : value) (evs : list server_event) (st : state)
  : state * list (emit payload) :=
  match evs with
  | [] => (st, [])
  | e :: rest =>
      let '(st1, out1) := step limits e st in
      let '(st2, out2) := run limits rest st1 in
      (st2, out1 ++ out2)
  end.

(** *** Overlapping join requests

    Each request is a socket, its environment and the statement it waits
    for; a schedule names, step by step, the request whose statement the
    database runs next. *)

Record request := {
  rq_sock : string;
  rq_env : join_env;
  rq_next : option pending }.

Definition advance (limits : value) (i : nat) (st : state)
  (reqs : list request) : state * list request * list (emit payload) :=
  match reqs !! i with
  | Some r =>
      match rq_next r, st_conns st !! rq_sock r with
      | Some p, Some c =>
          let '((c', d', rooms', out), p') :=
            join_step limits (rq_sock r) (rq_env r) p c (st_db st) (st_rooms st) in
          ({| st_db := d'; st_rooms := rooms';
              st_conns := <[rq_sock r := c']> (st_conns st) |},
           <[i := {| rq_sock := rq_sock r; rq_env := rq_env r;
                     rq_next := p' |}]> reqs,
           out)
      | _, _ => (st, reqs, [])
      end
  | None => (st, reqs, [])
  end.

Fixpoint interleave (limits : value) (schedule : list nat) (st : state)
  (reqs : list request) : state * list request * list (emit payload) :=
  match schedule with
  | [] => (st, reqs, [])
  | i :: rest =>
      let '(st1, reqs1, out1) := advance limits i st reqs in
      let '(st2, reqs2, out2) := interleave limits rest st1 reqs1 in
      (st2, reqs2, out1 ++ out2)
  end.

End Server.

(* ===================================================================== *)
(** ** The older server: add-highlight *)
(* ===================================================================== *)

Module Legacy.

Import Socket.

(** [./services/database] and [./config/config] are not part of the sources
    at hand: what [dbService.getUserHighlights] and [dbService.addHighlight]
    resolve to ([None] when the promise rejects) and the configured maximum
    are inputs of the handler. *)

Section AddHighlight.

Variable Highlight : Type.
Variable MAX_HIGHLIGHTS_PER_USER : Z.

Inductive payload :=
| Message (message : string)
| Stored (highlight : Highlight).

Record highlight_data := {
  bookId : option string;
  userId : option string;
  cfiRange : option string }.

Definition add_highlight (sock : string) (data : highlight_data)
  (getUserHighlights : option (list Highlight))
  (addHighlight : option Highlight) (rooms : gmap string (gset string))
  : list (emit payload) :=
  match bookId data, userId data, cfiRange data with
  | Some book, Some user, Some cfi =>
      if Socket.str_eqb book "" || Socket.str_eqb user ""
         || Socket.str_eqb cfi "" then
        socket_emit sock "error" (Message "Missing required fields for highlight")
      else
        match getUserHighlights with
        | None => socket_emit sock "error" (Message "Failed to add highlight")
        | Some userHighlights =>
            if (MAX_HIGHLIGHTS_PER_USER <=? Z.of_nat (length userHighlights))%Z
            then socket_emit sock "error" (Message "Maximum highlights reached")
            else
              match addHighlight with
              | None =>
                  socket_emit sock "error" (Message "Failed to add highlight")
              | Some highlight =>
                  socket_to_emit rooms sock book "highlight-added"
                    (Stored highlight)
                  ++ socket_emit sock "highlight-confirmed" (Stored highlight)
              end
        end
  | _, _, _ =>
      socket_emit sock "error" (Message "Missing required fields for highlight")
  end.

End AddHighlight.

End Legacy.

(* ===================================================================== *)
(** ** The reader component: furthest progress *)
(* ===================================================================== *)

Module Reader.

Local Open Scope Q_scope.

(** The scroll container's metrics. *)
Record scroll := {
  scrollTop : Q;
  scrollHeight : Q;
  clientHeight : Q }.

Definition Qgtb (a b : Q) : bool := negb (Qle_bool a b).

Definition PROGRESS_UPDATE_THROTTLE : Z := 2000.

(** The browser's numbers are doubles: the result of a subtraction, a
    division or a multiplication is the exact result rounded. [fl] is that
    rounding, of which nothing is assumed; a result too large for a double
    is any number above 100, which [Math.min] brings back to 100 as it does
    [Infinity]. Comparisons, [Math.min] and [Math.max] are exact. *)
Section Doubles.

Variable fl : Q → Q.

(** [currentProgress] *)
Definition percent_scrolled (s : scroll) : Q :=
  Qmin 100
    (Qmax 0
       (fl (fl (scrollTop s / fl (scrollHeight s - clientHeight s)) * 100))).

(** [updateReadingProgress], on the value of [furthestProgress] its closure
    holds: the new value of the state, and the argument of the call of
    [sendProgressUpdate] when there is one. [None] for the container: no
    content element. The scroll listener calls the function of the render
    in which the listener was attached, whose [furthestProgress] is the
    value of that render. *)
Definition updateReadingProgress (furthestProgress : Q)
  (container : option scroll) : Q * option Q :=
  match container with
  | None => (furthestProgress, None)
  | Some s =>
      if Qgtb (scrollHeight s) (clientHeight s) then
        let currentProgress := percent_scrolled s in
        if Qgtb currentProgress furthestProgress
        then (currentProgress, Some currentProgress)
        else (furthestProgress, None)
      else (furthestProgress, None)
  end.

End Doubles.

(** [sendProgressUpdate]: the body posted to
    [/api/books/:bookId/progress], if any. *)
Definition sendProgressUpdate (currentProfile : option (string * string))
  (bookId : option string) (currentChapter : Z) (lastProgressUpdate now : Z)
  (progress : Q) : option (string * Server.progress_body) :=
  match currentProfile, bookId with
  | Some (profile_id, username), Some book =>
      if Socket.str_eqb book "" then None
      else if (now - lastProgressUpdate <? PROGRESS_UPDATE_THROTTLE)%Z then None
      else Some (book,
                 {| Server.pb_profile_id := Some profile_id;
                    Server.pb_username := Some username;
                    Server.pb_progress := Some progress;
                    Server.pb_chapter := Some (currentChapter + 1)%Z |})
  | _, _ => None
  end.

End Reader.

(* ===================================================================== *)
(** ** The design document: replies with a depth limit *)
(* ===================================================================== *)

Module Pseudocode.

Import Limits.
Local Open Scope Z_scope.

Definition REPLIES_MAX_PER_COMMENT : list string :=
  ["CONTENT"; "REPLIES"; "MAX_PER_COMMENT"]%string.
Definition REPLIES_MAX_LENGTH_CHARS : list string :=
  ["CONTENT"; "REPLIES"; "MAX_LENGTH_CHARS"]%string.

Inductive outcome :=
| ReplyDepthExceeded (maxDepth : value)
| CommentTooLong (maxLength : value)
| TooManyReplies
| ReplyCreated (replyDepth : Z).

(** [addReplyWithLimits(commentId, content)] of pseudocode.md, on what it
    fetches: the parent comment's [replyDepth], the content's length and the
    parent's reply count. *)
Definition addReplyWithLimits (parentReplyDepth contentLength replyCount : Z)
  : outcome :=
  let limits := getCurrentLimits None in
  if num_ge (VNum parentReplyDepth) (at_path limits COMMENTS_MAX_REPLY_DEPTH)
  then ReplyDepthExceeded (at_path limits COMMENTS_MAX_REPLY_DEPTH)
  else if num_gt (VNum contentLength) (at_path limits REPLIES_MAX_LENGTH_CHARS)
  then CommentTooLong (at_path limits REPLIES_MAX_LENGTH_CHARS)
  else if num_ge (VNum replyCount) (at_path limits REPLIES_MAX_PER_COMMENT)
  then TooManyReplies
  else ReplyCreated (parentReplyDepth + 1).

End Pseudocode.

(* ===================================================================== *)
(** ** Vocabulary of the properties *)
(* ===================================================================== *)

Module Spec.

Import Limits.
Local Open Scope Z_scope.

(** The six validators that test a count, a length, a size or a rate. *)
Inductive validator :=
| FileSize
| UserCount
| HighlightCount
| CommentCount
| CommentLength
| MessageRate.

Definition LIMIT_VALIDATORS (v : validator) : Z → bool :=
  match v with
  | FileSize => validateFileSize
  | UserCount => validateUserCount
  | HighlightCount => validateHighlightCount
  | CommentCount => validateCommentCount
  | CommentLength => validateCommentLength
  | MessageRate => validateMessageRate
  end.

(** The test a validator makes, made on a given limits object. *)
Definition decided_on (limits : value) (v : validator) (n : Z) : bool :=
  match v with
  | FileSize => num_le (VNum n) (at_path limits FILE_MAX_SIZE_BYTES)
  | UserCount => num_lt (VNum n) (at_path limits USER_MAX_CONCURRENT_PER_SESSION)
  | HighlightCount =>
      num_lt (VNum n) (at_path limits HIGHLIGHTS_MAX_PER_USER_PER_BOOK)
  | CommentCount => num_lt (VNum n) (at_path limits COMMENTS_MAX_PER_HIGHLIGHT)
  | CommentLength =>
      num_ge (VNum n) (at_path limits COMMENTS_MIN_LENGTH_CHARS)
      && num_le (VNum n) (at_path limits COMMENTS_MAX_LENGTH_CHARS)
  | MessageRate =>
      num_le (VNum n) (at_path limits WEBSOCKET_MAX_MESSAGES_PER_SECOND)
  end.

(** The ceilings a validator reads. *)
Definition ceilings (limits : value) (v : validator) : list value :=
  match v with
  | FileSize => [at_path limits FILE_MAX_SIZE_BYTES]
  | UserCount => [at_path limits USER_MAX_CONCURRENT_PER_SESSION]
  | HighlightCount => [at_path limits HIGHLIGHTS_MAX_PER_USER_PER_BOOK]
  | CommentCount => [at_path limits COMMENTS_MAX_PER_HIGHLIGHT]
  | CommentLength =>
      [at_path limits COMMENTS_MIN_LENGTH_CHARS;
       at_path limits COMMENTS_MAX_LENGTH_CHARS]
  | MessageRate => [at_path limits WEBSOCKET_MAX_MESSAGES_PER_SECOND]
  end.

(** The limits object the server loads at startup. *)
Definition server_limits (NODE_ENV : option string) : value :=
  getCurrentLimits (Some (server_environment NODE_ENV)).

(** *** Scenarios *)

Import Socket Server.

Definition production : value := getCurrentLimits (Some "production"%string).

Definition env_join (uuid : string) (draw : nat) (now : Z) : join_env :=
  {| je_now := now;
     je_draws := {| d_adjective := draw; d_animal := draw; d_color := draw |};
     je_uuid := uuid; je_get_err := false; je_insert_err := false;
     je_update_err := false; je_all_err := false |}.

Definition env_write (uuid : string) : write_env :=
  {| we_now := 0; we_uuid := uuid; we_count_err := false;
     we_insert_err := false |}.

Definition join_s1 : join_data :=
  {| jd_sessionId := "s1"; jd_participantId := None |}.

(** A book is uploaded; sockets A and B connect and join its session. *)
Definition two_readers : list server_event :=
  [ Upload "s1" "b1" 0 false;
    Connect "A"; Connect "B";
    JoinSession "A" join_s1 (env_join "uA" 0 1);
    JoinSession "B" join_s1 (env_join "uB" 1 2) ].

Definition joined_state : state := (run production two_readers init).1.

Definition closure_of (st : state) (sock : string) : closure :=
  default fresh_closure (st_conns st !! sock).

Definition a_highlight : highlight_data :=
  {| hd_bookId := "b1"; hd_cfi := "epubcfi(/6/4!/4/2)";
     hd_textContent := "call me Ishmael"; hd_color := None |}.

Definition a_comment (parent : option string) : comment_data :=
  {| cd_highlightId := "h1"; cd_content := "so it begins";
     cd_parentId := parent |}.

(** What the reader component posts to the HTTP routes: a highlight of the
    book, and a comment on the highlight h1. *)
Definition a_posted_highlight : highlight_body :=
  {| hb_text := Some "call me Ishmael"%string; hb_chapter := Some 1;
     hb_position := Some 0; hb_color := None;
     hb_profile_id := Some "p1"%string;
     hb_username := Some "Happy Owl"%string |}.

Definition a_posted_comment : comment_body :=
  {| cb_text := Some "so it begins"%string;
     cb_selectedText := Some "call me Ishmael"%string; cb_chapter := Some 1;
     cb_position := Some 0; cb_highlightId := Some "h1"%string;
     cb_profile_id := Some "p1"%string;
     cb_username := Some "Happy Owl"%string |}.

Definition with_db (f : db → db) (st : state) : state :=
  {| st_db := f (st_db st); st_rooms := st_rooms st;
     st_conns := st_conns st |}.

(** Comments posted on h1 over HTTP, one for each generated id. *)
Definition post_comments (ids : list string) (d : db) : db :=
  fold_left (λ d' i, (post_comment "b1" a_posted_comment i 0 false d').1)
    ids d.

(** With A and B in the session, the highlight h1 is posted over HTTP; it
    has no comment yet, then one, then five. *)
Definition highlighted_state : state :=
  with_db (λ d, (post_highlight "b1" a_posted_highlight "h1" 0 false d).1)
    joined_state.

Definition commented_state : state :=
  with_db (post_comments ["c1"%string]) highlighted_state.

Definition full_state : state :=
  with_db (post_comments ["c1"; "c2"; "c3"; "c4"; "c5"]%string)
    highlighted_state.

Definition user_A : user :=
  {| id := "uA"; username := "Cheerful Penguin"; color := "#FF6B6B" |}.

Definition env_count_fails (uuid : string) : write_env :=
  {| we_now := 0; we_uuid := uuid; we_count_err := true;
     we_insert_err := false |}.

Fixpoint text_of_length (n : nat) : string :=
  match n with
  | O => ""%string
  | S n' => String (Ascii.ascii_of_nat 120) (text_of_length n')
  end.

Definition comment_of_length (n : nat) : comment_data :=
  {| cd_highlightId := "h1"; cd_content := text_of_length n;
     cd_parentId := None |}.

(** What a handler's result holds. *)
Definition db_of (r : result) : db := r.1.1.2.
Definition emits_of (r : result) : list (emit payload) := r.2.
Definition closure_in (r : result) : closure := r.1.1.1.

(** A profile stored for the book before anybody joins. *)
Definition known_profile : profile_row :=
  {| bp_book_id := "b1"; bp_username := "Happy Owl"; bp_color := "#96CEB4";
     bp_created_at := 0; bp_last_used := 0 |}.

Definition with_known_profile (st : state) : state :=
  {| st_db := set_book_profiles (insert "p1"%string known_profile) (st_db st);
     st_rooms := st_rooms st; st_conns := st_conns st |}.

(** Socket C connects and joins, naming the known profile. *)
Definition join_as_p1 : state * list (emit payload) :=
  step production
    (JoinSession "C" {| jd_sessionId := "s1";
                        jd_participantId := Some "p1"%string |}
       (env_join "uC" 2 7))
    (step production (Connect "C") (with_known_profile joined_state)).1.

(** The scroll container at offset [y] of 100 scrollable units. *)
Definition scrolled_to (y : Q) : option Reader.scroll :=
  Some {| Reader.scrollTop := y; Reader.scrollHeight := 150%Q;
          Reader.clientHeight := 50%Q |}.

Definition a_report (progress : Q) : progress_body :=
  {| pb_profile_id := Some "p1"%string; pb_username := Some "Happy Owl"%string;
     pb_progress := Some progress; pb_chapter := Some 1 |}.

(** The stored progress after each of a series of reports. *)
Fixpoint stored_after (reports : list Q) (d : db) : list (option Q) :=
  match reports with
  | [] => []
  | q :: rest =>
      let d' := (post_progress "b1" (a_report q) 0 false false d).1 in
      stored_progress d' "b1" "p1" :: stored_after rest d'
  end.

(** *** The registry invariant

    An event whose [UPDATE] of a session's count fails if it is issued
    (a disconnection issues it only after a [DELETE] that reported no
    error). *)
Definition update_fails (e : server_event) : bool :=
  match e with
  | JoinSession _ _ env => je_update_err env
  | Disconnect _ delete_err update_err => negb delete_err && update_err
  | _ => false
  end.

(** What every state of the server satisfies when it handles one event at a
    time: user ids are unique; every user's session exists; the current
    user of a connection is a stored user of the connection's session; two
    connections never share a user. *)
Record registered (st : state) : Prop := {
  ids_unique : NoDup (u_id <$> users (st_db st));
  sessions_known :
    ∀ (row : user_row) (s : string),
      row ∈ users (st_db st) → u_session_id row = Some s →
      is_Some (sessions (st_db st) !! s);
  conn_rows :
    ∀ (sock : string) (c : closure) (me : user),
      st_conns st !! sock = Some c → currentUser c = Some me →
      ∃ (row : user_row) (s : string),
        row ∈ users (st_db st) ∧ u_id row = id me
        ∧ u_session_id row = Some s ∧ currentSession c = Some s;
  conn_distinct :
    ∀ (sock1 sock2 : string) (c1 c2 : closure) (me1 me2 : user),
      sock1 ≠ sock2 →
      st_conns st !! sock1 = Some c1 → st_conns st !! sock2 = Some c2 →
      currentUser c1 = Some me1 → currentUser c2 = Some me2 →
      id me1 ≠ id me2 }.

(** What it satisfies besides, as long as every [UPDATE] of a count takes
    effect, [M] being the ceiling on users per session: every session's
    count is the size of its roster and at most [M]. *)
Record consistent (M : Z) (st : state) : Prop := {
  is_registered : registered st;
  counts_right :
    ∀ (s : string) (row : session_row),
      sessions (st_db st) !! s = Some row →
      s_user_count row = Z.of_nat (length (roster (st_db st) s))
      ∧ s_user_count row ≤ M }.

(** *** Two joins for the last free slot *)

Definition four_readers : list server_event :=
  [ Upload "s1" "b1" 0 false;
    Connect "A1"; Connect "A2"; Connect "A3"; Connect "A4";
    JoinSession "A1" join_s1 (env_join "u1" 0 1);
    JoinSession "A2" join_s1 (env_join "u2" 1 2);
    JoinSession "A3" join_s1 (env_join "u3" 2 3);
    JoinSession "A4" join_s1 (env_join "u4" 3 4);
    Connect "X"; Connect "Y" ].

(** Four users in a session of five: one slot is free. *)
Definition one_slot_left : state := (run production four_readers init).1.

(** X and Y each send join-session. *)
Definition racing : list request :=
  [ {| rq_sock := "X"; rq_env := env_join "uX" 4 5;
       rq_next := Some (PGet join_s1) |};
    {| rq_sock := "Y"; rq_env := env_join "uY" 5 5;
       rq_next := Some (PGet join_s1) |} ].

(** Both messages arrive before either session query returns: the database
    runs the two requests' statements in turn. *)
Definition overlapped : list nat := [0; 1; 0; 1; 0; 1; 0; 1]%nat.

(** Y's message arrives when X's user is stored but the count not yet
    updated. *)
Definition before_the_update : list nat := [0; 0; 1; 0; 0; 1; 1; 1]%nat.

(** X's request is over before Y's message arrives. *)
Definition back_to_back : list nat := [0; 0; 0; 0; 1; 1; 1; 1]%nat.

Definition race (schedule : list nat)
  : state * list request * list (emit payload) :=
  interleave production schedule one_slot_left racing.

(** *** Counting admissions *)

(** Join requests for one session, handled one after the other. *)
Definition joins_of (sessionId : string) (reqs : list (string * join_env))
  : list server_event :=
  (λ r, JoinSession r.1
          {| jd_sessionId := sessionId; jd_participantId := None |} r.2)
    <$> reqs.

(** The admissions and the refusals for a full session among sent events. *)
Definition admissions (out : list (emit payload)) : nat :=
  length (List.filter (λ m, str_eqb (event m) "user-joined") out).

Definition is_session_full (p : payload) : bool :=
  match p with PText msg => str_eqb msg "Session is full" | _ => false end.

Definition refusals (out : list (emit payload)) : nat :=
  length (List.filter
            (λ m, str_eqb (event m) "error" && is_session_full (body m)) out).

End Spec.

(* ===================================================================== *)
(** ** limits.js: file types and error messages *)
(* ===================================================================== *)

Module LimitsText.

Import Limits.
Local Open Scope Z_scope.

(** [s.endsWith(suffix)] *)
Fixpoint endsWith (s suffix : string) : bool :=
  String.eqb s suffix
  || match s with
     | EmptyString => false
     | String _ rest => endsWith rest suffix
     end.

(** The string a template literal makes of a value. *)
Fixpoint show (v : value) : string :=
  match v with
  | VUndef => "undefined"
  | VNum n => pretty n
  | VBool b => if b then "true" else "false"
  | VStr s => s
  | VArr items =>
      (fix go (l : list value) : string :=
         match l with
         | [] => ""
         | [x] => match x with VUndef => "" | _ => show x end
         | x :: rest =>
             (match x with VUndef => "" | _ => show x end ++ "," ++ go rest)
         end) items
  | VObj _ => "[object Object]"
  end%string.

(** [items.join(separator)], [undefined] items giving the empty string. *)
Fixpoint join (separator : string) (items : list value) : string :=
  match items with
  | [] => ""
  | [x] => match x with VUndef => "" | _ => show x end
  | x :: rest =>
      (match x with VUndef => "" | _ => show x end
       ++ separator ++ join separator rest)
  end%string.

(** The elements of an array; [ALLOWED_TYPES] is one in every
    configuration. *)
Definition items_of (v : value) : list value :=
  match v with VArr items => items | _ => [] end.

Definition FILE_MAX_SIZE_MB : list string := ["FILE"; "MAX_SIZE_MB"]%string.
Definition FILE_ALLOWED_TYPES : list string :=
  ["FILE"; "ALLOWED_TYPES"]%string.

(** [LIMIT_VALIDATORS.validateFileType] *)
Definition validateFileType (fileName : string) : bool :=
  let limits := getCurrentLimits None in
  existsb (λ type, match type with
                   | VStr t => endsWith fileName t
                   | _ => false
                   end)
    (items_of (at_path limits FILE_ALLOWED_TYPES)).

(** [ERROR_MESSAGES] *)
Definition FILE_SIZE_EXCEEDED (maxSize : value) : string :=
  ("File too large. Maximum size is " ++ show maxSize
   ++ "MB. Please choose a smaller EPUB file.")%string.

Definition INVALID_FILE_TYPE (allowedTypes : value) : string :=
  ("Invalid file type. Please upload one of: "
   ++ join ", " (items_of allowedTypes))%string.

Definition COMMENT_LIMIT_REACHED (maxComments : value) : string :=
  ("Maximum " ++ show maxComments ++ " comments per highlight reached.")%string.

Definition COMMENT_TOO_LONG (maxLength : value) : string :=
  ("Comment too long. Maximum " ++ show maxLength
   ++ " characters allowed.")%string.

Definition COMMENT_TOO_SHORT (minLength : value) : string :=
  ("Comment too short. Minimum " ++ show minLength
   ++ " characters required.")%string.

Definition RATE_LIMIT_EXCEEDED : string :=
  "Too many requests. Please slow down and try again.".

End LimitsText.

(* ===================================================================== *)
(** ** usage-example.js *)
(* ===================================================================== *)

Module Usage.

Import Limits LimitsText.
Local Open Scope Z_scope.

(** [{ valid: true }] or [{ valid: false, error }]. *)
Inductive verdict :=
| Valid
| Invalid (error : string).

(** [file.size] and [file.name] *)
Record file := {
  size : Z;
  name : string }.

Definition validateFileUpload (f : file) : verdict :=
  let limits := getCurrentLimits None in
  if negb (validateFileSize (size f)) then
    Invalid (FILE_SIZE_EXCEEDED (at_path limits FILE_MAX_SIZE_MB))
  else if negb (validateFileType (name f)) then
    Invalid (INVALID_FILE_TYPE (at_path limits FILE_ALLOWED_TYPES))
  else Valid.

Definition validateCommentCreation (highlightId commentText : string)
  (commentCount : Z) : verdict :=
  let limits := getCurrentLimits None in
  let length := Z.of_nat (String.length commentText) in
  if negb (validateCommentCount commentCount) then
    Invalid (COMMENT_LIMIT_REACHED (at_path limits COMMENTS_MAX_PER_HIGHLIGHT))
  else if negb (validateCommentLength length) then
    if num_gt (VNum length) (at_path limits COMMENTS_MAX_LENGTH_CHARS) then
      Invalid (COMMENT_TOO_LONG (at_path limits COMMENTS_MAX_LENGTH_CHARS))
    else
      Invalid (COMMENT_TOO_SHORT (at_path limits COMMENTS_MIN_LENGTH_CHARS))
  else Valid.

(** *** setupWebSocketLimits: the message counter

    The two variables the ['message'] handler closes over; [lastReset]
    starts at the value of [Date.now()] when the limits are set up. *)
Record counter := {
  messageCount : Z;
  lastReset : Z }.

Definition setup (now : Z) : counter :=
  {| messageCount := 0; lastReset := now |}.

Inductive handled :=
| Processed
| Refused (error : string).

(** The handler on one message, [now] being the value of [Date.now()]. *)
Definition on_message (now : Z) (st : counter) : counter * handled :=
  let limits := getCurrentLimits None in
  let st1 :=
    if 1000 <=? now - lastReset st
    then {| messageCount := 0; lastReset := now |}
    else st in
  let st2 := {| messageCount := messageCount st1 + 1;
                lastReset := lastReset st1 |} in
  if num_gt (VNum (messageCount st2))
            (at_path limits WEBSOCKET_MAX_MESSAGES_PER_SECOND)
  then (st2, Refused RATE_LIMIT_EXCEEDED)
  else (st2, Processed).

(** The handler on the messages arriving at the given times. *)
Fixpoint on_messages (times : list Z) (st : counter)
  : counter * list handled :=
  match times with
  | [] => (st, [])
  | now :: rest =>
      let '(st1, h) := on_message now st in
      let '(st2, hs) := on_messages rest st1 in
      (st2, h :: hs)
  end.

End Usage.

(* ===================================================================== *)
(** ** The server: slugs and profiles *)
(* ===================================================================== *)

Module Routes.

Import Limits Socket Server.
Local Open Scope Z_scope.

(** *** The upload filter *)

(** [fileFilter] of the multer configuration: whether the file is accepted. *)
Definition fileFilter (limits : value) (originalname : string) : bool :=
  existsb (λ type, match type with
                   | VStr t => LimitsText.endsWith originalname t
                   | _ => false
                   end)
    (LimitsText.items_of (at_path limits LimitsText.FILE_ALLOWED_TYPES)).

(** *** generateSlug *)

Definition chars : string :=
  "ABCDEFGHIJKLMNOPQRSTUVWXYZabcdefghijklmnopqrstuvwxyz0123456789".

(** [s.charAt(i)]: the character as a string, the empty string out of
    range. *)
Definition charAt (s : string) (i : nat) : string :=
  match String.get i s with
  | Some c => String c EmptyString
  | None => EmptyString
  end.

(** The loop from [i] for [n] more rounds; [draw k] is the value of
    [Math.floor(Math.random() * chars.length)] in round [k]. *)
Fixpoint slug_loop (n i : nat) (draw : nat → nat) (result : string) : string :=
  match n with
  | O => result
  | S n' =>
      slug_loop n' (S i) draw (String.append result (charAt chars (draw i)))
  end.

Definition generateSlug (draw : nat → nat) : string :=
  slug_loop 8 0 draw EmptyString.

(** *** POST /api/upload

    The route once multer has stored the file: [req.file] (absent when the
    request carried none), the two values of [uuidv4()], what
    [extractEpubMetadata] returned ([None] when it threw), the draws of
    [generateSlug], the clock, and whether each INSERT fails for another
    reason than a constraint. *)

Record book_row := {
  b_title : string;
  b_author : string;
  b_filename : string;
  b_filepath : string;
  b_file_size : Z;
  b_session_id : string;
  b_slug : string }.

Record uploaded := {
  originalname : string;
  filename : string;
  path : string;
  file_size : Z }.

Record metadata := {
  md_title : option string;
  md_author : option string }.

Record upload_response := {
  ur_bookId : string;
  ur_sessionId : string;
  ur_title : string;
  ur_author : string;
  ur_filename : string;
  ur_slug : string }.

Inductive upload_reply :=
| UploadError (status : Z) (error : string)
| Uploaded (response : upload_response).

Fixpoint drop_chars (n : nat) (s : string) : string :=
  match n, s with
  | S n', String _ rest => drop_chars n' rest
  | _, _ => s
  end.

(** [s.replace(pattern, '')]: the first occurrence of the pattern removed. *)
Fixpoint remove_first (pattern s : string) : string :=
  if String.prefix pattern s then drop_chars (String.length pattern) s
  else match s with
       | EmptyString => EmptyString
       | String c rest => String c (remove_first pattern rest)
       end.

(** [fallback], unless [v] is a non-empty string. *)
Definition or_fallback (v : option string) (fallback : string) : string :=
  match v with
  | Some s => if str_eqb s "" then fallback else s
  | None => fallback
  end.

(** The books table's [slug TEXT UNIQUE]. *)
Definition slug_taken (books : gmap string book_row) (slug : string) : bool :=
  existsb (λ kr, str_eqb (b_slug kr.2) slug) (map_to_list books).

Definition upload_route (file : option uploaded) (bookId sessionId : string)
  (extracted : option metadata) (draw : nat → nat) (now : Z)
  (book_err session_err : bool) (books : gmap string book_row) (d : db)
  : gmap string book_row * db * upload_reply :=
  match file with
  | None => (books, d, UploadError 400 "No file uploaded")
  | Some file =>
      let title0 := remove_first ".epub" (originalname file) in
      let author0 := "Unknown Author"%string in
      let title := match extracted with
                   | Some m => or_fallback (md_title m) title0
                   | None => title0
                   end in
      let author := match extracted with
                    | Some m => or_fallback (md_author m) author0
                    | None => author0
                    end in
      let slug := generateSlug draw in
      if book_err || bool_decide (is_Some (books !! bookId))
         || slug_taken books slug
      then (books, d, UploadError 500 "Failed to save book information")
      else
        let books1 :=
          <[bookId := {| b_title := title; b_author := author;
                         b_filename := filename file;
                         b_filepath := path file;
                         b_file_size := file_size file;
                         b_session_id := sessionId; b_slug := slug |}]> books in
        match insert_session session_err sessionId bookId now d with
        | None => (books1, d, UploadError 500 "Failed to create session")
        | Some d1 =>
            (books1, d1,
             Uploaded {| ur_bookId := bookId; ur_sessionId := sessionId;
                         ur_title := title; ur_author := author;
                         ur_filename := filename file; ur_slug := slug |})
        end
  end.

(** *** POST /api/books/:bookId/profiles

    [trim] is [String.prototype.trim]. *)

Section Profiles.

Variable trim : string → string.

Inductive profile_reply :=
| ProfileError (status : Z) (error : string)
| ProfileCreated (profileId : string) (row : profile_row).

(** A row of the book with that name: the table's
    [UNIQUE(book_id, username)]. *)
Definition name_taken (d : db) (bookId username : string) : bool :=
  existsb (λ kr, str_eqb (bp_book_id kr.2) bookId
                 && str_eqb (bp_username kr.2) username)
    (map_to_list (book_profiles d)).

(** [profileId] is the value of [uuidv4()], [draw] of
    [Math.floor(Math.random() * colors.length)]; [err] tells that the insert
    fails for another reason than a uniqueness constraint. *)
Definition post_profile (bookId : string) (username : option string)
  (profileId : string) (draw : nat) (now : Z) (err : bool) (d : db)
  : db * profile_reply :=
  match username with
  | None => (d, ProfileError 400 "Username is required")
  | Some username =>
      if str_eqb username "" || (String.length (trim username) =? 0)%nat then
        (d, ProfileError 400 "Username is required")
      else if (50 <? String.length username)%nat then
        (d, ProfileError 400 "Username too long (max 50 characters)")
      else
        let randomColor := nth draw colors ""%string in
        if err then (d, ProfileError 500 "Failed to create profile")
        else if bool_decide (is_Some (book_profiles d !! profileId))
                || name_taken d bookId (trim username) then
          (d, ProfileError 409 "Username already exists for this book")
        else
          let row := {| bp_book_id := bookId; bp_username := trim username;
                        bp_color := randomColor; bp_created_at := now;
                        bp_last_used := now |} in
          (set_book_profiles (insert profileId row) d,
           ProfileCreated profileId row)
  end.

End Profiles.

(** *** GET /api/books/:bookId/progress/:userId *)

Inductive progress_reply :=
| ProgressError (status : Z) (error : string)
| ProgressFound (row : progress_row).

(** [SELECT ... FROM user_progress WHERE book_id = ? AND user_id = ?], the
    first row if any. *)
Definition get_user_progress (bookId userId : string) (err : bool) (d : db)
  : progress_reply :=
  if err then ProgressError 500 "Database error"
  else
    match List.find (λ kr, str_eqb (p_book_id kr.2) bookId
                           && str_eqb (p_user_id kr.2) userId)
            (map_to_list (user_progress d)) with
    | Some kr => ProgressFound kr.2
    | None => ProgressError 404 "User progress not found"
    end.

End Routes.

(* ===================================================================== *)
(** ** The reader component: chapters *)
(* ===================================================================== *)

Module ReaderNav.

Local Open Scope Z_scope.

(** [nextChapter] and [prevChapter] on [currentChapter]; [chapters] is
    [bookContent.chapters.length], [None] while [bookContent] is null. *)
Definition nextChapter (chapters : option Z) (currentChapter : Z) : Z :=
  match chapters with
  | Some n => if currentChapter <? n - 1 then currentChapter + 1
              else currentChapter
  | None => currentChapter
  end.

Definition prevChapter (currentChapter : Z) : Z :=
  if 0 <? currentChapter then currentChapter - 1 else currentChapter.

Inductive click :=
| Next
| Previous.

Definition turn (chapters : option Z) (currentChapter : Z) (c : click) : Z :=
  match c with
  | Next => nextChapter chapters currentChapter
  | Previous => prevChapter currentChapter
  end.

End ReaderNav.

(* ===================================================================== *)
(** ** Vocabulary of the further properties *)
(* ===================================================================== *)

Module Notions.

Import Limits Socket Server.
Local Open Scope Z_scope.

(** The value deepMerge stores under a key of the source. *)
Definition merged (target : value) (k : string) (v : value) : value :=
  match v with
  | VObj _ => deepMerge (orEmpty (prop target k)) v
  | _ => v
  end.

(** *** Profiles and progress *)

(** No two profiles of a book carry the same name. *)
Definition profiles_unique (d : db) : Prop :=
  ∀ (i j : string) (r1 r2 : profile_row),
    book_profiles d !! i = Some r1 → book_profiles d !! j = Some r2 →
    bp_book_id r1 = bp_book_id r2 → bp_username r1 = bp_username r2 → i = j.

(** Every progress row sits under the id made of its book and its user. *)
Definition progress_keys_ok (d : db) : Prop :=
  ∀ (k : string) (r : progress_row),
    user_progress d !! k = Some r →
    k = (p_book_id r ++ "_" ++ p_user_id r)%string.

(** The body of a progress report that names a profile. *)
Definition report (profile_id username : string) (progress : Q)
  (chapter : option Z) : progress_body :=
  {| pb_profile_id := Some profile_id; pb_username := Some username;
     pb_progress := Some progress; pb_chapter := chapter |}.

(** *** Uploads *)

(** No two books carry the same slug. *)
Definition slugs_unique (books : gmap string Routes.book_row) : Prop :=
  ∀ (i j : string) (r1 r2 : Routes.book_row),
    books !! i = Some r1 → books !! j = Some r2 →
    Routes.b_slug r1 = Routes.b_slug r2 → i = j.

(** Whether a full stop occurs in a string. *)
Fixpoint has_dot (s : string) : bool :=
  match s with
  | EmptyString => false
  | String c rest => Ascii.eqb c (Ascii.ascii_of_nat 46) || has_dot rest
  end.

(** *** Rooms and connections *)

Definition rooms_of (r : result) : gmap string (gset string) := r.1.2.

(** A connection that holds a session is in the session's room, and a room
    holds connected sockets only. *)
Record rooms_sound (st : state) : Prop := {
  joined_is_member :
    ∀ (sock : string) (c : closure) (s : string),
      st_conns st !! sock = Some c → currentSession c = Some s →
      sock ∈ members (st_rooms st) s;
  members_connected :
    ∀ (room sock : string),
      sock ∈ members (st_rooms st) room → is_Some (st_conns st !! sock) }.

(** A stored user that no connection holds as its current user. *)
Record orphaned (row : user_row) (st : state) : Prop := {
  still_stored : row ∈ users (st_db st);
  nobody_holds :
    ∀ (sock : string) (c : closure) (me : user),
      st_conns st !! sock = Some c → currentUser c = Some me →
      id me ≠ u_id row }.

(** *** Scenarios *)

(** A book is uploaded, A and B connect, and A joins the book's session. *)
Definition one_reader : state :=
  (run Spec.production
     [ Upload "s1" "b1" 0 false; Connect "A"; Connect "B";
       JoinSession "A" Spec.join_s1 (Spec.env_join "uA" 0 1) ] init).1.

(** An uploaded file as multer hands it to the route. *)
Definition a_file : Routes.uploaded :=
  {| Routes.originalname := "moby-dick.epub"; Routes.filename := "f1.epub";
     Routes.path := "/uploads/f1.epub"; Routes.file_size := 1200000 |}.

(** A reports progress on the book a_b under the profile c. *)
Definition one_report : db :=
  (post_progress "a_b" (report "c" "Cy" 10%Q None) 0 false false empty_db).1.

End Notions.

(* ===================================================================== *)
(** ** Properties of limits.js *)
(* ===================================================================== *)

Section LimitsFacts.

Import Limits Spec.
Local Open Scope Z_scope.

Lemma getCurrentLimits_default :
  getCurrentLimits None = MVP_LIMITS
  ∧ getCurrentLimits (Some "production"%string) = MVP_LIMITS.
Proof. split; reflexivity. Qed.

(** Whatever the selector, the merged object is one of three. *)
Lemma getCurrentLimits_cases (environment : string) :
  (environment = "development"%string
   ∧ getCurrentLimits (Some environment)
     = getCurrentLimits (Some "development"%string))
  ∨ (environment = "testing"%string
     ∧ getCurrentLimits (Some environment)
       = getCurrentLimits (Some "testing"%string))
  ∨ getCurrentLimits (Some environment) = MVP_LIMITS.
Proof.
  destruct (String.eqb_spec environment "development") as [->|Hd];
    [left; split; reflexivity|].
  destruct (String.eqb_spec environment "testing") as [->|Ht];
    [right; left; split; reflexivity|].
  right; right.
  apply String.eqb_neq in Hd, Ht.
  unfold getCurrentLimits, ENVIRONMENT_OVERRIDES, prop; simpl getField.
  rewrite Hd, Ht.
  destruct (String.eqb environment "production"); reflexivity.
Qed.

(** The numbers the server's limits object holds at the paths it reads. *)
Lemma server_limits_values (NODE_ENV : option string) :
  ∃ maxUsers maxHighlights : Z,
    0 < maxUsers ∧ 0 < maxHighlights
    ∧ at_path (server_limits NODE_ENV) USER_MAX_CONCURRENT_PER_SESSION
      = VNum maxUsers
    ∧ at_path (server_limits NODE_ENV) HIGHLIGHTS_MAX_PER_USER_PER_BOOK
      = VNum maxHighlights
    ∧ at_path (server_limits NODE_ENV) COMMENTS_MAX_PER_HIGHLIGHT = VNum 5
    ∧ at_path (server_limits NODE_ENV) COMMENTS_MIN_LENGTH_CHARS = VNum 1
    ∧ at_path (server_limits NODE_ENV) COMMENTS_MAX_LENGTH_CHARS = VNum 500
    ∧ at_path (server_limits NODE_ENV) COMMENTS_MAX_REPLY_DEPTH = VNum 2.
Proof.
  unfold server_limits.
  destruct (getCurrentLimits_cases (server_environment NODE_ENV))
    as [[_ ->]|[[_ ->]| ->]].
  - exists 10, 100. repeat split; reflexivity.
  - exists 3, 10. repeat split; reflexivity.
  - exists 5, 100. repeat split; reflexivity.
Qed.

(** C10. Every validator of LIMIT_VALIDATORS tests its input against the
    production defaults: it calls getCurrentLimits with no argument, which is
    the production object, the base limits themselves. So whatever NODE_ENV
    the server started with, if the limits object it loaded differs from the
    defaults at a ceiling a validator reads, there is an input on which the
    validator and the same test on the server's limits disagree. *)
Theorem validators_use_production_defaults :
  getCurrentLimits None = getCurrentLimits (Some "production"%string)
  ∧ (∀ (v : validator) (n : Z),
       LIMIT_VALIDATORS v n = decided_on MVP_LIMITS v n)
  ∧ (∀ (NODE_ENV : option string) (v : validator),
       ceilings (server_limits NODE_ENV) v ≠ ceilings MVP_LIMITS v →
       ∃ n : Z, LIMIT_VALIDATORS v n ≠ decided_on (server_limits NODE_ENV) v n).
Proof.
  split; [reflexivity|]. split.
  - intros [] n; reflexivity.
  - intros NODE_ENV v. unfold server_limits.
    destruct (getCurrentLimits_cases (server_environment NODE_ENV))
      as [[_ ->]|[[_ ->]| ->]]; intros Hne.
    + destruct v; try (exfalso; apply Hne; reflexivity).
      exists 5. vm_compute. discriminate.
    + destruct v; try (exfalso; apply Hne; reflexivity).
      * exists 3. vm_compute. discriminate.
      * exists 10. vm_compute. discriminate.
    + exfalso; apply Hne; reflexivity.
Qed.

Lemma validators_use_production_defaults_witness :
  ceilings (server_limits (Some "testing"%string)) UserCount
  ≠ ceilings MVP_LIMITS UserCount
  ∧ ∃ n : Z,
      LIMIT_VALIDATORS UserCount n
      ≠ decided_on (server_limits (Some "testing"%string)) UserCount n.
Proof.
  split.
  - vm_compute. discriminate.
  - apply (proj2 (proj2 validators_use_production_defaults)
             (Some "testing"%string) UserCount).
    vm_compute. discriminate.
Defined.

(** With no NODE_ENV the server runs on the development limits: ten users a
    session, while validateUserCount stops at five. *)
Example validateUserCount_vs_development :
  at_path (server_limits None) USER_MAX_CONCURRENT_PER_SESSION = VNum 10
  ∧ validateUserCount 7 = false
  ∧ decided_on (server_limits None) UserCount 7 = true.
Proof. repeat split; reflexivity. Qed.

(** The length test of validateCommentLength, both bounds included. *)
Lemma validateCommentLength_spec (commentLength : Z) :
  validateCommentLength commentLength = true ↔ 1 ≤ commentLength ≤ 500.
Proof.
  change (validateCommentLength commentLength)
    with ((1 <=? commentLength) && (commentLength <=? 500)).
  rewrite andb_true_iff, !Z.leb_le. tauto.
Qed.

End LimitsFacts.

(* ===================================================================== *)
(** ** Properties of the server *)
(* ===================================================================== *)

Section ServerFacts.

Import Limits Socket Server Spec.
Local Open Scope Z_scope.

Lemma str_eqb_eq (a b : string) : str_eqb a b = true ↔ a = b.
Proof. apply String.eqb_eq. Qed.

Lemma str_eqb_refl (a : string) : str_eqb a a = true.
Proof. apply String.eqb_refl. Qed.

Lemma str_eqb_neq (a b : string) : str_eqb a b = false ↔ a ≠ b.
Proof. apply String.eqb_neq. Qed.

(** *** Delivery *)

(** Among messages sent one to each socket of a duplicate-free list, a socket
    of the list finds exactly its own. *)
Lemma received_fmap_in {P : Type} (l : list string) (r ev : string) (p : P) :
  NoDup l → r ∈ l →
  received r ev ((λ r0, {| to := r0; event := ev; body := p |}) <$> l)
  = [{| to := r; event := ev; body := p |}].
Proof.
  unfold received. induction 1 as [|x l Hx Hnd IH]; intros Hin.
  - inversion Hin.
  - cbn [fmap list_fmap List.filter to event].
    destruct (decide (x = r)) as [->|Hne].
    + rewrite !str_eqb_refl. cbn [andb]. f_equal.
      clear IH Hin. induction l as [|y l IH]; [reflexivity|].
      cbn [fmap list_fmap List.filter to event].
      assert (Hy : str_eqb y r = false).
      { apply str_eqb_neq. intros ->. apply Hx. left. }
      rewrite Hy. cbn [andb]. apply IH.
      * intros H. apply Hx. right. exact H.
      * inversion Hnd; assumption.
    + assert (Hy : str_eqb x r = false) by (apply str_eqb_neq; exact Hne).
      rewrite Hy. cbn [andb]. apply IH.
      inversion Hin; subst; [congruence|assumption].
Qed.

Lemma received_fmap_other {P : Type} (l : list string) (r ev ev' : string)
  (p : P) :
  r ∉ l ∨ ev ≠ ev' →
  received r ev' ((λ r0, {| to := r0; event := ev; body := p |}) <$> l) = [].
Proof.
  unfold received. intros H. induction l as [|x l IH]; [reflexivity|].
  cbn [fmap list_fmap List.filter to event].
  assert (Hx : str_eqb x r && str_eqb ev ev' = false).
  { apply andb_false_iff. destruct H as [H|H].
    - left. apply str_eqb_neq. intros ->. apply H. left.
    - right. apply str_eqb_neq. exact H. }
  rewrite Hx. apply IH. destruct H as [H|H]; [left|right; exact H].
  intros Hin. apply H. right. exact Hin.
Qed.

(** [socket.to(room).emit]: each other socket of the room gets the message
    once; the sender and the sockets outside the room get nothing. *)
Lemma received_socket_to_emit_member {P : Type}
  (rooms : gmap string (gset string)) (sock room ev r : string) (p : P) :
  r ∈ members rooms room → r ≠ sock →
  received r ev (socket_to_emit rooms sock room ev p)
  = [{| to := r; event := ev; body := p |}].
Proof.
  intros Hin Hne. unfold socket_to_emit.
  apply received_fmap_in; [apply NoDup_elements|].
  rewrite elem_of_elements, elem_of_difference, elem_of_singleton.
  split; assumption.
Qed.

Lemma received_socket_to_emit_sender {P : Type}
  (rooms : gmap string (gset string)) (sock room ev ev' : string) (p : P) :
  received sock ev' (socket_to_emit rooms sock room ev p) = [].
Proof.
  unfold socket_to_emit. apply received_fmap_other. left.
  rewrite elem_of_elements, elem_of_difference, elem_of_singleton.
  intros [_ H]. apply H. reflexivity.
Qed.

Lemma received_socket_to_emit_outside {P : Type}
  (rooms : gmap string (gset string)) (sock room ev ev' r : string) (p : P) :
  r ∉ members rooms room →
  received r ev' (socket_to_emit rooms sock room ev p) = [].
Proof.
  intros H. unfold socket_to_emit. apply received_fmap_other. left.
  rewrite elem_of_elements, elem_of_difference. intros [H' _]. exact (H H').
Qed.

Lemma received_socket_to_emit_event {P : Type}
  (rooms : gmap string (gset string)) (sock room ev ev' r : string) (p : P) :
  ev ≠ ev' → received r ev' (socket_to_emit rooms sock room ev p) = [].
Proof.
  intros H. unfold socket_to_emit. apply received_fmap_other. right. exact H.
Qed.

Lemma received_app {P : Type} (r ev : string) (l1 l2 : list (emit P)) :
  received r ev (l1 ++ l2) = received r ev l1 ++ received r ev l2.
Proof. unfold received. apply List.filter_app. Qed.

(** *** create-highlight: acknowledgement and broadcast *)

Lemma received_socket_emit_own {P : Type} (sock ev : string) (p : P) :
  received sock ev (socket_emit sock ev p)
  = [{| to := sock; event := ev; body := p |}].
Proof.
  unfold received, socket_emit. cbn [List.filter to event].
  rewrite !str_eqb_refl. reflexivity.
Qed.

Lemma received_socket_emit_other {P : Type} (r sock ev ev' : string) (p : P) :
  r ≠ sock ∨ ev ≠ ev' →
  received r ev (socket_emit sock ev' p) = [].
Proof.
  intros H. unfold received, socket_emit. cbn [List.filter to event].
  destruct H as [H|H].
  - rewrite (proj2 (str_eqb_neq sock r)) by congruence. reflexivity.
  - rewrite (proj2 (str_eqb_neq ev' ev)) by congruence.
    rewrite andb_false_r. reflexivity.
Qed.

(** The older server's add-highlight does what C5 says: when the database
    service stores the highlight, the sender receives exactly one
    highlight-confirmed and no highlight-added, and every other socket of
    the book's room exactly one highlight-added and no highlight-confirmed,
    all with the stored highlight. *)
Lemma add_highlight_ack_and_broadcast (HL : Type) (MAX : Z) (sock : string)
  (data : Legacy.highlight_data) (found : list HL) (stored : HL)
  (rooms : gmap string (gset string)) :
  let out :=
    Legacy.add_highlight HL MAX sock data (Some found) (Some stored) rooms in
  received sock "error" out = [] →
  ∃ book : string,
    Legacy.bookId data = Some book
    ∧ received sock "highlight-confirmed" out
      = [{| to := sock; event := "highlight-confirmed";
            body := Legacy.Stored HL stored |}]
    ∧ received sock "highlight-added" out = []
    ∧ ∀ r : string, r ≠ sock →
        received r "highlight-confirmed" out = []
        ∧ received r "highlight-added" out
          = if decide (r ∈ members rooms book)
            then [{| to := r; event := "highlight-added";
                     body := Legacy.Stored HL stored |}]
            else [].
Proof.
  intros out. subst out. unfold Legacy.add_highlight.
  destruct (Legacy.bookId data) as [book|],
           (Legacy.userId data) as [user|],
           (Legacy.cfiRange data) as [cfi|];
    try (cbn; rewrite str_eqb_refl; discriminate).
  destruct (str_eqb book "" || str_eqb user "" || str_eqb cfi "");
    [cbn; rewrite str_eqb_refl; discriminate|].
  destruct (MAX <=? _); [cbn; rewrite str_eqb_refl; discriminate|].
  intros _. exists book. split; [reflexivity|].
  split; [|split].
  - rewrite received_app, received_socket_to_emit_sender,
      received_socket_emit_own. reflexivity.
  - rewrite received_app, received_socket_to_emit_sender,
      received_socket_emit_other; [reflexivity|right; discriminate].
  - intros r Hr.
    rewrite !received_app, !(received_socket_emit_other r sock), !app_nil_r
      by (left; exact Hr).
    split.
    + apply received_socket_to_emit_event. discriminate.
    + case_decide.
      * apply received_socket_to_emit_member; assumption.
      * apply received_socket_to_emit_outside; assumption.
Qed.

(** C5 at the failing input. The INSERT of create-highlight names no
    username, which the highlights table requires: the statement fails and
    the branch that acknowledges and broadcasts is never taken. Whatever the
    limits, the message, the environment and the state, the handler changes
    nothing and sends one error to the requesting socket, under one of three
    messages. So when A, joined with B to session s1 and with no highlight
    yet of the hundred allowed, asks for a highlight and no statement
    reports an error of its own, A is answered "Failed to create highlight",
    nothing is stored, and B receives nothing. *)
Theorem create_highlight_fails_at_the_insert :
  (∀ (limits : value) (sock : string) (data : highlight_data)
     (env : write_env) (c : closure) (d : db)
     (rooms : gmap string (gset string)),
     ∃ msg : string,
       create_highlight limits sock data env c d rooms
       = (c, d, rooms, socket_emit sock "error" (PText msg))
       ∧ msg ∈ ["Not connected to session"; "Highlight limit reached";
                "Failed to create highlight"]%string)
  ∧ st_conns joined_state !! "A"%string
    = Some {| currentUser := Some user_A;
              currentSession := Some "s1"%string |}
  ∧ "B"%string ∈ members (st_rooms joined_state) "s1"
  ∧ at_path production HIGHLIGHTS_MAX_PER_USER_PER_BOOK = VNum 100
  ∧ count_highlights (st_db joined_state) (id user_A) (hd_bookId a_highlight)
    = 0
  ∧ we_count_err (env_write "h1") = false
  ∧ we_insert_err (env_write "h1") = false
  ∧ (step production (CreateHighlight "A" a_highlight (env_write "h1"))
       joined_state).2
    = [{| to := "A"; event := "error";
          body := PText "Failed to create highlight" |}]
  ∧ highlights
      (st_db (step production
                (CreateHighlight "A" a_highlight (env_write "h1"))
                joined_state).1) = [].
Proof.
  split.
  - intros limits sock data env c d rooms. unfold create_highlight.
    destruct (currentUser c) as [me|], (currentSession c) as [session|];
      try (eexists; split; [reflexivity|set_solver]).
    destruct (str_eqb session "");
      [eexists; split; [reflexivity|set_solver]|].
    destruct (we_count_err env || _);
      eexists; (split; [reflexivity|set_solver]).
  - split; [vm_compute; reflexivity|].
    split; [apply (bool_decide_unpack _); vm_compute; exact I|].
    vm_compute. repeat split.
Qed.

(** *** Quota checks and their errors *)

(** C8, as the code has it. On a joined connection, create-highlight answers
    a failed count query and a reached limit alike: the one error
    "Highlight limit reached" to the requesting socket, nothing stored,
    nothing else changed; create-comment does the same with
    "Comment limit reached" once the length is valid. The insert that
    follows a passed check fails (the statement names no username) and is
    reported under another message, again with nothing stored. *)
Theorem quota_rejections (NODE_ENV : option string) (maxHighlights : Z)
  (sock : string) (env : write_env) (c : closure) (d : db)
  (rooms : gmap string (gset string)) (me : user) (session : string) :
  currentUser c = Some me → currentSession c = Some session →
  session ≠ ""%string →
  at_path (server_limits NODE_ENV) HIGHLIGHTS_MAX_PER_USER_PER_BOOK
  = VNum maxHighlights →
  (∀ data : highlight_data,
     (we_count_err env = true
      ∨ maxHighlights ≤ count_highlights d (id me) (hd_bookId data)) →
     create_highlight (server_limits NODE_ENV) sock data env c d rooms
     = (c, d, rooms,
        socket_emit sock "error" (PText "Highlight limit reached")))
  ∧ (∀ data : highlight_data,
       we_count_err env = false →
       count_highlights d (id me) (hd_bookId data) < maxHighlights →
       create_highlight (server_limits NODE_ENV) sock data env c d rooms
       = (c, d, rooms,
          socket_emit sock "error" (PText "Failed to create highlight")))
  ∧ (∀ data : comment_data,
       1 ≤ content_length (cd_content data) ≤ 500 →
       (we_count_err env = true
        ∨ 5 ≤ count_comments d (cd_highlightId data)) →
       create_comment (server_limits NODE_ENV) sock data env c d rooms
       = (c, d, rooms,
          socket_emit sock "error" (PText "Comment limit reached")))
  ∧ (∀ data : comment_data,
       1 ≤ content_length (cd_content data) ≤ 500 →
       we_count_err env = false →
       count_comments d (cd_highlightId data) < 5 →
       create_comment (server_limits NODE_ENV) sock data env c d rooms
       = (c, d, rooms,
          socket_emit sock "error" (PText "Failed to create comment"))).
Proof.
  intros Hu Hs Hne Hmax.
  destruct (server_limits_values NODE_ENV)
    as (mu & mh & _ & _ & _ & _ & Hc & Hmin & Hmaxlen & _).
  apply str_eqb_neq in Hne.
  repeat split.
  - intros data Hrej. unfold create_highlight.
    rewrite Hu, Hs, Hne, Hmax. cbn [num_ge num_le].
    destruct Hrej as [->|Hfull]; [reflexivity|].
    rewrite (proj2 (Z.leb_le _ _) Hfull), orb_true_r. reflexivity.
  - intros data Hq Hlt. unfold create_highlight.
    rewrite Hu, Hs, Hne, Hmax, Hq. cbn [num_ge num_le orb].
    rewrite (proj2 (Z.leb_gt _ _) Hlt). reflexivity.
  - intros data [Hlo Hhi] Hrej. unfold create_comment.
    rewrite Hu, Hs, Hne, Hc, Hmin, Hmaxlen. cbn [num_ge num_le num_lt num_gt].
    rewrite (proj2 (Z.ltb_ge _ _) Hlo), (proj2 (Z.ltb_ge _ _) Hhi).
    cbn [orb].
    destruct Hrej as [->|Hfull]; [reflexivity|].
    rewrite (proj2 (Z.leb_le _ _) Hfull), orb_true_r. reflexivity.
  - intros data [Hlo Hhi] Hq Hlt. unfold create_comment.
    rewrite Hu, Hs, Hne, Hc, Hmin, Hmaxlen, Hq.
    cbn [num_ge num_le num_lt num_gt].
    rewrite (proj2 (Z.ltb_ge _ _) Hlo), (proj2 (Z.ltb_ge _ _) Hhi).
    cbn [orb].
    rewrite (proj2 (Z.leb_gt _ _) Hlt). reflexivity.
Qed.

Lemma quota_rejections_witness :
  (currentUser (closure_of full_state "A") = Some user_A
   ∧ currentSession (closure_of full_state "A") = Some "s1"%string
   ∧ "s1"%string ≠ ""%string
   ∧ at_path (server_limits (Some "production"%string))
       HIGHLIGHTS_MAX_PER_USER_PER_BOOK = VNum 100
   ∧ 1 ≤ content_length (cd_content (a_comment None)) ≤ 500
   ∧ 5 ≤ count_comments (st_db full_state) (cd_highlightId (a_comment None)))
  ∧ create_comment (server_limits (Some "production"%string)) "A"
      (a_comment None) (env_write "c6") (closure_of full_state "A")
      (st_db full_state) (st_rooms full_state)
    = (closure_of full_state "A", st_db full_state, st_rooms full_state,
       socket_emit "A" "error" (PText "Comment limit reached")).
Proof.
  assert (Hu : currentUser (closure_of full_state "A") = Some user_A)
    by (vm_compute; reflexivity).
  assert (Hs : currentSession (closure_of full_state "A") = Some "s1"%string)
    by (vm_compute; reflexivity).
  assert (Hne : "s1"%string ≠ ""%string) by discriminate.
  assert (Hmax : at_path (server_limits (Some "production"%string))
                   HIGHLIGHTS_MAX_PER_USER_PER_BOOK = VNum 100)
    by reflexivity.
  assert (Hlen : 1 ≤ content_length (cd_content (a_comment None)) ≤ 500)
    by (vm_compute; split; discriminate).
  assert (Hfull : 5 ≤ count_comments (st_db full_state)
                        (cd_highlightId (a_comment None)))
    by (vm_compute; discriminate).
  split; [repeat split; assumption || apply Hlen|].
  exact (proj1 (proj2 (proj2
           (quota_rejections (Some "production"%string) 100 "A"
              (env_write "c6") (closure_of full_state "A") (st_db full_state)
              (st_rooms full_state) user_A "s1" Hu Hs Hne Hmax)))
           (a_comment None) Hlen (or_intror Hfull)).
Defined.

(** C8, as stated, at a concrete run: B comments on the highlight h1, which
    was posted over HTTP. In one run the highlight has no comment and the
    count query fails; in the other the query succeeds and finds the five
    comments the limit allows. B is sent the very same error in both. *)
Lemma count_failure_reported_as_limit_reached :
  count_comments (st_db highlighted_state) "h1" = 0
  ∧ count_comments (st_db full_state) "h1" = 5
  ∧ (step production
       (CreateComment "B" (a_comment None) (env_count_fails "c6"))
       highlighted_state).2
    = [{| to := "B"; event := "error";
          body := PText "Comment limit reached" |}]
  ∧ (step production (CreateComment "B" (a_comment None) (env_write "c6"))
       full_state).2
    = [{| to := "B"; event := "error";
          body := PText "Comment limit reached" |}].
Proof. vm_compute. repeat split. Qed.

(** *** Comment length *)

Lemma content_length_text_of_length (n : nat) :
  content_length (text_of_length n) = Z.of_nat n.
Proof.
  unfold content_length. f_equal. induction n as [|n IH]; [reflexivity|].
  simpl. congruence.
Qed.

(** C9 at the failing input. The length test is the one the claim states:
    validateCommentLength holds exactly from 1 to 500, both included, and,
    for every environment the server may start in, create-comment on a
    joined connection answers "Comment length invalid", storing nothing,
    exactly when the length is outside 1 to 500. But a comment the test
    lets through is not accepted: it goes on to the count check, and from
    there to an INSERT that names no username, which the comments table
    requires, so that the handler answers "Failed to create comment" and
    stores nothing. B's comments of 1 and of 500 characters on the
    highlight h1, which has no comment yet, are refused so, those of 0 and
    of 501 characters for their length. *)
Theorem comment_within_bounds_fails_at_the_insert :
  (∀ n : Z, validateCommentLength n = true ↔ 1 ≤ n ≤ 500)
  ∧ (∀ (NODE_ENV : option string) (sock : string) (data : comment_data)
       (env : write_env) (c : closure) (d : db)
       (rooms : gmap string (gset string)) (me : user) (session : string),
       currentUser c = Some me → currentSession c = Some session →
       session ≠ ""%string →
       (create_comment (server_limits NODE_ENV) sock data env c d rooms
        = (c, d, rooms,
           socket_emit sock "error" (PText "Comment length invalid"))
        ↔ ¬ 1 ≤ content_length (cd_content data) ≤ 500)
       ∧ (1 ≤ content_length (cd_content data) ≤ 500 →
          create_comment (server_limits NODE_ENV) sock data env c d rooms
          = (c, d, rooms,
             socket_emit sock "error"
               (PText (if we_count_err env
                          || (5 <=? count_comments d (cd_highlightId data))
                       then "Comment limit reached"
                       else "Failed to create comment")))))
  ∧ st_conns highlighted_state !! "B"%string
    = Some {| currentUser :=
                Some {| id := "uB"; username := "Curious Dolphin";
                        color := "#4ECDC4" |};
              currentSession := Some "s1"%string |}
  ∧ count_comments (st_db highlighted_state) "h1" = 0
  ∧ (∀ n : nat,
       (step production
          (CreateComment "B" (comment_of_length n) (env_write "c1"))
          highlighted_state).2
       = [{| to := "B"; event := "error";
             body := PText (if (1 <=? Z.of_nat n) && (Z.of_nat n <=? 500)
                            then "Failed to create comment"
                            else "Comment length invalid") |}]
       ∧ comments
           (st_db (step production
                     (CreateComment "B" (comment_of_length n) (env_write "c1"))
                     highlighted_state).1) = []).
Proof.
  assert (Hgate : ∀ (NODE_ENV : option string) (sock : string)
            (data : comment_data) (env : write_env) (c : closure) (d : db)
            (rooms : gmap string (gset string)) (me : user) (session : string),
            currentUser c = Some me → currentSession c = Some session →
            session ≠ ""%string →
            create_comment (server_limits NODE_ENV) sock data env c d rooms
            = (c, d, rooms,
               socket_emit sock "error"
                 (PText
                    (if (content_length (cd_content data) <? 1)
                        || (500 <? content_length (cd_content data))
                     then "Comment length invalid"
                     else if we_count_err env
                             || (5 <=? count_comments d (cd_highlightId data))
                     then "Comment limit reached"
                     else "Failed to create comment")))).
  { intros NODE_ENV sock data env c d rooms me session Hu Hs Hne.
    destruct (server_limits_values NODE_ENV)
      as (mu & mh & _ & _ & _ & _ & Hc & Hmin & Hmaxlen & _).
    apply str_eqb_neq in Hne. unfold create_comment.
    rewrite Hu, Hs, Hne, Hc, Hmin, Hmaxlen.
    cbn [num_ge num_le num_lt num_gt].
    destruct ((content_length (cd_content data) <? 1)
              || (500 <? content_length (cd_content data)));
      [reflexivity|].
    destruct (we_count_err env
              || (5 <=? count_comments d (cd_highlightId data)));
      reflexivity. }
  split; [apply validateCommentLength_spec|]. split; [|split; [|split]].
  - intros NODE_ENV sock data env c d rooms me session Hu Hs Hne.
    rewrite (Hgate NODE_ENV sock data env c d rooms me session Hu Hs Hne).
    destruct (Z.ltb_spec (content_length (cd_content data)) 1) as [H1|H1];
      cbn [orb].
    { split; [split; [intros _; lia|reflexivity]|lia]. }
    destruct (Z.ltb_spec 500 (content_length (cd_content data))) as [H2|H2].
    { split; [split; [intros _; lia|reflexivity]|lia]. }
    split; [|reflexivity]. split; [|lia].
    intros H. exfalso.
    destruct (we_count_err env
              || (5 <=? count_comments d (cd_highlightId data)));
      discriminate H.
  - vm_compute. reflexivity.
  - vm_compute. reflexivity.
  - intros n.
    assert (Hc : st_conns highlighted_state !! "B"%string
                 = Some (closure_of highlighted_state "B"))
      by (vm_compute; reflexivity).
    assert (Hd : comments (st_db highlighted_state) = [])
      by (vm_compute; reflexivity).
    assert (Hcount : count_comments (st_db highlighted_state) "h1" = 0)
      by (vm_compute; reflexivity).
    cbn [step]. unfold on_socket. rewrite Hc.
    change production with (server_limits (Some "production"%string)).
    rewrite (Hgate (Some "production"%string) "B" (comment_of_length n)
               (env_write "c1") (closure_of highlighted_state "B")
               (st_db highlighted_state) (st_rooms highlighted_state)
               {| id := "uB"; username := "Curious Dolphin";
                  color := "#4ECDC4" |} "s1")
      by (vm_compute; reflexivity || discriminate).
    cbn [fst snd st_db cd_content cd_highlightId comment_of_length
         we_count_err env_write orb].
    rewrite content_length_text_of_length, Hcount.
    change (5 <=? 0) with false. cbv iota.
    split; [|exact Hd]. unfold socket_emit. do 3 f_equal.
    destruct (Z.ltb_spec (Z.of_nat n) 1) as [H1|H1]; cbn [orb].
    { rewrite (proj2 (Z.leb_gt _ _) H1). reflexivity. }
    rewrite (proj2 (Z.leb_le 1 _) H1). cbn [andb].
    destruct (Z.ltb_spec 500 (Z.of_nat n)) as [H2|H2].
    + rewrite (proj2 (Z.leb_gt _ _) H2). reflexivity.
    + rewrite (proj2 (Z.leb_le _ 500) H2). reflexivity.
Qed.

(** *** Reply depth *)

(** X3. The parent of a comment plays no part in what create-comment
    decides: the events it sends are the same with any parent as with
    none. *)
Lemma create_comment_any_parent (limits : value) (sock highlightId content : string)
  (parent : option string) (env : write_env) (c : closure) (d : db)
  (rooms : gmap string (gset string)) :
  event <$> emits_of (create_comment limits sock
              {| cd_highlightId := highlightId; cd_content := content;
                 cd_parentId := parent |} env c d rooms)
  = event <$> emits_of (create_comment limits sock
                {| cd_highlightId := highlightId; cd_content := content;
                   cd_parentId := None |} env c d rooms).
Proof.
  unfold create_comment, emits_of.
  cbn [cd_highlightId cd_content cd_parentId].
  destruct (currentUser c), (currentSession c); reflexivity.
Qed.

(** X4. The design document's reply function does what the configuration says:
    a reply is created, one level below its parent, exactly when the parent's
    depth is below MAX_REPLY_DEPTH = 2 (length and reply count permitting),
    and refused for its depth otherwise. *)
Lemma addReplyWithLimits_depth (parentReplyDepth contentLength replyCount : Z) :
  contentLength ≤ 300 → replyCount < 10 →
  Pseudocode.addReplyWithLimits parentReplyDepth contentLength replyCount
  = if parentReplyDepth <? 2
    then Pseudocode.ReplyCreated (parentReplyDepth + 1)
    else Pseudocode.ReplyDepthExceeded (VNum 2).
Proof.
  intros Hlen Hcount. unfold Pseudocode.addReplyWithLimits.
  change (at_path (getCurrentLimits None) COMMENTS_MAX_REPLY_DEPTH)
    with (VNum 2).
  change (at_path (getCurrentLimits None) Pseudocode.REPLIES_MAX_LENGTH_CHARS)
    with (VNum 300).
  change (at_path (getCurrentLimits None) Pseudocode.REPLIES_MAX_PER_COMMENT)
    with (VNum 10).
  cbn [num_ge num_le num_gt num_lt].
  destruct (Z.leb_spec 2 parentReplyDepth) as [H|H].
  - rewrite (proj2 (Z.ltb_ge _ _) H). reflexivity.
  - rewrite (proj2 (Z.ltb_lt _ _) H).
    rewrite (proj2 (Z.ltb_ge _ _) Hlen), (proj2 (Z.leb_gt _ _) Hcount).
    reflexivity.
Qed.

(** C4 at the failing input. MAX_REPLY_DEPTH is 2 in every environment the
    server may start in, but create-comment never reads it, nor the depth of
    a parent: whatever the limits, the message, the environment and the
    state, the handler changes nothing and sends one error to the
    requesting socket, under one of four messages, none of them about
    depth. No comment is stored at any depth, for the INSERT names no
    username, which the comments table requires. So A's comment on the
    highlight h1, of valid length and the first of the five allowed, is
    answered "Failed to create comment" and not stored; and so is B's reply
    to the comment c1, which was posted over HTTP and has no parent. *)
Theorem comment_fails_at_the_insert_and_depth_is_unchecked :
  (∀ NODE_ENV : option string,
     at_path (server_limits NODE_ENV) COMMENTS_MAX_REPLY_DEPTH = VNum 2)
  ∧ (∀ (limits : value) (sock : string) (data : comment_data)
       (env : write_env) (c : closure) (d : db)
       (rooms : gmap string (gset string)),
       ∃ msg : string,
         create_comment limits sock data env c d rooms
         = (c, d, rooms, socket_emit sock "error" (PText msg))
         ∧ msg ∈ ["Not connected to session"; "Comment length invalid";
                  "Comment limit reached"; "Failed to create comment"]%string)
  ∧ (st_conns highlighted_state !! "A"%string
     = Some {| currentUser := Some user_A;
               currentSession := Some "s1"%string |}
     ∧ content_length (cd_content (a_comment None)) = 12
     ∧ count_comments (st_db highlighted_state) "h1" = 0
     ∧ (step production (CreateComment "A" (a_comment None) (env_write "c0"))
          highlighted_state).2
       = [{| to := "A"; event := "error";
             body := PText "Failed to create comment" |}]
     ∧ comments
         (st_db (step production
                   (CreateComment "A" (a_comment None) (env_write "c0"))
                   highlighted_state).1) = [])
  ∧ (c_id <$> comments (st_db commented_state) = ["c1"%string]
     ∧ c_parent_id <$> comments (st_db commented_state) = [None]
     ∧ (step production
          (CreateComment "B" (a_comment (Some "c1"%string)) (env_write "c2"))
          commented_state).2
       = [{| to := "B"; event := "error";
             body := PText "Failed to create comment" |}]
     ∧ comments
         (st_db (step production
                   (CreateComment "B" (a_comment (Some "c1"%string))
                      (env_write "c2"))
                   commented_state).1)
       = comments (st_db commented_state)).
Proof.
  split; [|split].
  - intros NODE_ENV.
    destruct (server_limits_values NODE_ENV)
      as (mu & mh & _ & _ & _ & _ & _ & _ & _ & Hdepth).
    exact Hdepth.
  - intros limits sock data env c d rooms. unfold create_comment.
    destruct (currentUser c) as [me|], (currentSession c) as [session|];
      try (eexists; split; [reflexivity|set_solver]).
    destruct (str_eqb session "");
      [eexists; split; [reflexivity|set_solver]|].
    destruct (num_lt _ _ || num_gt _ _);
      [eexists; split; [reflexivity|set_solver]|].
    destruct (we_count_err env || _);
      eexists; (split; [reflexivity|set_solver]).
  - vm_compute. repeat split.
Qed.

(** *** Identity on join *)

(** C7, as the code has it. join-session reads nothing but the session id:
    whatever participant id the message carries, the run is the one without
    it. It never changes the stored profiles, and when it admits the socket
    the user is a new one, with the generated id and the name and colour of
    generateUserProfile. Re-using a stored profile is the work of the route
    PUT /api/books/:bookId/profiles/:profileId/use, which on a profile of
    that book sets last_used and nothing else, and answers 404 otherwise. *)
Theorem join_always_generates_a_user :
  (∀ (limits : value) (sock sessionId : string)
     (participantId : option string) (env : join_env) (c : closure) (d : db)
     (rooms : gmap string (gset string)),
     join_session limits sock
       {| jd_sessionId := sessionId; jd_participantId := participantId |}
       env c d rooms
     = join_session limits sock
         {| jd_sessionId := sessionId; jd_participantId := None |}
         env c d rooms)
  ∧ (∀ (limits : value) (sock : string) (data : join_data) (env : join_env)
       (c : closure) (d : db) (rooms : gmap string (gset string)),
       book_profiles (db_of (join_session limits sock data env c d rooms))
       = book_profiles d
       ∧ (received sock "error"
            (emits_of (join_session limits sock data env c d rooms)) = [] →
          currentUser (closure_in (join_session limits sock data env c d rooms))
          = Some {| id := je_uuid env;
                    username := pf_username (generateUserProfile (je_draws env));
                    color := pf_color (generateUserProfile (je_draws env)) |}
          ∧ users (db_of (join_session limits sock data env c d rooms))
            = users d
              ++ [{| u_id := je_uuid env;
                     u_session_id := Some (jd_sessionId data);
                     u_username :=
                       pf_username (generateUserProfile (je_draws env));
                     u_color :=
                       pf_color (generateUserProfile (je_draws env)) |}]))
  ∧ (∀ (bookId profileId : string) (now : Z) (d : db) (row : profile_row),
       book_profiles d !! profileId = Some row →
       bp_book_id row = bookId →
       put_profile_use bookId profileId now false d
       = (set_book_profiles
            (insert profileId
               {| bp_book_id := bp_book_id row;
                  bp_username := bp_username row; bp_color := bp_color row;
                  bp_created_at := bp_created_at row;
                  bp_last_used := now |}) d,
          RSuccess))
  ∧ (∀ (bookId profileId : string) (now : Z) (d : db),
       (∀ row, book_profiles d !! profileId = Some row →
               bp_book_id row ≠ bookId) →
       put_profile_use bookId profileId now false d
       = (d, RError 404 "Profile not found")).
Proof.
  split; [reflexivity|]. split; [|split].
  - intros limits sock data env c d rooms.
    unfold join_session, db_of, emits_of, closure_in.
    destruct (if je_get_err env then None else sessions d !! jd_sessionId data)
      as [session|];
      [|split; [reflexivity|cbn; rewrite str_eqb_refl; discriminate]].
    destruct (num_ge _ _);
      [split; [reflexivity|cbn; rewrite str_eqb_refl; discriminate]|].
    unfold insert_user. cbn [u_id].
    destruct (je_insert_err env || _);
      [split; [reflexivity|cbn; rewrite str_eqb_refl; discriminate]|].
    unfold bump_user_count.
    destruct (je_update_err env);
      (split; [reflexivity|]; intros _; split; reflexivity).
  - intros bookId profileId now d row Hrow Hbook.
    unfold put_profile_use. rewrite Hrow.
    rewrite (proj2 (str_eqb_eq _ _) Hbook). reflexivity.
  - intros bookId profileId now d Hnone. unfold put_profile_use.
    destruct (book_profiles d !! profileId) as [row|] eqn:Hrow; [|reflexivity].
    rewrite (proj2 (str_eqb_neq _ _) (Hnone row eq_refl)). reflexivity.
Qed.

Lemma join_always_generates_a_user_witness :
  (book_profiles (st_db (with_known_profile joined_state)) !! "p1"%string
   = Some known_profile
   ∧ bp_book_id known_profile = "b1"%string)
  ∧ put_profile_use "b1" "p1" 7 false (st_db (with_known_profile joined_state))
    = (set_book_profiles
         (insert "p1"%string
            {| bp_book_id := "b1"; bp_username := "Happy Owl";
               bp_color := "#96CEB4"; bp_created_at := 0;
               bp_last_used := 7 |})
         (st_db (with_known_profile joined_state)),
       RSuccess).
Proof.
  assert (Hrow : book_profiles (st_db (with_known_profile joined_state))
                   !! "p1"%string = Some known_profile)
    by apply lookup_insert_eq.
  assert (Hbook : bp_book_id known_profile = "b1"%string) by reflexivity.
  split; [split; assumption|].
  exact (proj1 (proj2 (proj2 join_always_generates_a_user))
           "b1"%string "p1"%string 7 (st_db (with_known_profile joined_state))
           known_profile Hrow Hbook).
Defined.

(** C7, as stated, at a concrete run: the profile p1 of the book is stored,
    and socket C joins the book's session naming it. C is admitted as a new
    user: another id, another name, another colour; and the stored profile
    keeps the last_used it had. *)
Lemma join_ignores_known_participant :
  book_profiles (st_db (with_known_profile joined_state)) !! "p1"%string
  = Some known_profile
  ∧ currentUser (closure_of join_as_p1.1 "C")
    = Some {| id := "uC"; username := "Witty Elephant"; color := "#45B7D1" |}
  ∧ length (users (st_db join_as_p1.1))
    = S (length (users (st_db joined_state)))
  ∧ book_profiles (st_db join_as_p1.1) !! "p1"%string = Some known_profile
  ∧ bp_last_used known_profile ≠ 7.
Proof. vm_compute. repeat split. discriminate. Qed.

(** *** Progress *)

Lemma Qgtb_true (a b : Q) : Reader.Qgtb a b = true ↔ (b < a)%Q.
Proof.
  unfold Reader.Qgtb. rewrite negb_true_iff. split.
  - intros H. apply Qnot_le_lt. intros Hle.
    apply Qle_bool_iff in Hle. congruence.
  - intros H. destruct (Qle_bool a b) eqn:E; [|reflexivity].
    apply Qle_bool_iff in E. exfalso. exact (Qlt_not_le _ _ H E).
Qed.

Lemma Qgtb_false (a b : Q) : Reader.Qgtb a b = false ↔ (a <= b)%Q.
Proof.
  unfold Reader.Qgtb. rewrite negb_false_iff. apply Qle_bool_iff.
Qed.

(** sendProgressUpdate posts nothing within two seconds of the last update
    it recorded, and otherwise posts the progress it was given. *)
Lemma sendProgressUpdate_throttle (profile_id username book : string)
  (currentChapter lastProgressUpdate now : Z) (progress : Q) :
  book ≠ ""%string →
  Reader.sendProgressUpdate (Some (profile_id, username)) (Some book)
    currentChapter lastProgressUpdate now progress
  = if now - lastProgressUpdate <? 2000 then None
    else Some (book,
               {| pb_profile_id := Some profile_id;
                  pb_username := Some username;
                  pb_progress := Some progress;
                  pb_chapter := Some (currentChapter + 1) |}).
Proof.
  intros Hb. unfold Reader.sendProgressUpdate.
  rewrite (proj2 (str_eqb_neq _ _) Hb). reflexivity.
Qed.

(** C3, as the code has it. The server keeps no maximum: a well-formed
    report to POST /api/books/:bookId/progress that meets no database error
    is stored as the profile's progress, whatever was stored before; and
    update-progress sends every report of a joined socket, with the reported
    percentage, once to each other socket of the room. *)
Theorem progress_reports_stored_and_broadcast :
  (∀ (bookId profile_id username : string) (progress : Q)
     (chapter : option Z) (now : Z) (d : db),
     profile_id ≠ ""%string → username ≠ ""%string →
     (post_progress bookId
        {| pb_profile_id := Some profile_id; pb_username := Some username;
           pb_progress := Some progress; pb_chapter := chapter |}
        now false false d).2 = RSuccess
     ∧ stored_progress
         (post_progress bookId
            {| pb_profile_id := Some profile_id;
               pb_username := Some username;
               pb_progress := Some progress; pb_chapter := chapter |}
            now false false d).1 bookId profile_id
       = Some progress)
  ∧ (∀ (sock : string) (data : progress_data) (c : closure) (d : db)
       (rooms : gmap string (gset string)) (me : user) (session r : string),
       currentUser c = Some me → currentSession c = Some session →
       session ≠ ""%string → r ≠ sock → r ∈ members rooms session →
       received r "user-progress-updated"
         (emits_of (update_progress sock data c d rooms))
       = [{| to := r; event := "user-progress-updated";
             body := PProgress
                       {| pu_userId := id me; pu_username := username me;
                          pu_color := color me; pu_cfi := pd_cfi data;
                          pu_percentage := pd_percentage data |} |}]).
Proof.
  split.
  - intros bookId profile_id username progress chapter now d Hp Hu.
    unfold post_progress, stored_progress.
    cbn [pb_profile_id pb_username pb_progress pb_chapter].
    rewrite (proj2 (str_eqb_neq _ _) Hp), (proj2 (str_eqb_neq _ _) Hu).
    cbn [orb fst snd user_progress set_user_progress].
    split; [reflexivity|].
    rewrite lookup_alter_eq.
    destruct (user_progress d !! (bookId ++ "_" ++ profile_id)%string)
      as [row|] eqn:Hrow.
    + rewrite Hrow. reflexivity.
    + rewrite lookup_insert_eq. reflexivity.
  - intros sock data c d rooms me session r Hu Hs Hne Hr Hin.
    unfold update_progress, emits_of. rewrite Hu, Hs.
    rewrite (proj2 (str_eqb_neq _ _) Hne). cbn [snd].
    apply received_socket_to_emit_member; assumption.
Qed.

Lemma progress_reports_stored_and_broadcast_witness :
  ("p1"%string ≠ ""%string ∧ "Happy Owl"%string ≠ ""%string)
  ∧ stored_progress
      (post_progress "b1" (a_report 5) 0 false false
         (post_progress "b1" (a_report 10) 0 false false
            (st_db (with_known_profile joined_state))).1).1 "b1" "p1"
    = Some 5%Q.
Proof.
  assert (H1 : "p1"%string ≠ ""%string) by discriminate.
  assert (H2 : "Happy Owl"%string ≠ ""%string) by discriminate.
  split; [split; assumption|].
  exact (proj2 (proj1 progress_reports_stored_and_broadcast
                  "b1"%string "p1"%string "Happy Owl"%string 5%Q (Some 1) 0
                  (post_progress "b1" (a_report 10) 0 false false
                     (st_db (with_known_profile joined_state))).1 H1 H2)).
Defined.

(** C3, as stated, at the position sequence of the claim: the reports 10, 5,
    40, 30, 55 of one profile on one book leave, one after the other, the
    stored progress 10, 5, 40, 30, 55, not the high-water marks 10, 10, 40,
    40, 55; and the report of 5 by the joined socket A, after one of 10, is
    broadcast to B. *)
Lemma progress_reports_overwrite :
  stored_after [10; 5; 40; 30; 55]%Q (st_db (with_known_profile joined_state))
  = [Some 10; Some 5; Some 40; Some 30; Some 55]%Q
  ∧ stored_after [10; 5; 40; 30; 55]%Q
      (st_db (with_known_profile joined_state))
    ≠ [Some 10; Some 10; Some 40; Some 40; Some 55]%Q
  ∧ length (received "B" "user-progress-updated"
      (run production
         [ UpdateProgress "A" {| pd_cfi := "epubcfi(/6/8)"; pd_percentage := 10 |};
           UpdateProgress "A" {| pd_cfi := "epubcfi(/6/6)"; pd_percentage := 5 |} ]
         joined_state).2) = 2%nat.
Proof.
  split; [vm_compute; reflexivity|]. split; [vm_compute; discriminate|].
  vm_compute. reflexivity.
Qed.

(** *** Users and rosters *)

Lemma has_user_false (d : db) (i : string) :
  has_user d i = false ↔ i ∉ u_id <$> users d.
Proof.
  unfold has_user. induction (users d) as [|r l IH]; cbn.
  - split; [intros _ H; inversion H|reflexivity].
  - rewrite orb_false_iff, IH, not_elem_of_cons.
    unfold str_eqb. rewrite String.eqb_neq. split; intros [H1 H2]; split; auto.
Qed.

Lemma opt_is_true (o : option string) (s : string) :
  opt_is o s = true ↔ o = Some s.
Proof.
  destruct o as [s'|]; cbn; [|split; discriminate].
  unfold str_eqb. rewrite String.eqb_eq. split; congruence.
Qed.

(** Removing the only row of a given id from a list without duplicate ids. *)
Lemma filter_remove_length (P : user_row → bool) (l : list user_row)
  (row : user_row) :
  NoDup (u_id <$> l) → row ∈ l →
  length (List.filter P l)
  = (length (List.filter P
       (List.filter (λ r, negb (str_eqb (u_id r) (u_id row))) l))
     + (if P row then 1 else 0))%nat.
Proof.
  induction l as [|x l IH]; intros Hnd Hin; [inversion Hin|].
  cbn [fmap list_fmap] in Hnd. apply NoDup_cons in Hnd as [Hx Hnd].
  apply elem_of_cons in Hin as [->|Hin].
  - cbn [List.filter]. unfold str_eqb at 1. rewrite String.eqb_refl. cbn [negb].
    assert (Hsame : List.filter (λ r, negb (str_eqb (u_id r) (u_id x))) l = l).
    { clear IH Hnd. induction l as [|y l IH]; [reflexivity|].
      cbn [List.filter].
      assert (Hy : str_eqb (u_id y) (u_id x) = false).
      { apply String.eqb_neq. intros E. apply Hx. rewrite <- E.
        cbn. left. }
      rewrite Hy. cbn [negb]. f_equal. apply IH.
      intros H. apply Hx. cbn. right. exact H. }
    rewrite Hsame. destruct (P x); cbn [length]; lia.
  - cbn [List.filter].
    assert (Hy : str_eqb (u_id x) (u_id row) = false).
    { apply String.eqb_neq. intros E. apply Hx. rewrite E.
      apply list_elem_of_fmap. exists row. split; [reflexivity|exact Hin]. }
    rewrite Hy. cbn [negb List.filter].
    specialize (IH Hnd Hin).
    destruct (P x); cbn [length]; lia.
Qed.

Lemma filter_filter_elem (i : string) (l : list user_row) (row : user_row) :
  row ∈ List.filter (λ r, negb (str_eqb (u_id r) i)) l ↔ row ∈ l ∧ u_id row ≠ i.
Proof.
  rewrite !list_elem_of_In, List.filter_In, negb_true_iff.
  unfold str_eqb. rewrite String.eqb_neq. reflexivity.
Qed.

Lemma NoDup_filter_ids (P : user_row → bool) (l : list user_row) :
  NoDup (u_id <$> l) → NoDup (u_id <$> List.filter P l).
Proof.
  induction l as [|x l IH]; intros Hnd; [exact Hnd|].
  cbn [fmap list_fmap] in Hnd. apply NoDup_cons in Hnd as [Hx Hnd].
  cbn [List.filter]. destruct (P x); [|apply IH; exact Hnd].
  cbn [fmap list_fmap]. apply NoDup_cons. split; [|apply IH; exact Hnd].
  intros Hin. apply Hx. apply list_elem_of_fmap in Hin as (r & -> & Hr).
  apply list_elem_of_fmap. exists r. split; [reflexivity|].
  apply list_elem_of_In. apply list_elem_of_In in Hr.
  apply List.filter_In in Hr. tauto.
Qed.

(** *** disconnect *)

Lemma bump_user_count_users (err : bool) (delta : Z) (touch : option Z)
  (s : string) (d : db) :
  users (bump_user_count err delta touch s d) = users d.
Proof. unfold bump_user_count. destruct err; reflexivity. Qed.

Lemma bump_user_count_known (err : bool) (delta : Z) (touch : option Z)
  (s s' : string) (d : db) :
  is_Some (sessions (bump_user_count err delta touch s d) !! s')
  ↔ is_Some (sessions d !! s').
Proof.
  unfold bump_user_count. destruct err; [reflexivity|].
  cbn [sessions set_sessions]. apply lookup_alter_is_Some.
Qed.

Lemma members_leave_all (r sock room : string)
  (rooms : gmap string (gset string)) :
  r ∈ members (leave_all sock rooms) room
  ↔ r ∈ members rooms room ∧ r ≠ sock.
Proof.
  unfold members, leave_all. rewrite lookup_fmap.
  destruct (rooms !! room) as [ms|]; cbn.
  - rewrite elem_of_difference, elem_of_singleton. reflexivity.
  - split; [intros H; apply not_elem_of_empty in H; destruct H|].
    intros [H _]. exact H.
Qed.

(** C6, as the code has it. When a socket closes, its connection is dropped
    and it has left every room, whatever the database does. If the
    connection had joined a session: when the DELETE of its user and the
    UPDATE of the count report no error, the user is removed, the count of
    the session is one lower, and every other socket of the room is told
    user-left once; when the DELETE fails, no table changes and nobody is
    told. Leaving is idempotent: the disconnection of the same socket a
    second time, and that of a socket the server does not know, change
    nothing and send nothing; that of a connection that never joined
    changes no table and sends nothing. *)
Theorem disconnect_frees_the_slot (limits : value) (sock : string)
  (st : state) (c : closure) (me : user) (session : string)
  (row : session_row) :
  st_conns st !! sock = Some c →
  currentUser c = Some me → currentSession c = Some session →
  session ≠ ""%string →
  sessions (st_db st) !! session = Some row →
  (st_db (step limits (Disconnect sock false false) st).1
   = bump_user_count false (-1) None session
       (set_users (List.filter (λ r, negb (str_eqb (u_id r) (id me))))
          (st_db st))
   ∧ has_user (st_db (step limits (Disconnect sock false false) st).1) (id me)
     = false
   ∧ s_user_count
       <$> sessions (st_db (step limits (Disconnect sock false false) st).1)
             !! session
     = Some (s_user_count row - 1)
   ∧ ∀ r : string,
       received r "user-left"
         (step limits (Disconnect sock false false) st).2
       = if decide (r ∈ members (st_rooms st) session ∧ r ≠ sock)
         then [{| to := r; event := "user-left"; body := PUser me |}]
         else [])
  ∧ (∀ update_err : bool,
       st_db (step limits (Disconnect sock true update_err) st).1 = st_db st
       ∧ (step limits (Disconnect sock true update_err) st).2 = [])
  ∧ (∀ delete_err update_err : bool,
       st_conns (step limits (Disconnect sock delete_err update_err) st).1
       = delete sock (st_conns st)
       ∧ ∀ room : string,
           sock ∉ members
                    (st_rooms
                       (step limits (Disconnect sock delete_err update_err)
                          st).1) room)
  ∧ (∀ delete_err update_err delete_err' update_err' : bool,
       step limits (Disconnect sock delete_err' update_err')
         (step limits (Disconnect sock delete_err update_err) st).1
       = ((step limits (Disconnect sock delete_err update_err) st).1, []))
  ∧ (∀ (sock' : string) (delete_err update_err : bool),
       st_conns st !! sock' = None →
       step limits (Disconnect sock' delete_err update_err) st = (st, []))
  ∧ (∀ (sock' : string) (c' : closure) (delete_err update_err : bool),
       st_conns st !! sock' = Some c' → currentUser c' = None →
       st_db (step limits (Disconnect sock' delete_err update_err) st).1
       = st_db st
       ∧ (step limits (Disconnect sock' delete_err update_err) st).2 = []).
Proof.
  intros Hc Hu Hs Hne Hrow. apply str_eqb_neq in Hne.
  assert (Hstep : ∀ delete_err update_err,
    step limits (Disconnect sock delete_err update_err) st
    = ({| st_db := db_of (disconnect sock delete_err update_err c (st_db st)
                            (leave_all sock (st_rooms st)));
          st_rooms := leave_all sock (st_rooms st);
          st_conns := delete sock (st_conns st) |},
       emits_of (disconnect sock delete_err update_err c (st_db st)
                   (leave_all sock (st_rooms st))))).
  { intros delete_err update_err. cbn [step]. rewrite Hc.
    unfold db_of, emits_of.
    destruct (disconnect sock delete_err update_err c (st_db st)
                (leave_all sock (st_rooms st))) as [[[c' d'] rooms'] out].
    reflexivity. }
  split; [|split; [|split; [|split; [|split]]]].
  - rewrite Hstep. cbn [fst snd st_db]. unfold disconnect, db_of, emits_of.
    rewrite Hu, Hs, Hne. cbn [delete_user fst snd].
    split; [reflexivity|]. split; [|split].
    + apply has_user_false. rewrite bump_user_count_users.
      cbn [users set_users]. intros Hin.
      apply list_elem_of_fmap in Hin as (r & Hid & Hr).
      apply filter_filter_elem in Hr as [_ Hr]. congruence.
    + cbn [bump_user_count sessions set_sessions set_users].
      rewrite lookup_alter_eq, Hrow. reflexivity.
    + intros r. case_decide as Hr.
      * destruct Hr as [Hin Hr].
        apply received_socket_to_emit_member; [|exact Hr].
        apply members_leave_all. split; assumption.
      * destruct (decide (r = sock)) as [->|Hr'];
          [apply received_socket_to_emit_sender|].
        apply received_socket_to_emit_outside. intros Hin.
        apply members_leave_all in Hin as [Hin _]. apply Hr. split; assumption.
  - intros update_err. rewrite Hstep. cbn [fst snd st_db].
    unfold disconnect, db_of, emits_of. rewrite Hu, Hs, Hne.
    split; reflexivity.
  - intros delete_err update_err. rewrite Hstep. cbn [fst st_conns st_rooms].
    split; [reflexivity|]. intros room Hin.
    apply members_leave_all in Hin as [_ Hin]. apply Hin. reflexivity.
  - intros delete_err update_err delete_err' update_err'. rewrite Hstep.
    cbn [fst step st_conns]. rewrite lookup_delete_eq. reflexivity.
  - intros sock' delete_err update_err Hnone. cbn [step]. rewrite Hnone.
    reflexivity.
  - intros sock' c' delete_err update_err Hc' Hu'. cbn [step]. rewrite Hc'.
    unfold disconnect. rewrite Hu'. split; reflexivity.
Qed.

Lemma disconnect_frees_the_slot_witness :
  (st_conns joined_state !! "A"%string
   = Some {| currentUser := Some user_A;
             currentSession := Some "s1"%string |}
   ∧ "s1"%string ≠ ""%string
   ∧ sessions (st_db joined_state) !! "s1"%string
     = Some {| s_book_id := "b1"; s_user_count := 2; s_last_activity := 2 |})
  ∧ s_user_count
      <$> sessions (st_db (step production (Disconnect "A" false false)
                             joined_state).1) !! "s1"%string
    = Some (2 - 1).
Proof.
  assert (Hc : st_conns joined_state !! "A"%string
               = Some {| currentUser := Some user_A;
                         currentSession := Some "s1"%string |})
    by (vm_compute; reflexivity).
  assert (Hne : "s1"%string ≠ ""%string) by discriminate.
  assert (Hrow : sessions (st_db joined_state) !! "s1"%string
                 = Some {| s_book_id := "b1"; s_user_count := 2;
                           s_last_activity := 2 |})
    by (vm_compute; reflexivity).
  split; [repeat split; assumption|].
  exact (proj1 (proj2 (proj2 (proj1
           (disconnect_frees_the_slot production "A" joined_state _ user_A
              "s1" _ Hc eq_refl eq_refl Hne Hrow))))).
Defined.

(** C6, as stated, at a concrete run: A and B have joined session s1, whose
    count is two. A's socket closes and the DELETE of A's user fails. The
    connection is dropped, but the count is not lowered: it still is two,
    A's user is still stored, and B is told nothing. And when the DELETE
    succeeds but the UPDATE fails, A's user is removed and the count still
    is two. *)
Lemma disconnect_error_leaves_the_count :
  st_conns joined_state !! "A"%string
  = Some {| currentUser := Some user_A; currentSession := Some "s1"%string |}
  ∧ s_user_count <$> sessions (st_db joined_state) !! "s1"%string = Some 2
  ∧ st_conns (step production (Disconnect "A" true false) joined_state).1
      !! "A"%string = None
  ∧ s_user_count
      <$> sessions (st_db (step production (Disconnect "A" true false)
                             joined_state).1) !! "s1"%string
    = Some 2
  ∧ has_user (st_db (step production (Disconnect "A" true false)
                       joined_state).1) (id user_A) = true
  ∧ (step production (Disconnect "A" true false) joined_state).2 = []
  ∧ has_user (st_db (step production (Disconnect "A" false true)
                       joined_state).1) (id user_A) = false
  ∧ s_user_count
      <$> sessions (st_db (step production (Disconnect "A" false true)
                             joined_state).1) !! "s1"%string
    = Some 2.
Proof. vm_compute. repeat split. Qed.

(** *** The registry invariant *)

(** What join-session does to closure and database: nothing, or, the session
    found with a free slot and the generated id new, the user stored, the
    UPDATE of the count issued and the closure set. *)
Lemma join_session_cases (limits : value) (sock : string) (data : join_data)
  (env : join_env) (c : closure) (d : db) (rooms : gmap string (gset string)) :
  (closure_in (join_session limits sock data env c d rooms) = c
   ∧ db_of (join_session limits sock data env c d rooms) = d)
  ∨ ∃ session : session_row,
      sessions d !! jd_sessionId data = Some session
      ∧ num_ge (VNum (s_user_count session))
          (at_path limits USER_MAX_CONCURRENT_PER_SESSION) = false
      ∧ has_user d (je_uuid env) = false
      ∧ closure_in (join_session limits sock data env c d rooms)
        = {| currentUser :=
               Some {| id := je_uuid env;
                       username :=
                         pf_username (generateUserProfile (je_draws env));
                       color :=
                         pf_color (generateUserProfile (je_draws env)) |};
             currentSession := Some (jd_sessionId data) |}
      ∧ db_of (join_session limits sock data env c d rooms)
        = bump_user_count (je_update_err env) 1 (Some (je_now env))
            (jd_sessionId data)
            (set_users
               (λ us, us ++ [{| u_id := je_uuid env;
                                u_session_id := Some (jd_sessionId data);
                                u_username :=
                                  pf_username
                                    (generateUserProfile (je_draws env));
                                u_color :=
                                  pf_color
                                    (generateUserProfile (je_draws env)) |}])
               d).
Proof.
  unfold join_session, closure_in, db_of.
  destruct (je_get_err env); [left; split; reflexivity|].
  destruct (sessions d !! jd_sessionId data) as [session|] eqn:Hget;
    [|left; split; reflexivity].
  destruct (num_ge _ _) eqn:Hfull; [left; split; reflexivity|].
  unfold insert_user. cbn [u_id].
  destruct (je_insert_err env); [left; split; reflexivity|]. cbn [orb].
  destruct (has_user d (je_uuid env)) eqn:Hfresh; [left; split; reflexivity|].
  right. exists session. repeat split; assumption.
Qed.

(** What disconnect does to the database: nothing, or, on a joined
    connection whose DELETE reports no error, the user removed and the
    UPDATE of the count issued. *)
Lemma disconnect_cases (sock : string) (delete_err update_err : bool)
  (c : closure) (d : db) (rooms : gmap string (gset string)) :
  db_of (disconnect sock delete_err update_err c d rooms) = d
  ∨ ∃ (me : user) (session : string),
      currentUser c = Some me ∧ currentSession c = Some session
      ∧ delete_err = false
      ∧ db_of (disconnect sock delete_err update_err c d rooms)
        = bump_user_count update_err (-1) None session
            (set_users (List.filter (λ r, negb (str_eqb (u_id r) (id me))))
               d).
Proof.
  unfold disconnect, db_of.
  destruct (currentUser c) as [me|], (currentSession c) as [session|];
    try (left; reflexivity).
  destruct (str_eqb session ""); [left; reflexivity|].
  destruct delete_err; [left; reflexivity|].
  right. exists me, session. repeat split; reflexivity.
Qed.

Lemma registered_init : registered init.
Proof.
  split; cbn.
  - constructor.
  - intros row s H. inversion H.
  - intros sock c me H. rewrite lookup_empty in H. discriminate.
  - intros sock1 sock2 c1 c2 me1 me2 _ H. rewrite lookup_empty in H.
    discriminate.
Qed.

Lemma consistent_init (M : Z) : 0 ≤ M → consistent M init.
Proof.
  intros HM. split; [apply registered_init|].
  cbn. intros s row H. rewrite lookup_empty in H. discriminate.
Qed.

(** A step that leaves users, sessions and connections as they are. *)
Lemma registered_same (st st' : state) :
  users (st_db st') = users (st_db st) →
  sessions (st_db st') = sessions (st_db st) →
  st_conns st' = st_conns st →
  registered st → registered st'.
Proof.
  intros Hu Hs Hc [H1 H2 H4 H5].
  split; rewrite ?Hu, ?Hs, ?Hc; assumption.
Qed.

Lemma consistent_same (M : Z) (st st' : state) :
  users (st_db st') = users (st_db st) →
  sessions (st_db st') = sessions (st_db st) →
  st_conns st' = st_conns st →
  consistent M st → consistent M st'.
Proof.
  intros Hu Hs Hc [Hreg H3].
  split; [exact (registered_same st st' Hu Hs Hc Hreg)|].
  unfold roster. rewrite Hu, Hs. exact H3.
Qed.

Lemma create_highlight_keeps (limits : value) (sock : string)
  (data : highlight_data) (env : write_env) (c : closure) (d : db)
  (rooms : gmap string (gset string)) :
  closure_in (create_highlight limits sock data env c d rooms) = c
  ∧ users (db_of (create_highlight limits sock data env c d rooms)) = users d
  ∧ sessions (db_of (create_highlight limits sock data env c d rooms))
    = sessions d.
Proof.
  unfold create_highlight, closure_in, db_of.
  destruct (currentUser c), (currentSession c); try (repeat split; reflexivity).
  destruct (str_eqb _ ""); [repeat split; reflexivity|].
  destruct (we_count_err env || _); repeat split; reflexivity.
Qed.

Lemma create_comment_keeps (limits : value) (sock : string)
  (data : comment_data) (env : write_env) (c : closure) (d : db)
  (rooms : gmap string (gset string)) :
  closure_in (create_comment limits sock data env c d rooms) = c
  ∧ users (db_of (create_comment limits sock data env c d rooms)) = users d
  ∧ sessions (db_of (create_comment limits sock data env c d rooms))
    = sessions d.
Proof.
  unfold create_comment, closure_in, db_of.
  destruct (currentUser c), (currentSession c); try (repeat split; reflexivity).
  destruct (str_eqb _ ""); [repeat split; reflexivity|].
  destruct (num_lt _ _ || num_gt _ _); [repeat split; reflexivity|].
  destruct (we_count_err env || _); repeat split; reflexivity.
Qed.

Lemma update_progress_keeps (sock : string) (data : progress_data)
  (c : closure) (d : db) (rooms : gmap string (gset string)) :
  closure_in (update_progress sock data c d rooms) = c
  ∧ db_of (update_progress sock data c d rooms) = d.
Proof.
  unfold update_progress, closure_in, db_of.
  destruct (currentUser c), (currentSession c); try (split; reflexivity).
  destruct (str_eqb _ ""); split; reflexivity.
Qed.

(** A handler that leaves closure, users and sessions as they are. *)
Lemma on_socket_same (sock : string)
  (h : closure → db → gmap string (gset string) → result) (st : state) :
  (∀ c d rooms, closure_in (h c d rooms) = c
                ∧ users (db_of (h c d rooms)) = users d
                ∧ sessions (db_of (h c d rooms)) = sessions d) →
  users (st_db (on_socket sock h st).1) = users (st_db st)
  ∧ sessions (st_db (on_socket sock h st).1) = sessions (st_db st)
  ∧ st_conns (on_socket sock h st).1 = st_conns st.
Proof.
  intros Hh. unfold on_socket.
  destruct (st_conns st !! sock) as [c|] eqn:Hc; [|repeat split; reflexivity].
  specialize (Hh c (st_db st) (st_rooms st)).
  unfold closure_in, db_of in Hh.
  destruct (h c (st_db st) (st_rooms st)) as [[[c' d'] rooms'] out].
  cbn [fst snd] in Hh. destruct Hh as (-> & Hu & Hs).
  cbn [fst st_db st_conns]. split; [exact Hu|]. split; [exact Hs|].
  apply insert_id. exact Hc.
Qed.

Lemma annotation_same (limits : value) (e : server_event) (st : state) :
  match e with
  | CreateHighlight _ _ _ | CreateComment _ _ _ | UpdateProgress _ _ => True
  | _ => False
  end →
  users (st_db (step limits e st).1) = users (st_db st)
  ∧ sessions (st_db (step limits e st).1) = sessions (st_db st)
  ∧ st_conns (step limits e st).1 = st_conns st.
Proof.
  destruct e as [sock|sessionId bookId now err|sock data env
    |sock data env|sock data env|sock data|sock delete_err update_err];
    intros He; try destruct He; cbn [step]; apply on_socket_same.
  - intros c d rooms. apply create_highlight_keeps.
  - intros c d rooms. apply create_comment_keeps.
  - intros c d rooms.
    destruct (update_progress_keeps sock data c d rooms) as [H1 H2].
    rewrite H2. repeat split; assumption.
Qed.

Lemma registered_upload (limits : value) (sessionId bookId : string)
  (now : Z) (err : bool) (st : state) :
  registered st →
  registered (step limits (Upload sessionId bookId now err) st).1.
Proof.
  intros Hst. cbn [step fst]. unfold insert_session.
  destruct err;
    [apply (registered_same st); try reflexivity; exact Hst|].
  destruct (sessions (st_db st) !! sessionId) as [old|] eqn:Hold;
    [apply (registered_same st); try reflexivity; exact Hst|].
  destruct Hst as [H1 H2 H4 H5].
  split; cbn [from_option Datatypes.id st_db st_conns set_sessions users sessions];
    try assumption.
  intros row s Hrow Hs. rewrite lookup_insert_is_Some'. right. eauto.
Qed.

Lemma consistent_upload (M : Z) (sessionId bookId : string) (now : Z)
  (err : bool) (st : state) (limits : value) :
  0 ≤ M → consistent M st →
  consistent M (step limits (Upload sessionId bookId now err) st).1.
Proof.
  intros HM [Hreg H3].
  split; [apply registered_upload; exact Hreg|].
  cbn [step fst st_db]. unfold insert_session.
  destruct err; [exact H3|].
  destruct (sessions (st_db st) !! sessionId) as [old|] eqn:Hold; [exact H3|].
  cbn [from_option Datatypes.id].
  intros s row. unfold roster. cbn [users sessions set_sessions].
  destruct (decide (sessionId = s)) as [<-|Hne].
  - rewrite lookup_insert_eq. intros [= <-]. cbn [s_user_count].
    assert (Hempty : List.filter (λ r, opt_is (u_session_id r) sessionId)
                       (users (st_db st)) = []).
    { destruct (List.filter _ _) as [|r l] eqn:E; [reflexivity|].
      assert (Hr : List.In r (List.filter
                 (λ r, opt_is (u_session_id r) sessionId) (users (st_db st))))
        by (rewrite E; left; reflexivity).
      apply List.filter_In in Hr as [Hr Hs]. apply opt_is_true in Hs.
      apply list_elem_of_In in Hr.
      destruct (sessions_known _ Hreg r sessionId Hr Hs) as [x Hx].
      congruence. }
    rewrite Hempty. cbn. split; [reflexivity|exact HM].
  - rewrite lookup_insert_ne by exact Hne. apply H3.
Qed.

Lemma registered_join (limits : value) (sock : string) (data : join_data)
  (env : join_env) (st : state) :
  registered st →
  registered (step limits (JoinSession sock data env) st).1.
Proof.
  intros Hst. cbn [step]. unfold on_socket.
  destruct (st_conns st !! sock) as [c|] eqn:Hc; [|exact Hst].
  pose proof (join_session_cases limits sock data env c (st_db st)
                (st_rooms st)) as Hj.
  unfold closure_in, db_of in Hj.
  destruct (join_session limits sock data env c (st_db st) (st_rooms st))
    as [[[c' d'] rooms'] out].
  cbn [fst snd] in *.
  destruct Hj as [[-> ->]|(session & Hget & _ & Hfresh & -> & ->)].
  { apply (registered_same st); cbn [st_db st_conns];
      [reflexivity|reflexivity|apply insert_id; exact Hc|exact Hst]. }
  apply has_user_false in Hfresh.
  set (sid := jd_sessionId data) in *.
  set (row := {| u_id := je_uuid env; u_session_id := Some sid;
                 u_username := pf_username (generateUserProfile (je_draws env));
                 u_color := pf_color (generateUserProfile (je_draws env)) |}).
  destruct Hst as [H1 H2 H4 H5].
  assert (Hold : ∀ sock' c' me',
            st_conns st !! sock' = Some c' → currentUser c' = Some me' →
            id me' ≠ je_uuid env).
  { intros sock' c' me' Hc' Hu'.
    destruct (H4 sock' c' me' Hc' Hu') as (r & s' & Hr & Hid & _).
    intros E. apply Hfresh. rewrite <- E, <- Hid.
    apply list_elem_of_fmap. exists r. split; [reflexivity|exact Hr]. }
  split; cbn [st_db st_conns]; rewrite ?bump_user_count_users;
    cbn [set_users users].
  - rewrite fmap_app. apply NoDup_app. split; [exact H1|]. split.
    + intros x Hx Hin. cbn in Hin. apply list_elem_of_singleton in Hin.
      subst x. exact (Hfresh Hx).
    + cbn. apply NoDup_singleton.
  - intros r s Hr Hs. apply bump_user_count_known. cbn [sessions set_users].
    apply elem_of_app in Hr as [Hr|Hr]; [eauto|].
    apply list_elem_of_singleton in Hr. subst r. cbn in Hs.
    injection Hs as <-. eauto.
  - intros sock' c' me Hc' Hu.
    destruct (decide (sock = sock')) as [<-|Hne].
    + rewrite lookup_insert_eq in Hc'. injection Hc' as <-.
      cbn in Hu. injection Hu as <-.
      exists row, sid. split; [|repeat split; reflexivity].
      apply elem_of_app. right. apply list_elem_of_singleton. reflexivity.
    + rewrite lookup_insert_ne in Hc' by exact Hne.
      destruct (H4 sock' c' me Hc' Hu) as (r & s & Hr & Hid & Hrs & Hcs).
      exists r, s. split; [|repeat split; assumption].
      apply elem_of_app. left. exact Hr.
  - intros sock1 sock2 c1 c2 me1 me2 Hne Hc1 Hc2 Hu1 Hu2.
    destruct (decide (sock = sock1)) as [<-|Hne1].
    + rewrite lookup_insert_eq in Hc1. injection Hc1 as <-.
      rewrite lookup_insert_ne in Hc2 by exact Hne.
      cbn in Hu1. injection Hu1 as <-. cbn [id].
      intros E. exact (Hold sock2 c2 me2 Hc2 Hu2 (eq_sym E)).
    + rewrite lookup_insert_ne in Hc1 by exact Hne1.
      destruct (decide (sock = sock2)) as [<-|Hne2].
      * rewrite lookup_insert_eq in Hc2. injection Hc2 as <-.
        cbn in Hu2. injection Hu2 as <-. cbn [id].
        exact (Hold sock1 c1 me1 Hc1 Hu1).
      * rewrite lookup_insert_ne in Hc2 by exact Hne2.
        exact (H5 sock1 sock2 c1 c2 me1 me2 Hne Hc1 Hc2 Hu1 Hu2).
Qed.

Lemma consistent_join (limits : value) (M : Z) (sock : string)
  (data : join_data) (env : join_env) (st : state) :
  at_path limits USER_MAX_CONCURRENT_PER_SESSION = VNum M →
  je_update_err env = false →
  consistent M st →
  consistent M (step limits (JoinSession sock data env) st).1.
Proof.
  intros HM Hupd [Hreg H3].
  split; [apply registered_join; exact Hreg|].
  cbn [step]. unfold on_socket.
  destruct (st_conns st !! sock) as [c|] eqn:Hc; [|exact H3].
  pose proof (join_session_cases limits sock data env c (st_db st)
                (st_rooms st)) as Hj.
  unfold closure_in, db_of in Hj.
  destruct (join_session limits sock data env c (st_db st) (st_rooms st))
    as [[[c' d'] rooms'] out].
  cbn [fst snd st_db] in *.
  destruct Hj as [[_ ->]|(session & Hget & Hfree & _ & _ & ->)];
    [exact H3|].
  rewrite HM in Hfree. cbn [num_ge num_le] in Hfree.
  apply Z.leb_gt in Hfree. rewrite Hupd.
  set (sid := jd_sessionId data) in *.
  intros s srow. unfold roster.
  cbn [users sessions bump_user_count set_sessions set_users].
  rewrite List.filter_app. cbn [List.filter u_session_id opt_is].
  destruct (decide (sid = s)) as [<-|Hne].
  - rewrite lookup_alter_eq, Hget. cbn. intros [= <-]. cbn [s_user_count].
    unfold str_eqb. rewrite String.eqb_refl.
    rewrite length_app. cbn [length].
    destruct (H3 sid session Hget) as [Hcount _].
    unfold roster in Hcount. split; lia.
  - rewrite lookup_alter_ne by exact Hne.
    assert (Hs : str_eqb sid s = false) by (apply String.eqb_neq; exact Hne).
    rewrite Hs, app_nil_r. apply H3.
Qed.

Lemma registered_connect (limits : value) (sock : string) (st : state) :
  registered st → registered (step limits (Connect sock) st).1.
Proof.
  intros Hst. cbn [step].
  destruct (st_conns st !! sock) as [c|] eqn:Hc; [exact Hst|].
  destruct Hst as [H1 H2 H4 H5].
  cbn [fst]. split; cbn [st_db st_conns]; try assumption.
  - intros sock' c' me Hc' Hu.
    destruct (decide (sock = sock')) as [<-|Hne].
    + rewrite lookup_insert_eq in Hc'. injection Hc' as <-. discriminate.
    + rewrite lookup_insert_ne in Hc' by exact Hne. eauto.
  - intros sock1 sock2 c1 c2 me1 me2 Hne Hc1 Hc2 Hu1 Hu2.
    destruct (decide (sock = sock1)) as [<-|Hne1].
    { rewrite lookup_insert_eq in Hc1. injection Hc1 as <-. discriminate. }
    destruct (decide (sock = sock2)) as [<-|Hne2].
    { rewrite lookup_insert_eq in Hc2. injection Hc2 as <-. discriminate. }
    rewrite lookup_insert_ne in Hc1, Hc2 by assumption. eauto.
Qed.

Lemma consistent_connect (limits : value) (M : Z) (sock : string) (st : state) :
  consistent M st → consistent M (step limits (Connect sock) st).1.
Proof.
  intros [Hreg H3]. split; [apply registered_connect; exact Hreg|].
  cbn [step]. destruct (st_conns st !! sock); exact H3.
Qed.

(** Dropping a connection without touching users and sessions. *)
Lemma registered_drop (sock : string) (st st' : state) :
  users (st_db st') = users (st_db st) →
  sessions (st_db st') = sessions (st_db st) →
  st_conns st' = delete sock (st_conns st) →
  registered st → registered st'.
Proof.
  intros Hu Hs Hc [H1 H2 H4 H5].
  split; rewrite ?Hu, ?Hs, ?Hc; try assumption.
  - intros sock' c' me Hc' Hu'.
    apply lookup_delete_Some in Hc' as [_ Hc']. eauto.
  - intros sock1 sock2 c1 c2 me1 me2 Hne Hc1 Hc2 Hu1 Hu2.
    apply lookup_delete_Some in Hc1 as [_ Hc1].
    apply lookup_delete_Some in Hc2 as [_ Hc2]. eauto.
Qed.

Lemma registered_disconnect (limits : value) (sock : string)
  (delete_err update_err : bool) (st : state) :
  registered st →
  registered (step limits (Disconnect sock delete_err update_err) st).1.
Proof.
  intros Hst. cbn [step].
  destruct (st_conns st !! sock) as [c|] eqn:Hc; [|exact Hst].
  pose proof (disconnect_cases sock delete_err update_err c (st_db st)
                (leave_all sock (st_rooms st))) as Hd.
  unfold db_of in Hd.
  destruct (disconnect sock delete_err update_err c (st_db st)
              (leave_all sock (st_rooms st))) as [[[c' d'] rooms'] out].
  cbn [fst snd] in *.
  destruct Hd as [->|(me & session & Hu & Hs & _ & ->)].
  { apply (registered_drop sock st); try reflexivity. exact Hst. }
  destruct Hst as [H1 H2 H4 H5].
  split; cbn [st_db st_conns]; rewrite ?bump_user_count_users;
    cbn [set_users users].
  - apply NoDup_filter_ids. exact H1.
  - intros r s Hr Hs'. apply bump_user_count_known. cbn [sessions set_users].
    apply filter_filter_elem in Hr as [Hr _]. eauto.
  - intros sock' c1 me' Hc' Hu'.
    apply lookup_delete_Some in Hc' as [Hne Hc'].
    destruct (H4 sock' c1 me' Hc' Hu') as (r & s & Hr & Hrid & Hrs' & Hcs').
    exists r, s. split; [|repeat split; assumption].
    apply filter_filter_elem. split; [exact Hr|].
    rewrite Hrid.
    exact (H5 sock' sock c1 c me' me (not_eq_sym Hne) Hc' Hc Hu' Hu).
  - intros sock1 sock2 c1 c2 me1 me2 Hne Hc1 Hc2 Hu1 Hu2.
    apply lookup_delete_Some in Hc1 as [_ Hc1].
    apply lookup_delete_Some in Hc2 as [_ Hc2]. eauto.
Qed.

Lemma consistent_disconnect (limits : value) (M : Z) (sock : string)
  (delete_err update_err : bool) (st : state) :
  delete_err = true ∨ update_err = false →
  consistent M st →
  consistent M (step limits (Disconnect sock delete_err update_err) st).1.
Proof.
  intros Hupd [Hreg H3].
  split; [apply registered_disconnect; exact Hreg|].
  cbn [step].
  destruct (st_conns st !! sock) as [c|] eqn:Hc; [|exact H3].
  pose proof (disconnect_cases sock delete_err update_err c (st_db st)
                (leave_all sock (st_rooms st))) as Hd.
  unfold db_of in Hd.
  destruct (disconnect sock delete_err update_err c (st_db st)
              (leave_all sock (st_rooms st))) as [[[c' d'] rooms'] out].
  cbn [fst snd st_db] in *.
  destruct Hd as [->|(me & session & Hu & Hs & Hdel & ->)]; [exact H3|].
  destruct Hupd as [Hupd|Hupd]; [congruence|]. subst update_err.
  destruct (conn_rows _ Hreg sock c me Hc Hu) as (row & s & Hrow & Hid & Hrs & Hcs).
  assert (s = session) as -> by congruence.
  rewrite <- Hid in *.
  intros s srow. unfold roster.
  cbn [users sessions bump_user_count set_sessions set_users].
  pose proof (filter_remove_length
                (λ r, opt_is (u_session_id r) s) _ row
                (ids_unique _ Hreg) Hrow) as Hlen.
  cbn beta in Hlen. rewrite Hrs in Hlen. cbn [opt_is] in Hlen.
  destruct (decide (session = s)) as [<-|Hne].
  - rewrite lookup_alter_eq.
    destruct (sessions (st_db st) !! session) as [old|] eqn:Hold;
      [|discriminate].
    cbn. intros [= <-]. cbn [s_user_count].
    destruct (H3 session old Hold) as [Hcount Hle].
    unfold roster in Hcount. unfold str_eqb at 2 in Hlen.
    rewrite String.eqb_refl in Hlen. split; lia.
  - rewrite lookup_alter_ne by exact Hne. intros Hsrow.
    destruct (H3 s srow Hsrow) as [Hcount Hle]. unfold roster in Hcount.
    assert (Hf : str_eqb session s = false)
      by (apply String.eqb_neq; exact Hne).
    rewrite Hf in Hlen. split; [lia|exact Hle].
Qed.

Lemma registered_step (limits : value) (e : server_event) (st : state) :
  registered st → registered (step limits e st).1.
Proof.
  intros Hst. destruct e.
  - apply registered_connect. exact Hst.
  - apply registered_upload. exact Hst.
  - apply registered_join. exact Hst.
  - destruct (annotation_same limits (CreateHighlight sock data env) st I)
      as (Hu & Hs & Hc).
    apply (registered_same st); assumption.
  - destruct (annotation_same limits (CreateComment sock data env) st I)
      as (Hu & Hs & Hc).
    apply (registered_same st); assumption.
  - destruct (annotation_same limits (UpdateProgress sock data) st I)
      as (Hu & Hs & Hc).
    apply (registered_same st); assumption.
  - apply registered_disconnect. exact Hst.
Qed.

Lemma registered_run (limits : value) (evs : list server_event) (st : state) :
  registered st → registered (run limits evs st).1.
Proof.
  revert st. induction evs as [|e evs IH]; intros st Hst; [exact Hst|].
  cbn [run]. pose proof (registered_step limits e st Hst) as H1.
  destruct (step limits e st) as [st1 out1]. cbn [fst] in H1.
  specialize (IH st1 H1).
  destruct (run limits evs st1) as [st2 out2]. exact IH.
Qed.

Lemma consistent_step (limits : value) (M : Z) (e : server_event) (st : state) :
  at_path limits USER_MAX_CONCURRENT_PER_SESSION = VNum M → 0 ≤ M →
  update_fails e = false →
  consistent M st → consistent M (step limits e st).1.
Proof.
  intros HM H0 Hupd Hst. destruct e.
  - apply consistent_connect. exact Hst.
  - apply consistent_upload; assumption.
  - apply consistent_join; assumption.
  - destruct (annotation_same limits (CreateHighlight sock data env) st I)
      as (Hu & Hs & Hc).
    apply (consistent_same M st); assumption.
  - destruct (annotation_same limits (CreateComment sock data env) st I)
      as (Hu & Hs & Hc).
    apply (consistent_same M st); assumption.
  - destruct (annotation_same limits (UpdateProgress sock data) st I)
      as (Hu & Hs & Hc).
    apply (consistent_same M st); assumption.
  - apply consistent_disconnect; [|exact Hst].
    cbn [update_fails] in Hupd.
    destruct delete_err; [left; reflexivity|right; exact Hupd].
Qed.

Lemma consistent_run (limits : value) (M : Z) (evs : list server_event)
  (st : state) :
  at_path limits USER_MAX_CONCURRENT_PER_SESSION = VNum M → 0 ≤ M →
  Forall (λ e, update_fails e = false) evs →
  consistent M st → consistent M (run limits evs st).1.
Proof.
  intros HM H0 Hupd. revert st.
  induction Hupd as [|e evs He Hevs IH]; intros st Hst; [exact Hst|].
  cbn [run]. pose proof (consistent_step limits M e st HM H0 He Hst) as H1.
  destruct (step limits e st) as [st1 out1]. cbn [fst] in H1.
  specialize (IH st1 H1).
  destruct (run limits evs st1) as [st2 out2]. exact IH.
Qed.

(** X1. When the server handles its events one at a time, each handler with
    the callbacks it starts run to the end before the next event, and every
    UPDATE of a count takes effect, the counts are right: after any sequence
    of connections, uploads, joins, annotation and progress messages and
    disconnections, whatever errors the other statements meet, the user
    count stored for a session is the number of users in the session's
    roster, and it is at most the MAX_CONCURRENT_PER_SESSION the server
    loaded. *)
Theorem serial_count_is_roster_size_and_bounded (NODE_ENV : option string)
  (evs : list server_event) (s : string) (row : session_row) :
  Forall (λ e, update_fails e = false) evs →
  sessions (st_db (run (server_limits NODE_ENV) evs init).1) !! s = Some row →
  s_user_count row
  = Z.of_nat
      (length (roster (st_db (run (server_limits NODE_ENV) evs init).1) s))
  ∧ num_le (VNum (s_user_count row))
      (at_path (server_limits NODE_ENV) USER_MAX_CONCURRENT_PER_SESSION)
    = true.
Proof.
  intros Hupd Hrow.
  destruct (server_limits_values NODE_ENV) as (M & mh & HM & _ & Hpath & _).
  assert (Hinv : consistent M (run (server_limits NODE_ENV) evs init).1).
  { apply consistent_run; [exact Hpath|lia|exact Hupd|].
    apply consistent_init; lia. }
  destruct (counts_right _ _ Hinv s row Hrow) as [Hcount Hle].
  split; [exact Hcount|].
  rewrite Hpath. cbn [num_le]. apply Z.leb_le. exact Hle.
Qed.

Lemma serial_count_is_roster_size_and_bounded_witness :
  (Forall (λ e, update_fails e = false) two_readers
   ∧ sessions (st_db (run (server_limits (Some "production"%string))
                        two_readers init).1) !! "s1"%string
     = Some {| s_book_id := "b1"; s_user_count := 2; s_last_activity := 2 |})
  ∧ s_user_count {| s_book_id := "b1"; s_user_count := 2;
                    s_last_activity := 2 |}
    = Z.of_nat
        (length (roster (st_db (run (server_limits (Some "production"%string))
                                  two_readers init).1) "s1")).
Proof.
  assert (Hupd : Forall (λ e, update_fails e = false) two_readers)
    by (repeat constructor).
  assert (Hrow : sessions (st_db (run (server_limits (Some "production"%string))
                               two_readers init).1) !! "s1"%string
                 = Some {| s_book_id := "b1"; s_user_count := 2;
                           s_last_activity := 2 |})
    by (vm_compute; reflexivity).
  split; [split; assumption|].
  exact (proj1 (serial_count_is_roster_size_and_bounded
                  (Some "production"%string)
                  two_readers "s1"%string _ Hupd Hrow)).
Defined.

(** A failing UPDATE is enough to part the count from the roster: A joins
    the session and the UPDATE of the count fails; A's user is stored and
    the count still is 0. *)
Example failed_update_leaves_the_count_behind :
  let st := (run production
               [ Upload "s1" "b1" 0 false; Connect "A";
                 JoinSession "A" join_s1
                   {| je_now := 1;
                      je_draws := {| d_adjective := 0; d_animal := 0;
                                     d_color := 0 |};
                      je_uuid := "uA"; je_get_err := false;
                      je_insert_err := false; je_update_err := true;
                      je_all_err := false |} ] init).1 in
  s_user_count <$> sessions (st_db st) !! "s1"%string = Some 0
  ∧ length (roster (st_db st) "s1") = 1%nat.
Proof. vm_compute. split; reflexivity. Qed.

(** *** Overlapping joins *)

(** The statements of one join request, run back to back, are the handler. *)
Lemma join_steps_is_join_session (limits : value) (sock : string)
  (data : join_data) (env : join_env) (c : closure) (d : db)
  (rooms : gmap string (gset string)) :
  join_steps 4 limits sock env (Some (PGet data)) c d rooms
  = join_session limits sock data env c d rooms.
Proof.
  unfold join_session. cbn [join_steps join_step].
  destruct (if je_get_err env then None else sessions d !! jd_sessionId data)
    as [session|]; [|reflexivity].
  destruct (num_ge _ _); [reflexivity|].
  cbn [join_steps join_step id username color].
  destruct (insert_user _ _ d) as [d1|]; [|reflexivity].
  cbn [join_steps join_step app]. rewrite !app_nil_r, <- app_assoc.
  reflexivity.
Qed.

(** The session query reserves nothing: while a slot is free, the query of a
    join request passes the check and leaves closure, database and rooms as
    they were, so that any other request whose query runs before the count
    is updated passes it on the same count. *)
Lemma session_query_reserves_nothing (limits : value) (M : Z) (sock : string)
  (env : join_env) (data : join_data) (c : closure) (d : db)
  (rooms : gmap string (gset string)) (session : session_row) :
  at_path limits USER_MAX_CONCURRENT_PER_SESSION = VNum M →
  je_get_err env = false →
  sessions d !! jd_sessionId data = Some session →
  s_user_count session < M →
  join_step limits sock env (PGet data) c d rooms
  = ((c, d, rooms, []),
     Some (PInsert (jd_sessionId data)
             {| id := je_uuid env;
                username := pf_username (generateUserProfile (je_draws env));
                color := pf_color (generateUserProfile (je_draws env)) |})).
Proof.
  intros HM Herr Hs Hlt. cbn [join_step].
  rewrite Herr, Hs, HM. cbn [num_ge num_le].
  rewrite (proj2 (Z.leb_gt _ _) Hlt). reflexivity.
Qed.

Lemma admissions_app (l1 l2 : list (emit payload)) :
  admissions (l1 ++ l2) = (admissions l1 + admissions l2)%nat.
Proof. unfold admissions. rewrite List.filter_app, length_app. reflexivity. Qed.

Lemma refusals_app (l1 l2 : list (emit payload)) :
  refusals (l1 ++ l2) = (refusals l1 + refusals l2)%nat.
Proof. unfold refusals. rewrite List.filter_app, length_app. reflexivity. Qed.

Lemma filter_socket_to_emit_none (f : emit payload → bool)
  (rooms : gmap string (gset string)) (sock room ev : string) (p : payload) :
  (∀ r, f {| to := r; event := ev; body := p |} = false) →
  List.filter f (socket_to_emit rooms sock room ev p) = [].
Proof.
  intros Hf. unfold socket_to_emit.
  induction (elements (members rooms room ∖ {[sock]})) as [|r l IH];
    [reflexivity|].
  cbn [fmap list_fmap List.filter]. rewrite Hf. exact IH.
Qed.

(** X2. Join requests that do not overlap fill the free slots and no more: of N
    requests for a session with K free slots, sent on connected sockets,
    with fresh ids and no database error (in the session query, the INSERT
    of the user or the UPDATE of the count), min(N, K) are admitted and
    the other N - K are refused with "Session is full". *)
Theorem back_to_back_joins_fill_the_free_slots (limits : value) (M : Z)
  (sessionId : string) (reqs : list (string * join_env)) (st : state)
  (session : session_row) :
  at_path limits USER_MAX_CONCURRENT_PER_SESSION = VNum M →
  sessions (st_db st) !! sessionId = Some session →
  s_user_count session ≤ M →
  (∀ r, r ∈ reqs →
        is_Some (st_conns st !! r.1)
        ∧ je_get_err r.2 = false ∧ je_insert_err r.2 = false
        ∧ je_update_err r.2 = false
        ∧ has_user (st_db st) (je_uuid r.2) = false) →
  NoDup ((λ r, je_uuid r.2) <$> reqs) →
  admissions (run limits (joins_of sessionId reqs) st).2
  = Nat.min (length reqs) (Z.to_nat (M - s_user_count session))
  ∧ refusals (run limits (joins_of sessionId reqs) st).2
    = (length reqs - Z.to_nat (M - s_user_count session))%nat.
Proof.
  intros HM. revert st session.
  induction reqs as [|[sock env] reqs IH]; intros st session Hs Hle Hreqs Hnd.
  - cbn. split; reflexivity.
  - cbn [joins_of fmap list_fmap run fst snd] in *.
    destruct (Hreqs (sock, env) ltac:(left)) as ([c Hc] & Hg & Hi & Hup & Hfresh).
    cbn [fst snd] in Hc, Hg, Hi, Hup, Hfresh.
    cbn [step]. unfold on_socket. rewrite Hc.
    unfold join_session. cbn [jd_sessionId].
    rewrite Hg, Hs, HM. cbn [num_ge num_le].
    apply NoDup_cons in Hnd as [Hhead Hnd]. cbn [snd] in Hhead.
    destruct (Z.leb_spec M (s_user_count session)) as [Hfull|Hfree].
    + (* full: refused, nothing changes *)
      set (st1 := {| st_db := st_db st; st_rooms := st_rooms st;
                     st_conns := <[sock := c]> (st_conns st) |}).
      assert (IH1 := IH st1 session Hs Hle).
      destruct (run limits _ st1) as [st2 out2] eqn:Hrun.
      cbn [fst snd] in *.
      rewrite admissions_app, refusals_app.
      destruct IH1 as [Ha Hr]; [|exact Hnd|].
      { intros r Hr. destruct (Hreqs r ltac:(right; exact Hr))
          as (Hcr & Hgr & Hir & Hur & Hfr).
        repeat split; try assumption.
        unfold st1. cbn [st_conns]. rewrite insert_id by exact Hc. exact Hcr. }
      assert (Ha0 : admissions
                (socket_emit sock "error" (PText "Session is full")) = 0%nat)
        by reflexivity.
      assert (Hr0 : refusals
                (socket_emit sock "error" (PText "Session is full")) = 1%nat)
        by reflexivity.
      rewrite Ha0, Hr0, Ha, Hr. cbn [length]. split; lia.
    + (* a slot is free: admitted *)
      unfold insert_user. cbn [u_id]. rewrite Hi, Hfresh, Hup. cbn [orb].
      set (row := {| u_id := je_uuid env; u_session_id := Some sessionId;
                     u_username := _; u_color := _ |}).
      set (me := {| id := je_uuid env; username := _; color := _ |}).
      set (d2 := bump_user_count false 1 (Some (je_now env)) sessionId
                   (set_users (λ us, us ++ [row]) (st_db st))).
      set (st1 := {| st_db := d2;
                     st_rooms := socket_join sock sessionId (st_rooms st);
                     st_conns := <[sock := _]> (st_conns st) |}).
      set (session1 := {| s_book_id := s_book_id session;
                          s_user_count := s_user_count session + 1;
                          s_last_activity := je_now env |}).
      assert (Hs1 : sessions (st_db st1) !! sessionId = Some session1).
      { unfold st1, d2. cbn. rewrite lookup_alter_eq, Hs. reflexivity. }
      assert (IH1 := IH st1 session1 Hs1).
      destruct (run limits _ st1) as [st2 out2] eqn:Hrun.
      cbn [fst snd] in *.
      destruct IH1 as [Ha Hr]; [cbn; lia| |exact Hnd|].
      { intros r Hr. destruct (Hreqs r ltac:(right; exact Hr))
          as (Hcr & Hgr & Hir & Hur & Hfr).
        repeat split; try assumption.
        - unfold st1. cbn [st_conns]. apply lookup_insert_is_Some'. right.
          exact Hcr.
        - unfold st1, d2, has_user. cbn. rewrite existsb_app. cbn.
          fold (has_user (st_db st) (je_uuid r.2)). rewrite Hfr. cbn.
          rewrite orb_false_r. apply String.eqb_neq. intros E.
          apply Hhead. rewrite E. apply list_elem_of_fmap.
          exists r. split; [reflexivity|exact Hr]. }
      rewrite !admissions_app, !refusals_app, Ha, Hr.
      assert (Hb1 : admissions (socket_to_emit
                 (socket_join sock sessionId (st_rooms st)) sock sessionId
                 "user-joined-session" (PUser me)) = 0%nat).
      { unfold admissions. rewrite filter_socket_to_emit_none; reflexivity. }
      assert (Hb2 : refusals (socket_to_emit
                 (socket_join sock sessionId (st_rooms st)) sock sessionId
                 "user-joined-session" (PUser me)) = 0%nat).
      { unfold refusals. rewrite filter_socket_to_emit_none; reflexivity. }
      assert (Ha0 : admissions (socket_emit sock "user-joined" (PUser me))
                    = 1%nat) by reflexivity.
      assert (Hr0 : refusals (socket_emit sock "user-joined" (PUser me))
                    = 0%nat) by reflexivity.
      assert (Hc0 : admissions
                (if je_all_err env then []
                 else socket_emit sock "session-users"
                        (PUsers (roster d2 sessionId))) = 0%nat
              ∧ refusals
                  (if je_all_err env then []
                   else socket_emit sock "session-users"
                          (PUsers (roster d2 sessionId))) = 0%nat)
        by (destruct (je_all_err env); split; reflexivity).
      destruct Hc0 as [Hc1 Hc2].
      rewrite Hb1, Hb2, Ha0, Hr0, Hc1, Hc2.
      cbn [length s_user_count session1]. split; lia.
Qed.

Lemma back_to_back_joins_fill_the_free_slots_witness :
  admissions (run production
                (joins_of "s1" [("X"%string, env_join "uX" 4 5);
                                ("Y"%string, env_join "uY" 5 5)])
                one_slot_left).2 = 1%nat
  ∧ refusals (run production
                (joins_of "s1" [("X"%string, env_join "uX" 4 5);
                                ("Y"%string, env_join "uY" 5 5)])
                one_slot_left).2 = 1%nat.
Proof.
  assert (Hs : sessions (st_db one_slot_left) !! "s1"%string
               = Some {| s_book_id := "b1"; s_user_count := 4;
                         s_last_activity := 4 |})
    by (vm_compute; reflexivity).
  assert (Hreqs : ∀ r, r ∈ [("X"%string, env_join "uX" 4 5);
                            ("Y"%string, env_join "uY" 5 5)] →
            is_Some (st_conns one_slot_left !! r.1)
            ∧ je_get_err r.2 = false ∧ je_insert_err r.2 = false
            ∧ je_update_err r.2 = false
            ∧ has_user (st_db one_slot_left) (je_uuid r.2) = false).
  { intros r Hr. apply elem_of_cons in Hr as [->|Hr];
      [|apply list_elem_of_singleton in Hr; subst r];
      (split; [vm_compute; eauto|repeat split; vm_compute; reflexivity]). }
  assert (Hnd : NoDup ((λ r : string * join_env, je_uuid r.2)
                         <$> [("X"%string, env_join "uX" 4 5);
                              ("Y"%string, env_join "uY" 5 5)])).
  { cbn. apply NoDup_cons. split.
    - intros H. apply list_elem_of_singleton in H. discriminate.
    - apply NoDup_singleton. }
  exact (back_to_back_joins_fill_the_free_slots production 5 "s1"
           [("X"%string, env_join "uX" 4 5); ("Y"%string, env_join "uY" 5 5)]
           one_slot_left _ eq_refl Hs ltac:(cbn; lia) Hreqs Hnd).
Defined.

(** C1 at the failing input. The session holds four users of the five the
    production limits allow, and X and Y both ask to join. When the two
    requests overlap (both session queries answered before either count
    update, or Y's query answered between X's insert and X's update) both
    are admitted: each receives user-joined, neither an error, and the
    session ends with six users and a count of six. Only when X's request is
    over before Y's starts is Y refused with "Session is full". *)
Theorem overlapping_joins_take_the_same_slot :
  at_path production USER_MAX_CONCURRENT_PER_SESSION = VNum 5
  ∧ s_user_count <$> sessions (st_db one_slot_left) !! "s1"%string = Some 4
  ∧ (rq_next <$> (race overlapped).1.2 = [None; None]
     ∧ admissions (race overlapped).2 = 2%nat
     ∧ refusals (race overlapped).2 = 0%nat
     ∧ length (received "X" "user-joined" (race overlapped).2) = 1%nat
     ∧ length (received "Y" "user-joined" (race overlapped).2) = 1%nat
     ∧ received "X" "error" (race overlapped).2 = []
     ∧ received "Y" "error" (race overlapped).2 = []
     ∧ s_user_count <$> sessions (st_db (race overlapped).1.1) !! "s1"%string
       = Some 6
     ∧ length (roster (st_db (race overlapped).1.1) "s1") = 6%nat)
  ∧ (rq_next <$> (race before_the_update).1.2 = [None; None]
     ∧ length (received "Y" "user-joined" (race before_the_update).2) = 1%nat
     ∧ received "Y" "error" (race before_the_update).2 = []
     ∧ s_user_count
         <$> sessions (st_db (race before_the_update).1.1) !! "s1"%string
       = Some 6)
  ∧ (rq_next <$> (race back_to_back).1.2 = [None; None]
     ∧ admissions (race back_to_back).2 = 1%nat
     ∧ refusals (race back_to_back).2 = 1%nat
     ∧ length (received "X" "user-joined" (race back_to_back).2) = 1%nat
     ∧ received "Y" "user-joined" (race back_to_back).2 = []
     ∧ received "Y" "error" (race back_to_back).2
       = [{| to := "Y"; event := "error"; body := PText "Session is full" |}]
     ∧ s_user_count <$> sessions (st_db (race back_to_back).1.1) !! "s1"%string
       = Some 5).
Proof. vm_compute. repeat split. Qed.

(** C2 at the failing input, the overlapping joins of X and Y into a
    session with one free slot of five. Once both users are stored and no
    count is updated yet, the stored count (4) is not the size of the roster
    (6); when both requests are over, the count is the size of the roster
    again, and both are 6, above MAX_CONCURRENT_PER_SESSION. *)
Theorem overlapping_joins_break_the_bound :
  at_path production USER_MAX_CONCURRENT_PER_SESSION = VNum 5
  ∧ (s_user_count
       <$> sessions (st_db (race (take 4 overlapped)).1.1) !! "s1"%string
     = Some 4
     ∧ length (roster (st_db (race (take 4 overlapped)).1.1) "s1") = 6%nat)
  ∧ (s_user_count <$> sessions (st_db (race overlapped).1.1) !! "s1"%string
     = Some 6
     ∧ length (roster (st_db (race overlapped).1.1) "s1") = 6%nat
     ∧ num_le (VNum 6) (at_path production USER_MAX_CONCURRENT_PER_SESSION)
       = false).
Proof. vm_compute. repeat split. Qed.

End ServerFacts.

(* ===================================================================== *)
(** ** Further properties of limits.js *)
(* ===================================================================== *)

Section LimitsMore.

Import Limits Spec LimitsText Notions.
Local Open Scope Z_scope.

Lemma getField_setField (k k' : string) (v : value) (f : list (string * value)) :
  getField k (setField k' v f) = if String.eqb k k' then v else getField k f.
Proof.
  induction f as [|[k0 v0] f IH]; cbn.
  - destruct (String.eqb k k'); reflexivity.
  - destruct (String.eqb_spec k' k0) as [->|Hne]; cbn.
    + destruct (String.eqb k k0); reflexivity.
    + rewrite IH. destruct (String.eqb_spec k k0) as [->|Hne2].
      * destruct (String.eqb_spec k0 k') as [->|_]; [congruence|reflexivity].
      * reflexivity.
Qed.

(** deepMerge is a left fold of setField over the source's keys. *)
Lemma deepMerge_fold (target : value) (src : list (string * value)) :
  deepMerge target (VObj src)
  = VObj (fold_left (λ result kv, setField kv.1 (merged target kv.1 kv.2) result)
            src (spread target)).
Proof.
  cbn [deepMerge]. f_equal. generalize (spread target).
  induction src as [|[k v] src IH]; intros result; [reflexivity|].
  cbn [fold_left fst snd]. rewrite <- IH. reflexivity.
Qed.

Lemma fold_setField_other (g : string → value → value) (k : string)
  (src result : list (string * value)) :
  k ∉ src.*1 →
  getField k (fold_left (λ result kv, setField kv.1 (g kv.1 kv.2) result)
                src result)
  = getField k result.
Proof.
  revert result. induction src as [|[k0 v0] src IH]; intros result Hk;
    [reflexivity|].
  cbn [fold_left fst snd]. cbn in Hk. apply not_elem_of_cons in Hk as [Hne Hk].
  rewrite IH by exact Hk. rewrite getField_setField.
  rewrite (proj2 (String.eqb_neq _ _) Hne). reflexivity.
Qed.

Lemma fold_setField_key (g : string → value → value) (k : string) (v : value)
  (src result : list (string * value)) :
  NoDup src.*1 → (k, v) ∈ src →
  getField k (fold_left (λ result kv, setField kv.1 (g kv.1 kv.2) result)
                src result)
  = g k v.
Proof.
  revert result. induction src as [|[k0 v0] src IH]; intros result Hnd Hin.
  - apply elem_of_nil in Hin. destruct Hin.
  - cbn in Hnd. apply NoDup_cons in Hnd as [Hk0 Hnd].
    cbn [fold_left fst snd].
    apply elem_of_cons in Hin as [Heq|Hin].
    + injection Heq as <- <-.
      rewrite fold_setField_other by exact Hk0.
      rewrite getField_setField, String.eqb_refl. reflexivity.
    + apply IH; assumption.
Qed.

(** X5. deepMerge, key by key. For a source object with distinct keys, the
    merged object holds under a key the source does not have what the target
    holds there; under a key of the source it holds the source's value,
    unless that value is an object, in which case it holds the merge of the
    target's value (or of the empty object, when the target's value is
    falsy) with it. *)
Theorem deepMerge_key_by_key (target src : list (string * value)) (k : string) :
  NoDup src.*1 →
  (k ∉ src.*1 →
   prop (deepMerge (VObj target) (VObj src)) k = getField k target)
  ∧ (∀ v : value, (k, v) ∈ src →
       prop (deepMerge (VObj target) (VObj src)) k
       = match v with
         | VObj _ => deepMerge (orEmpty (getField k target)) v
         | _ => v
         end).
Proof.
  intros Hnd. rewrite deepMerge_fold. cbn [prop spread]. split.
  - intros Hk. apply (fold_setField_other (merged (VObj target))). exact Hk.
  - intros v Hin.
    rewrite (fold_setField_key (merged (VObj target)) k v) by assumption.
    reflexivity.
Qed.

Lemma deepMerge_key_by_key_witness :
  NoDup (spread (prop ENVIRONMENT_OVERRIDES "development")).*1
  ∧ prop (deepMerge (VObj (spread MVP_LIMITS))
            (VObj (spread (prop ENVIRONMENT_OVERRIDES "development"))))
         "STORAGE"
    = getField "STORAGE" (spread MVP_LIMITS).
Proof.
  assert (Hnd : NoDup (spread (prop ENVIRONMENT_OVERRIDES "development")).*1).
  { apply (bool_decide_unpack _). vm_compute. exact I. }
  split; [exact Hnd|].
  apply (proj1 (deepMerge_key_by_key (spread MVP_LIMITS)
                  (spread (prop ENVIRONMENT_OVERRIDES "development"))
                  "STORAGE" Hnd)).
  apply (bool_decide_unpack _). vm_compute. exact I.
Defined.

(** X6. The upload ceiling does not follow the environment. Whatever
    environment getCurrentLimits is asked for, FILE.MAX_SIZE_BYTES is
    25 * 1024 * 1024 and FILE.ALLOWED_TYPES is ['.epub']; only
    FILE.MAX_SIZE_MB changes, to 50 in development and to 10 in testing. *)
Theorem upload_ceiling_ignores_environment (environment : option string) :
  at_path (getCurrentLimits environment) FILE_MAX_SIZE_BYTES
  = VNum (25 * 1024 * 1024)
  ∧ at_path (getCurrentLimits environment) FILE_ALLOWED_TYPES
    = VArr [VStr ".epub"]
  ∧ at_path (getCurrentLimits environment) FILE_MAX_SIZE_MB
    = VNum (if bool_decide (environment = Some "development"%string) then 50
            else if bool_decide (environment = Some "testing"%string) then 10
            else 25).
Proof.
  destruct environment as [environment|]; [|repeat split; reflexivity].
  destruct (getCurrentLimits_cases environment) as [[-> _]|[[-> _]|Hp]].
  - repeat split; reflexivity.
  - repeat split; reflexivity.
  - rewrite Hp.
    split; [reflexivity|]. split; [reflexivity|].
    destruct (String.eqb_spec environment "development") as [->|Hd].
    { vm_compute in Hp. discriminate Hp. }
    destruct (String.eqb_spec environment "testing") as [->|Ht].
    { vm_compute in Hp. discriminate Hp. }
    rewrite !bool_decide_eq_false_2 by congruence. reflexivity.
Qed.

Lemma endsWith_spec (s suffix : string) :
  endsWith s suffix = true ↔ ∃ stem : string, s = String.append stem suffix.
Proof.
  induction s as [|a s IH]; cbn [endsWith].
  - rewrite orb_false_r. split.
    + intros H. apply String.eqb_eq in H. exists EmptyString. exact H.
    + intros [stem H]. destruct stem as [|b stem].
      * change (String.append EmptyString suffix) with suffix in H.
        apply String.eqb_eq. exact H.
      * discriminate H.
  - rewrite orb_true_iff, IH. split.
    + intros [H|[stem H]].
      * apply String.eqb_eq in H. exists EmptyString. exact H.
      * exists (String a stem). rewrite H. reflexivity.
    + intros [stem H]. destruct stem as [|b stem].
      * left. apply String.eqb_eq. exact H.
      * right.
        change (String.append (String b stem) suffix)
          with (String b (String.append stem suffix)) in H.
        injection H as _ H. exists stem. exact H.
Qed.

(** X7. validateFileType accepts exactly the names that end in ".epub", in
    that case: a name is accepted if and only if it is some stem (possibly
    empty) followed by ".epub". *)
Theorem validateFileType_is_the_epub_suffix (fileName : string) :
  validateFileType fileName = true
  ↔ ∃ stem : string, fileName = String.append stem ".epub".
Proof.
  unfold validateFileType.
  change (items_of (at_path (getCurrentLimits None) FILE_ALLOWED_TYPES))
    with [VStr ".epub"].
  cbn [existsb]. rewrite orb_false_r. apply endsWith_spec.
Qed.

(** X8. The upload filter of the server makes the same test in every
    environment: whatever NODE_ENV the server started with, fileFilter
    accepts an upload if and only if its original name ends in ".epub". *)
Theorem fileFilter_in_every_environment (NODE_ENV : option string)
  (originalname : string) :
  Routes.fileFilter (server_limits NODE_ENV) originalname = true
  ↔ ∃ stem : string, originalname = String.append stem ".epub".
Proof.
  unfold Routes.fileFilter, server_limits.
  assert (H : at_path (getCurrentLimits (Some (server_environment NODE_ENV)))
                FILE_ALLOWED_TYPES = VArr [VStr ".epub"]).
  { destruct (getCurrentLimits_cases (server_environment NODE_ENV))
      as [[_ ->]|[[_ ->]| ->]]; reflexivity. }
  rewrite H. cbn [items_of existsb]. rewrite orb_false_r. apply endsWith_spec.
Qed.

End LimitsMore.

(* ===================================================================== *)
(** ** Properties of usage-example.js *)
(* ===================================================================== *)

Section UsageFacts.

Import Limits Spec LimitsText Usage.
Local Open Scope Z_scope.

(** X9. validateFileUpload. A file is valid if and only if its size is at
    most 25 * 1024 * 1024 bytes and its name ends in ".epub". The size is
    tested first: a file that is too large is refused for its size whatever
    its name, with the message that names 25MB; a file of admissible size
    whose name does not end in ".epub" is refused for its type. *)
Theorem validateFileUpload_verdicts (f : file) :
  (validateFileUpload f = Valid
   ↔ size f ≤ 25 * 1024 * 1024
     ∧ ∃ stem : string, name f = String.append stem ".epub")
  ∧ (25 * 1024 * 1024 < size f →
     validateFileUpload f
     = Invalid "File too large. Maximum size is 25MB. Please choose a smaller EPUB file.")
  ∧ (size f ≤ 25 * 1024 * 1024 →
     (¬ ∃ stem : string, name f = String.append stem ".epub") →
     validateFileUpload f
     = Invalid "Invalid file type. Please upload one of: .epub").
Proof.
  unfold validateFileUpload, validateFileType.
  change (validateFileSize (size f)) with (size f <=? 25 * 1024 * 1024).
  change (items_of (at_path (getCurrentLimits None) FILE_ALLOWED_TYPES))
    with [VStr ".epub"].
  change (FILE_SIZE_EXCEEDED (at_path (getCurrentLimits None) FILE_MAX_SIZE_MB))
    with "File too large. Maximum size is 25MB. Please choose a smaller EPUB file."%string.
  change (INVALID_FILE_TYPE (at_path (getCurrentLimits None) FILE_ALLOWED_TYPES))
    with "Invalid file type. Please upload one of: .epub"%string.
  cbn [existsb]. rewrite orb_false_r.
  pose proof (endsWith_spec (name f) ".epub") as He.
  destruct (Z.leb_spec (size f) (25 * 1024 * 1024)) as [Hs|Hs]; cbn [negb].
  - destruct (endsWith (name f) ".epub") eqn:E; cbn [negb].
    + split; [|split].
      * split; [intros _; split; [exact Hs|apply He; reflexivity]|reflexivity].
      * intros H. lia.
      * intros _ Hn. exfalso. apply Hn, He. reflexivity.
    + split; [|split].
      * split; [discriminate|]. intros [_ Hx]. apply He in Hx. discriminate Hx.
      * intros H. lia.
      * reflexivity.
  - split; [|split].
    + split; [discriminate|]. intros [Hx _]. lia.
    + reflexivity.
    + intros H. lia.
Qed.

Lemma validateFileUpload_verdicts_witness :
  25 * 1024 * 1024 < size {| size := 30000000; name := "moby-dick.epub" |}
  ∧ validateFileUpload {| size := 30000000; name := "moby-dick.epub" |}
    = Invalid "File too large. Maximum size is 25MB. Please choose a smaller EPUB file.".
Proof.
  assert (H : 25 * 1024 * 1024
              < size {| size := 30000000; name := "moby-dick.epub" |})
    by (cbn; lia).
  split; [exact H|].
  exact (proj1 (proj2 (validateFileUpload_verdicts
                         {| size := 30000000; name := "moby-dick.epub" |})) H).
Defined.

(** X10. validateCommentCreation. A comment is valid if and only if the
    highlight has fewer than 5 comments and the text has 1 to 500
    characters. The count is tested first: on a highlight with 5 comments or
    more the verdict is the comment-limit message whatever the text; below
    that, a text of more than 500 characters is too long and the empty text
    is too short. *)
Theorem validateCommentCreation_verdicts (highlightId commentText : string)
  (commentCount : Z) :
  (validateCommentCreation highlightId commentText commentCount = Valid
   ↔ commentCount < 5 ∧ (1 ≤ String.length commentText ≤ 500)%nat)
  ∧ (5 ≤ commentCount →
     validateCommentCreation highlightId commentText commentCount
     = Invalid "Maximum 5 comments per highlight reached.")
  ∧ (commentCount < 5 → (500 < String.length commentText)%nat →
     validateCommentCreation highlightId commentText commentCount
     = Invalid "Comment too long. Maximum 500 characters allowed.")
  ∧ (commentCount < 5 → commentText = ""%string →
     validateCommentCreation highlightId commentText commentCount
     = Invalid "Comment too short. Minimum 1 characters required.").
Proof.
  unfold validateCommentCreation.
  change (validateCommentCount commentCount) with (commentCount <? 5).
  change (validateCommentLength (Z.of_nat (String.length commentText)))
    with ((1 <=? Z.of_nat (String.length commentText))
          && (Z.of_nat (String.length commentText) <=? 500)).
  change (at_path (getCurrentLimits None) COMMENTS_MAX_LENGTH_CHARS)
    with (VNum 500).
  change (COMMENT_LIMIT_REACHED
            (at_path (getCurrentLimits None) COMMENTS_MAX_PER_HIGHLIGHT))
    with "Maximum 5 comments per highlight reached."%string.
  change (COMMENT_TOO_LONG (VNum 500))
    with "Comment too long. Maximum 500 characters allowed."%string.
  change (COMMENT_TOO_SHORT
            (at_path (getCurrentLimits None) COMMENTS_MIN_LENGTH_CHARS))
    with "Comment too short. Minimum 1 characters required."%string.
  cbn [num_gt num_lt].
  destruct (Z.ltb_spec commentCount 5) as [Hc|Hc]; cbn [negb].
  - destruct (Z.leb_spec 1 (Z.of_nat (String.length commentText))) as [H1|H1];
      destruct (Z.leb_spec (Z.of_nat (String.length commentText)) 500)
        as [H2|H2]; cbn [andb negb].
    + split; [|split; [|split]].
      * split; [intros _; lia|reflexivity].
      * lia.
      * lia.
      * intros _ ->. cbn in H1. lia.
    + rewrite (proj2 (Z.ltb_lt _ _) H2).
      split; [|split; [|split]].
      * split; [discriminate|lia].
      * lia.
      * reflexivity.
      * intros _ ->. cbn in H2. lia.
    + rewrite (proj2 (Z.ltb_ge _ _) H2).
      split; [|split; [|split]].
      * split; [discriminate|lia].
      * lia.
      * lia.
      * reflexivity.
    + lia.
  - split; [|split; [|split]].
    + split; [discriminate|lia].
    + reflexivity.
    + lia.
    + lia.
Qed.

Lemma validateCommentCreation_verdicts_witness :
  5 ≤ 5
  ∧ validateCommentCreation "h1" "so it begins" 5
    = Invalid "Maximum 5 comments per highlight reached.".
Proof.
  assert (H : 5 ≤ 5) by lia.
  split; [exact H|].
  exact (proj1 (proj2 (validateCommentCreation_verdicts
                         "h1" "so it begins" 5)) H).
Defined.

(** *** The message counter of setupWebSocketLimits *)

Lemma on_message_within (now : Z) (st : counter) :
  now - lastReset st < 1000 →
  on_message now st
  = ({| messageCount := messageCount st + 1; lastReset := lastReset st |},
     if 10 <? messageCount st + 1 then Refused RATE_LIMIT_EXCEEDED
     else Processed).
Proof.
  intros H. unfold on_message.
  rewrite (proj2 (Z.leb_gt _ _) H).
  change (at_path (getCurrentLimits None) WEBSOCKET_MAX_MESSAGES_PER_SECOND)
    with (VNum 10).
  cbn [num_gt num_lt messageCount lastReset].
  destruct (10 <? messageCount st + 1); reflexivity.
Qed.

(** X11. The message counter, window by window. While no message arrives
    a second or more after the last reset, the counter is never reset and
    counts every message, refused ones included: of the messages that
    arrive, the first 10 - messageCount are processed and all the others
    are refused with the rate-limit error. A message that arrives a second
    or more after the last reset resets the counter and is processed
    whatever the count was; of it and the messages that follow within a
    second of it, the first 10 are processed and the others refused. *)
Theorem message_counter_windows :
  (∀ (times : list Z) (st : counter),
     0 ≤ messageCount st →
     (∀ now : Z, now ∈ times → now - lastReset st < 1000) →
     (on_messages times st).2
     = repeat Processed
         (Nat.min (length times) (Z.to_nat (10 - messageCount st)))
       ++ repeat (Refused RATE_LIMIT_EXCEEDED)
            (length times - Z.to_nat (10 - messageCount st))
     ∧ messageCount (on_messages times st).1
       = messageCount st + Z.of_nat (length times)
     ∧ lastReset (on_messages times st).1 = lastReset st)
  ∧ (∀ (now : Z) (times : list Z) (st : counter),
       1000 ≤ now - lastReset st →
       (∀ later : Z, later ∈ times → later - now < 1000) →
       (on_messages (now :: times) st).2
       = repeat Processed (Nat.min (S (length times)) 10)
         ++ repeat (Refused RATE_LIMIT_EXCEEDED) (S (length times) - 10)
       ∧ lastReset (on_messages (now :: times) st).1 = now).
Proof.
  assert (Hwithin : ∀ (times : list Z) (st : counter),
            0 ≤ messageCount st →
            (∀ now : Z, now ∈ times → now - lastReset st < 1000) →
            (on_messages times st).2
            = repeat Processed
                (Nat.min (length times) (Z.to_nat (10 - messageCount st)))
              ++ repeat (Refused RATE_LIMIT_EXCEEDED)
                   (length times - Z.to_nat (10 - messageCount st))
            ∧ messageCount (on_messages times st).1
              = messageCount st + Z.of_nat (length times)
            ∧ lastReset (on_messages times st).1 = lastReset st).
  { induction times as [|now times IH]; intros st Hc Ht.
    - cbn. split; [reflexivity|]. split; [lia|reflexivity].
    - cbn [on_messages].
      rewrite on_message_within by (apply Ht; left).
      set (st1 := {| messageCount := messageCount st + 1;
                     lastReset := lastReset st |}).
      destruct (IH st1) as (Hout & Hcount & Hreset).
      { cbn. lia. }
      { intros t Hin. cbn. apply Ht. right. exact Hin. }
      destruct (on_messages times st1) as [st2 hs].
      subst st1. cbn [fst snd messageCount lastReset] in *.
      split; [|split; [cbn [length]; lia|exact Hreset]].
      rewrite Hout. cbn [length].
      destruct (Z.ltb_spec 10 (messageCount st + 1)) as [Hfull|Hfree].
      + replace (Z.to_nat (10 - messageCount st)) with 0%nat by lia.
        replace (Z.to_nat (10 - (messageCount st + 1))) with 0%nat by lia.
        rewrite !Nat.min_0_r, !Nat.sub_0_r. reflexivity.
      + replace (Z.to_nat (10 - messageCount st))
          with (S (Z.to_nat (10 - (messageCount st + 1)))) by lia.
        cbn [Nat.min Nat.sub repeat app]. reflexivity. }
  split; [exact Hwithin|].
  intros now times st Hq Ht. cbn [on_messages].
  assert (Hfirst : on_message now st
                   = ({| messageCount := 1; lastReset := now |}, Processed)).
  { unfold on_message. rewrite (proj2 (Z.leb_le _ _) Hq). reflexivity. }
  rewrite Hfirst.
  destruct (Hwithin times {| messageCount := 1; lastReset := now |})
    as (Hout & _ & Hreset); [cbn; lia|exact Ht|].
  destruct (on_messages times {| messageCount := 1; lastReset := now |})
    as [st2 hs].
  cbn [fst snd messageCount lastReset] in *.
  split; [|exact Hreset].
  rewrite Hout. change (Z.to_nat (10 - 1)) with 9%nat. reflexivity.
Qed.

Lemma message_counter_windows_witness :
  ((0 ≤ messageCount (setup 0)
    ∧ ∀ now : Z, now ∈ [100; 200; 300] → now - lastReset (setup 0) < 1000)
   ∧ (on_messages [100; 200; 300] (setup 0)).2
     = [Processed; Processed; Processed])
  ∧ (1000 ≤ 5000 - lastReset {| messageCount := 40; lastReset := 3000 |}
     ∧ ∀ later : Z, later ∈ [5100] → later - 5000 < 1000)
  ∧ (on_messages [5000; 5100] {| messageCount := 40; lastReset := 3000 |}).2
    = [Processed; Processed].
Proof.
  assert (H0 : 0 ≤ messageCount (setup 0)) by (cbn; lia).
  assert (Hw : ∀ now : Z, now ∈ [100; 200; 300] →
                 now - lastReset (setup 0) < 1000).
  { intros now Hin. cbn [setup lastReset].
    repeat (apply elem_of_cons in Hin as [->|Hin]; [lia|]).
    apply elem_of_nil in Hin. destruct Hin. }
  assert (Hq : 1000 ≤ 5000 - lastReset {| messageCount := 40;
                                          lastReset := 3000 |})
    by (cbn; lia).
  assert (Ht : ∀ later : Z, later ∈ [5100] → later - 5000 < 1000).
  { intros later Hin. apply list_elem_of_singleton in Hin. subst later. lia. }
  split; [split; [split; assumption|]|split; [split; assumption|]].
  - exact (proj1 (proj1 message_counter_windows [100; 200; 300] (setup 0)
                    H0 Hw)).
  - exact (proj1 (proj2 message_counter_windows 5000 [5100]
                    {| messageCount := 40; lastReset := 3000 |} Hq Ht)).
Defined.

End UsageFacts.

(* ===================================================================== *)
(** ** Properties of the server's generators and HTTP routes *)
(* ===================================================================== *)

Section RoutesFacts.

Import Limits Socket Server Spec Routes Notions.
Local Open Scope Z_scope.

Lemma charAt_chars (k : nat) :
  (k < 62)%nat →
  ∃ c : Ascii.ascii,
    String.get k chars = Some c ∧ charAt chars k = String c EmptyString.
Proof.
  intros Hk. unfold charAt.
  do 62 (destruct k as [|k]; [eexists; split; reflexivity|]).
  lia.
Qed.

(** X12. generateSlug. With every draw below the 62 characters of the
    alphabet, as Math.floor(Math.random() * chars.length) is, the slug has
    exactly 8 characters, and its i-th character is the character of the
    alphabet at the i-th draw: letters and digits only. *)
Theorem generateSlug_shape (draw : nat → nat) :
  (∀ i : nat, (i < 8)%nat → (draw i < 62)%nat) →
  String.length (generateSlug draw) = 8%nat
  ∧ ∀ i : nat, (i < 8)%nat →
      String.get i (generateSlug draw) = String.get (draw i) chars.
Proof.
  intros Hd. unfold generateSlug. cbn [slug_loop].
  destruct (charAt_chars (draw 0%nat)) as (c0 & G0 & ->); [apply Hd; lia|].
  destruct (charAt_chars (draw 1%nat)) as (c1 & G1 & ->); [apply Hd; lia|].
  destruct (charAt_chars (draw 2%nat)) as (c2 & G2 & ->); [apply Hd; lia|].
  destruct (charAt_chars (draw 3%nat)) as (c3 & G3 & ->); [apply Hd; lia|].
  destruct (charAt_chars (draw 4%nat)) as (c4 & G4 & ->); [apply Hd; lia|].
  destruct (charAt_chars (draw 5%nat)) as (c5 & G5 & ->); [apply Hd; lia|].
  destruct (charAt_chars (draw 6%nat)) as (c6 & G6 & ->); [apply Hd; lia|].
  destruct (charAt_chars (draw 7%nat)) as (c7 & G7 & ->); [apply Hd; lia|].
  split; [reflexivity|].
  intros i Hi.
  destruct i as [|i]; [rewrite G0; reflexivity|].
  destruct i as [|i]; [rewrite G1; reflexivity|].
  destruct i as [|i]; [rewrite G2; reflexivity|].
  destruct i as [|i]; [rewrite G3; reflexivity|].
  destruct i as [|i]; [rewrite G4; reflexivity|].
  destruct i as [|i]; [rewrite G5; reflexivity|].
  destruct i as [|i]; [rewrite G6; reflexivity|].
  destruct i as [|i]; [rewrite G7; reflexivity|].
  lia.
Qed.

Lemma generateSlug_shape_witness :
  (∀ i : nat, (i < 8)%nat → (7 * i < 62)%nat)
  ∧ String.length (generateSlug (λ i, (7 * i)%nat)) = 8%nat.
Proof.
  assert (Hd : ∀ i : nat, (i < 8)%nat → (7 * i < 62)%nat) by (intros i Hi; lia).
  split; [exact Hd|].
  exact (proj1 (generateSlug_shape (λ i, (7 * i)%nat) Hd)).
Defined.

(** X13. generateUserProfile. With the three draws below 10, as
    Math.floor(Math.random() * array.length) is, the user name is one of the
    ten adjectives, a space, and one of the ten animals, and the colour is
    one of the ten of the palette. *)
Theorem generateUserProfile_shape (r : draws) :
  (d_adjective r < 10)%nat → (d_animal r < 10)%nat → (d_color r < 10)%nat →
  (∃ adjective animal : string,
     adjective ∈ adjectives ∧ animal ∈ animals
     ∧ pf_username (generateUserProfile r)
       = (adjective ++ " " ++ animal)%string)
  ∧ pf_color (generateUserProfile r) ∈ colors.
Proof.
  intros Ha Hn Hc. unfold generateUserProfile. cbn [pf_username pf_color].
  split.
  - exists (nth (d_adjective r) adjectives ""%string),
           (nth (d_animal r) animals ""%string).
    split; [|split; [|reflexivity]];
      apply list_elem_of_In, nth_In; exact Ha || exact Hn.
  - apply list_elem_of_In, nth_In. exact Hc.
Qed.

Lemma generateUserProfile_shape_witness :
  ((2 < 10)%nat ∧ (6 < 10)%nat ∧ (9 < 10)%nat)
  ∧ pf_color (generateUserProfile
                {| d_adjective := 2; d_animal := 6; d_color := 9 |}) ∈ colors.
Proof.
  assert (Ha : (2 < 10)%nat) by lia.
  assert (Hn : (6 < 10)%nat) by lia.
  assert (Hc : (9 < 10)%nat) by lia.
  split; [repeat split; assumption|].
  exact (proj2 (generateUserProfile_shape
                  {| d_adjective := 2; d_animal := 6; d_color := 9 |}
                  Ha Hn Hc)).
Defined.

(** *** Profiles *)

Lemma name_taken_spec (d : db) (bookId username : string) :
  name_taken d bookId username = true
  ↔ ∃ (i : string) (r : profile_row),
      book_profiles d !! i = Some r
      ∧ bp_book_id r = bookId ∧ bp_username r = username.
Proof.
  unfold name_taken. rewrite existsb_exists. split.
  - intros ([i r] & Hin & H). apply list_elem_of_In in Hin.
    apply elem_of_map_to_list in Hin.
    apply andb_true_iff in H as [H1 H2]. cbn [snd] in H1, H2.
    apply str_eqb_eq in H1, H2. exists i, r. auto.
  - intros (i & r & Hl & H1 & H2). exists (i, r). split.
    + apply list_elem_of_In, elem_of_map_to_list. exact Hl.
    + cbn [snd]. apply andb_true_iff. split; apply str_eqb_eq; assumption.
Qed.

(** What a created profile tells about the request. *)
Lemma post_profile_created (trim : string → string) (bookId : string)
  (username : option string) (profileId : string) (draw : nat) (now : Z)
  (err : bool) (d d' : db) (pid : string) (row : profile_row) :
  post_profile trim bookId username profileId draw now err d
  = (d', ProfileCreated pid row) →
  ∃ u : string,
    username = Some u ∧ pid = profileId
    ∧ row = {| bp_book_id := bookId; bp_username := trim u;
               bp_color := nth draw colors ""%string;
               bp_created_at := now; bp_last_used := now |}
    ∧ d' = set_book_profiles (insert profileId row) d
    ∧ book_profiles d !! profileId = None
    ∧ name_taken d bookId (trim u) = false
    ∧ u ≠ ""%string ∧ trim u ≠ ""%string
    ∧ (String.length u ≤ 50)%nat.
Proof.
  unfold post_profile. destruct username as [u|]; [|discriminate].
  destruct (str_eqb u "") eqn:E1; [discriminate|].
  destruct (String.length (trim u) =? 0)%nat eqn:E2; [discriminate|].
  cbn [orb].
  destruct (50 <? String.length u)%nat eqn:E3; [discriminate|].
  destruct err; [discriminate|].
  destruct (bool_decide (is_Some (book_profiles d !! profileId))) eqn:E4;
    [discriminate|].
  destruct (name_taken d bookId (trim u)) eqn:E5; [discriminate|].
  cbn [orb]. intros H. injection H as <- <- <-.
  exists u.
  split; [reflexivity|]. split; [reflexivity|]. split; [reflexivity|].
  split; [reflexivity|]. split; [|split; [exact E5|split; [|split]]].
  - apply bool_decide_eq_false in E4.
    destruct (book_profiles d !! profileId); [|reflexivity].
    exfalso. apply E4. eauto.
  - intros ->. discriminate E1.
  - intros Ht. rewrite Ht in E2. discriminate E2.
  - apply Nat.ltb_ge in E3. exact E3.
Qed.

(** X14. One name per book. If no two profiles of a book carry the same
    name, this is still so after any POST /api/books/:bookId/profiles and
    after any PUT .../profiles/:profileId/use, whatever their outcome; and a
    POST leaves every stored profile as it was. [trim] is any function. *)
Theorem profile_names_stay_unique (trim : string → string) (d : db) :
  profiles_unique d →
  (∀ (bookId : string) (username : option string) (profileId : string)
     (draw : nat) (now : Z) (err : bool),
     profiles_unique
       (post_profile trim bookId username profileId draw now err d).1
     ∧ ∀ (i : string) (r : profile_row),
         book_profiles d !! i = Some r →
         book_profiles
           (post_profile trim bookId username profileId draw now err d).1 !! i
         = Some r)
  ∧ (∀ (bookId profileId : string) (now : Z) (err : bool),
       profiles_unique (put_profile_use bookId profileId now err d).1).
Proof.
  intros Hu. split.
  - intros bookId username profileId draw now err.
    destruct (post_profile trim bookId username profileId draw now err d)
      as [d' [status msg|pid row]] eqn:E.
    + assert (d' = d) as ->.
      { revert E. unfold post_profile.
        destruct username as [u|]; [|intros H; injection H as <-; reflexivity].
        repeat (match goal with
                | |- context [if ?b then _ else _] => destruct b
                end; try (intros H; injection H as <-; reflexivity)).
        discriminate. }
      split; [exact Hu|]. intros i r Hr. exact Hr.
    + apply post_profile_created in E
        as (u & -> & -> & Hrow & -> & Hfree & Hname & _).
      cbn [fst]. split.
      * intros i j r1 r2. cbn [book_profiles set_book_profiles].
        destruct (decide (i = profileId)) as [->|Hi];
          destruct (decide (j = profileId)) as [->|Hj].
        -- reflexivity.
        -- rewrite lookup_insert_eq, lookup_insert_ne by congruence.
           intros H1 H2 Hb Hn. injection H1 as <-. exfalso.
           assert (Ht : name_taken d bookId (trim u) = true).
           { apply name_taken_spec. exists j, r2. rewrite Hrow in Hb, Hn.
             cbn in Hb, Hn. auto. }
           congruence.
        -- rewrite lookup_insert_eq, lookup_insert_ne by congruence.
           intros H1 H2 Hb Hn. injection H2 as <-. exfalso.
           assert (Ht : name_taken d bookId (trim u) = true).
           { apply name_taken_spec. exists i, r1. rewrite Hrow in Hb, Hn.
             cbn in Hb, Hn. auto. }
           congruence.
        -- rewrite !lookup_insert_ne by congruence. apply Hu.
      * intros i r Hr. cbn [book_profiles set_book_profiles].
        rewrite lookup_insert_ne; [exact Hr|]. intros <-. congruence.
  - intros bookId profileId now err. unfold put_profile_use.
    destruct err; [exact Hu|].
    destruct (book_profiles d !! profileId) as [row|] eqn:Hrow; [|exact Hu].
    destruct (str_eqb (bp_book_id row) bookId); [|exact Hu].
    cbn [fst]. intros i j r1 r2. cbn [book_profiles set_book_profiles].
    destruct (decide (i = profileId)) as [->|Hi];
      destruct (decide (j = profileId)) as [->|Hj].
    + reflexivity.
    + rewrite lookup_insert_eq, lookup_insert_ne by congruence.
      intros H1 H2 Hb Hn. injection H1 as <-. cbn in Hb, Hn.
      apply (Hu profileId j row r2); assumption.
    + rewrite lookup_insert_eq, lookup_insert_ne by congruence.
      intros H1 H2 Hb Hn. injection H2 as <-. cbn in Hb, Hn.
      apply (Hu i profileId r1 row); assumption.
    + rewrite !lookup_insert_ne by congruence. apply Hu.
Qed.

Lemma profile_names_stay_unique_witness :
  profiles_unique empty_db
  ∧ profiles_unique
      (post_profile (λ s, s) "b1" (Some "Ann"%string) "p1" 3 7 false
         empty_db).1.
Proof.
  assert (H : profiles_unique empty_db).
  { intros i j r1 r2 H1. cbn in H1. rewrite lookup_empty in H1.
    discriminate H1. }
  split; [exact H|].
  exact (proj1 (proj1 (profile_names_stay_unique (λ s, s) empty_db H)
                  "b1"%string (Some "Ann"%string) "p1"%string 3%nat 7 false)).
Defined.

(** X15. Create, then use. When POST /api/books/:bookId/profiles creates a
    profile, the profile is stored under the returned id; a PUT .../use for
    the same book then succeeds and changes nothing but last_used; a PUT for
    another book answers 404 and changes nothing; and a second POST for the
    book with a name that trims to the stored one answers 409 and changes
    nothing. [trim] is any function. *)
Theorem profile_created_then_used (trim : string → string) (bookId : string)
  (username : option string) (profileId : string) (draw : nat) (now : Z)
  (err : bool) (d d' : db) (pid : string) (row : profile_row) :
  post_profile trim bookId username profileId draw now err d
  = (d', ProfileCreated pid row) →
  book_profiles d' !! pid = Some row
  ∧ (∀ later : Z,
       (put_profile_use bookId pid later false d').2 = RSuccess
       ∧ book_profiles (put_profile_use bookId pid later false d').1 !! pid
         = Some {| bp_book_id := bookId; bp_username := bp_username row;
                   bp_color := bp_color row;
                   bp_created_at := now; bp_last_used := later |})
  ∧ (∀ (other : string) (later : Z),
       other ≠ bookId →
       put_profile_use other pid later false d'
       = (d', RError 404 "Profile not found"))
  ∧ (∀ (again : string) (profileId' : string) (draw' : nat) (later : Z),
       again ≠ ""%string → (String.length again ≤ 50)%nat →
       trim again = bp_username row →
       post_profile trim bookId (Some again) profileId' draw' later false d'
       = (d', ProfileError 409 "Username already exists for this book")).
Proof.
  intros E. apply post_profile_created in E
    as (u & -> & -> & Hrow & -> & Hfree & Hname & Hu & Ht & Hlen).
  assert (Hl : book_profiles (set_book_profiles (insert profileId row) d)
               !! profileId = Some row).
  { cbn. apply lookup_insert_eq. }
  split; [exact Hl|]. split; [|split].
  - intros later. unfold put_profile_use. rewrite Hl.
    assert (Hb : bp_book_id row = bookId) by (rewrite Hrow; reflexivity).
    rewrite Hb, (proj2 (str_eqb_eq _ _) eq_refl). cbn [fst snd].
    split; [reflexivity|]. cbn [book_profiles set_book_profiles].
    rewrite lookup_insert_eq. rewrite Hrow. reflexivity.
  - intros other later Hne. unfold put_profile_use. rewrite Hl.
    assert (Hb : bp_book_id row = bookId) by (rewrite Hrow; reflexivity).
    rewrite Hb.
    destruct (str_eqb bookId other) eqn:E; [|reflexivity].
    apply str_eqb_eq in E. congruence.
  - intros again profileId' draw' later Ha Hal Hsame. unfold post_profile.
    assert (E1 : str_eqb again "" = false) by (apply str_eqb_neq; exact Ha).
    assert (Hn : bp_username row = trim u) by (rewrite Hrow; reflexivity).
    assert (E2 : (String.length (trim again) =? 0)%nat = false).
    { apply Nat.eqb_neq. rewrite Hsame, Hn. destruct (trim u); [congruence|].
      cbn. lia. }
    rewrite E1, E2. cbn [orb].
    rewrite (proj2 (Nat.ltb_ge _ _) Hal).
    assert (E3 : name_taken (set_book_profiles (insert profileId row) d)
                   bookId (trim again) = true).
    { apply name_taken_spec. exists profileId, row. split; [exact Hl|].
      split; [rewrite Hrow; reflexivity|symmetry; exact Hsame]. }
    rewrite E3, orb_true_r. reflexivity.
Qed.

Lemma profile_created_then_used_witness :
  post_profile (λ s, s) "b1" (Some "Ann"%string) "p1" 3 7 false empty_db
  = (set_book_profiles
       (insert "p1"%string
          {| bp_book_id := "b1"; bp_username := "Ann"; bp_color := "#96CEB4";
             bp_created_at := 7; bp_last_used := 7 |}) empty_db,
     ProfileCreated "p1"
       {| bp_book_id := "b1"; bp_username := "Ann"; bp_color := "#96CEB4";
          bp_created_at := 7; bp_last_used := 7 |})
  ∧ post_profile (λ s, s) "b1" (Some "Ann"%string) "p2" 4 8 false
      (set_book_profiles
         (insert "p1"%string
            {| bp_book_id := "b1"; bp_username := "Ann";
               bp_color := "#96CEB4";
               bp_created_at := 7; bp_last_used := 7 |}) empty_db)
    = (set_book_profiles
         (insert "p1"%string
            {| bp_book_id := "b1"; bp_username := "Ann";
               bp_color := "#96CEB4";
               bp_created_at := 7; bp_last_used := 7 |}) empty_db,
       ProfileError 409 "Username already exists for this book").
Proof.
  assert (E : post_profile (λ s, s) "b1" (Some "Ann"%string) "p1" 3 7 false
                empty_db
              = (set_book_profiles
                   (insert "p1"%string
                      {| bp_book_id := "b1"; bp_username := "Ann";
                         bp_color := "#96CEB4";
                         bp_created_at := 7; bp_last_used := 7 |}) empty_db,
                 ProfileCreated "p1"
                   {| bp_book_id := "b1"; bp_username := "Ann";
                      bp_color := "#96CEB4";
                      bp_created_at := 7; bp_last_used := 7 |}))
    by reflexivity.
  split; [exact E|].
  apply (proj2 (proj2 (proj2 (profile_created_then_used (λ s, s) "b1"
                                (Some "Ann"%string) "p1" 3 7 false empty_db
                                _ _ _ E)))
           "Ann"%string "p2"%string 4%nat 8).
  - discriminate.
  - cbn. lia.
  - reflexivity.
Defined.

(** *** Progress *)

(** The table after a report that met no error. *)
Lemma post_progress_table (bookId profile_id username : string) (progress : Q)
  (chapter : option Z) (now : Z) (d : db) :
  profile_id ≠ ""%string → username ≠ ""%string →
  post_progress bookId (report profile_id username progress chapter)
    now false false d
  = (set_user_progress
       (insert (bookId ++ "_" ++ profile_id)%string
          {| p_book_id :=
               from_option p_book_id bookId
                 (user_progress d !! (bookId ++ "_" ++ profile_id)%string);
             p_user_id :=
               from_option p_user_id profile_id
                 (user_progress d !! (bookId ++ "_" ++ profile_id)%string);
             p_username := username; p_progress := progress;
             p_chapter := or_one chapter;
             p_created_at :=
               from_option p_created_at now
                 (user_progress d !! (bookId ++ "_" ++ profile_id)%string);
             p_last_updated := now |}) d,
     RSuccess).
Proof.
  intros Hp Hu. unfold post_progress, report.
  cbn [pb_profile_id pb_username pb_progress pb_chapter].
  rewrite (proj2 (str_eqb_neq _ _) Hp), (proj2 (str_eqb_neq _ _) Hu).
  cbn [orb]. f_equal. unfold set_user_progress.
  cbn [sessions users highlights comments user_progress book_profiles].
  f_equal. apply map_eq. intros k.
  destruct (decide (k = (bookId ++ "_" ++ profile_id)%string)) as [->|Hk].
  - rewrite lookup_alter_eq, lookup_insert_eq.
    destruct (user_progress d !! (bookId ++ "_" ++ profile_id)%string)
      as [row|] eqn:Hrow.
    + rewrite Hrow. reflexivity.
    + rewrite lookup_insert_eq. reflexivity.
  - rewrite lookup_alter_ne, lookup_insert_ne by congruence.
    destruct (user_progress d !! (bookId ++ "_" ++ profile_id)%string);
      [reflexivity|].
    rewrite lookup_insert_ne by congruence. reflexivity.
Qed.

Lemma find_the_row (P : string * progress_row → bool)
  (m : gmap string progress_row) (k : string) (r : progress_row) :
  m !! k = Some r → P (k, r) = true →
  (∀ (k' : string) (r' : progress_row),
     m !! k' = Some r' → P (k', r') = true → k' = k) →
  List.find P (map_to_list m) = Some (k, r).
Proof.
  intros Hk HP Huniq.
  destruct (List.find P (map_to_list m)) as [[k' r']|] eqn:E.
  - apply find_some in E as [Hin HP'].
    apply list_elem_of_In, elem_of_map_to_list in Hin.
    pose proof (Huniq k' r' Hin HP') as ->.
    rewrite Hk in Hin. injection Hin as ->. reflexivity.
  - exfalso. pose proof (find_none _ _ E (k, r)) as Hn.
    rewrite HP in Hn. discriminate Hn.
    apply list_elem_of_In, elem_of_map_to_list. exact Hk.
Qed.

Lemma find_no_row (P : string * progress_row → bool)
  (m : gmap string progress_row) :
  (∀ (k : string) (r : progress_row), m !! k = Some r → P (k, r) = false) →
  List.find P (map_to_list m) = None.
Proof.
  intros H. destruct (List.find P (map_to_list m)) as [[k r]|] eqn:E;
    [|reflexivity].
  apply find_some in E as [Hin HP].
  apply list_elem_of_In, elem_of_map_to_list in Hin.
  rewrite (H k r Hin) in HP. discriminate HP.
Qed.

Lemma get_user_progress_found (b u : string) (d : db) (r : progress_row) :
  progress_keys_ok d →
  user_progress d !! (b ++ "_" ++ u)%string = Some r →
  p_book_id r = b → p_user_id r = u →
  get_user_progress b u false d = ProgressFound r.
Proof.
  intros Hok Hr Hb Hu. unfold get_user_progress.
  rewrite (find_the_row _ _ (b ++ "_" ++ u)%string r); [reflexivity|exact Hr| |].
  - cbn [snd]. rewrite Hb, Hu, !(proj2 (str_eqb_eq _ _) eq_refl). reflexivity.
  - intros k' r' Hr' HP. cbn [snd] in HP.
    apply andb_true_iff in HP as [H1 H2]. apply str_eqb_eq in H1, H2.
    rewrite (Hok k' r' Hr'), H1, H2. reflexivity.
Qed.

Lemma get_user_progress_missing (b u : string) (d : db) :
  progress_keys_ok d →
  (∀ r : progress_row,
     user_progress d !! (b ++ "_" ++ u)%string = Some r →
     ¬ (p_book_id r = b ∧ p_user_id r = u)) →
  get_user_progress b u false d = ProgressError 404 "User progress not found".
Proof.
  intros Hok Hno. unfold get_user_progress.
  rewrite find_no_row; [reflexivity|].
  intros k r Hr. cbn [snd].
  destruct (str_eqb (p_book_id r) b) eqn:E1; [|reflexivity].
  destruct (str_eqb (p_user_id r) u) eqn:E2; [|reflexivity].
  apply str_eqb_eq in E1, E2. exfalso.
  pose proof (Hok k r Hr) as Hkey. rewrite E1, E2 in Hkey. subst k.
  apply (Hno r Hr). auto.
Qed.

Lemma progress_keys_ok_empty : progress_keys_ok empty_db.
Proof. intros k r H. cbn in H. rewrite lookup_empty in H. discriminate H. Qed.

Lemma post_progress_keys_ok (bookId profile_id username : string)
  (progress : Q) (chapter : option Z) (now : Z) (d : db) :
  profile_id ≠ ""%string → username ≠ ""%string →
  progress_keys_ok d →
  progress_keys_ok
    (post_progress bookId (report profile_id username progress chapter)
       now false false d).1.
Proof.
  intros Hp Hu Hok. rewrite post_progress_table by assumption. cbn [fst].
  intros k r. cbn [user_progress set_user_progress].
  destruct (decide (k = (bookId ++ "_" ++ profile_id)%string)) as [->|Hk].
  - rewrite lookup_insert_eq. intros H. injection H as <-.
    cbn [p_book_id p_user_id].
    destruct (user_progress d !! (bookId ++ "_" ++ profile_id)%string)
      as [row|] eqn:Hrow; cbn [from_option]; [|reflexivity].
    apply (Hok _ _ Hrow).
  - rewrite lookup_insert_ne by congruence. apply Hok.
Qed.

Lemma append_same_length (a a' b b' : string) :
  String.length a = String.length a' →
  String.append a b = String.append a' b' → a = a' ∧ b = b'.
Proof.
  revert a'. induction a as [|x a IH]; intros [|x' a'] Hlen H;
    try discriminate Hlen.
  - split; [reflexivity|exact H].
  - change (String x (String.append a b) = String x' (String.append a' b')) in H.
    injection H as -> H. injection Hlen as Hlen.
    destruct (IH a' Hlen H) as [-> ->]. split; reflexivity.
Qed.

(** X16. The life of a progress row. A well-formed report to
    POST /api/books/:bookId/progress that meets no error leaves, under the
    id bookId_profile_id, a row with the reported progress, user name and
    chapter (1 when none or 0 is given) and the time of the report as
    last_updated; created_at is the time of the first report and is kept by
    later ones; no other row changes. When the UPDATE fails on a first
    report, the answer is 500 and yet the row is stored with the reported
    progress, the INSERT having run. *)
Theorem progress_report_lifecycle (bookId profile_id username : string)
  (progress : Q) (chapter : option Z) (now : Z) (d : db) :
  profile_id ≠ ""%string → username ≠ ""%string →
  let key := (bookId ++ "_" ++ profile_id)%string in
  let after := (post_progress bookId
                  (report profile_id username progress chapter)
                  now false false d).1 in
  (∃ row : progress_row,
     user_progress after !! key = Some row
     ∧ p_progress row = progress ∧ p_username row = username
     ∧ p_chapter row = or_one chapter ∧ p_last_updated row = now
     ∧ p_created_at row
       = from_option p_created_at now (user_progress d !! key))
  ∧ (∀ k : string, k ≠ key → user_progress after !! k = user_progress d !! k)
  ∧ (user_progress d !! key = None →
     (post_progress bookId (report profile_id username progress chapter)
        now false true d).2 = RError 500 "Failed to update progress"
     ∧ stored_progress
         (post_progress bookId (report profile_id username progress chapter)
            now false true d).1 bookId profile_id
       = Some progress).
Proof.
  intros Hp Hu key after. subst after. rewrite post_progress_table by assumption.
  cbn [fst user_progress set_user_progress]. split; [|split].
  - eexists. split; [apply lookup_insert_eq|]. cbn. repeat split; reflexivity.
  - intros k Hk. apply lookup_insert_ne. intros E. apply Hk. symmetry. exact E.
  - intros Hnone. unfold post_progress, report, stored_progress.
    cbn [pb_profile_id pb_username pb_progress pb_chapter].
    rewrite (proj2 (str_eqb_neq _ _) Hp), (proj2 (str_eqb_neq _ _) Hu).
    cbn [orb fst snd user_progress set_user_progress].
    split; [reflexivity|]. fold key. rewrite Hnone, lookup_insert_eq.
    reflexivity.
Qed.

Lemma progress_report_lifecycle_witness :
  ("c"%string ≠ ""%string ∧ "Cy"%string ≠ ""%string)
  ∧ ∀ k : string,
      k ≠ ("a_b" ++ "_" ++ "c")%string →
      user_progress
        (post_progress "a_b" (report "c" "Cy" 25%Q None) 9 false false
           one_report).1 !! k
      = user_progress one_report !! k.
Proof.
  assert (Hp : "c"%string ≠ ""%string) by discriminate.
  assert (Hu : "Cy"%string ≠ ""%string) by discriminate.
  split; [split; assumption|].
  exact (proj1 (proj2 (progress_report_lifecycle "a_b" "c" "Cy" 25%Q None 9
                         one_report Hp Hu))).
Defined.

(** X17. What is reported is read back. On a table whose rows sit under
    the id of their book and user, and whose book ids all have the length of
    the request's book id (as the generated ids of books have), a
    well-formed report that meets no error is what
    GET /api/books/:bookId/progress/:userId then returns for the same book
    and profile: the reported progress, user name and chapter. The table
    still has its rows under their ids. *)
Theorem progress_read_back (bookId profile_id username : string)
  (progress : Q) (chapter : option Z) (now : Z) (d : db) :
  profile_id ≠ ""%string → username ≠ ""%string →
  progress_keys_ok d →
  (∀ (k : string) (r : progress_row),
     user_progress d !! k = Some r →
     String.length (p_book_id r) = String.length bookId) →
  let after := (post_progress bookId
                  (report profile_id username progress chapter)
                  now false false d).1 in
  progress_keys_ok after
  ∧ ∃ row : progress_row,
      get_user_progress bookId profile_id false after = ProgressFound row
      ∧ p_progress row = progress ∧ p_username row = username
      ∧ p_chapter row = or_one chapter.
Proof.
  intros Hp Hu Hok Hlen after.
  assert (Hok' : progress_keys_ok after)
    by (apply post_progress_keys_ok; assumption).
  split; [exact Hok'|].
  assert (Hown : ∀ r, user_progress d !! (bookId ++ "_" ++ profile_id)%string
                      = Some r →
                      p_book_id r = bookId ∧ p_user_id r = profile_id).
  { intros r Hr. pose proof (Hok _ _ Hr) as Hkey.
    symmetry in Hkey.
    apply append_same_length in Hkey as [Hb Hrest]; [|apply (Hlen _ _ Hr)].
    split; [exact Hb|].
    apply append_same_length in Hrest as [_ Hrest]; [exact Hrest|reflexivity]. }
  subst after. revert Hok'. rewrite post_progress_table by assumption.
  cbn [fst]. intros Hok'.
  eexists. split.
  - apply get_user_progress_found; [exact Hok'| | |].
    + cbn [user_progress set_user_progress]. apply lookup_insert_eq.
    + cbn [p_book_id].
      destruct (user_progress d !! (bookId ++ "_" ++ profile_id)%string)
        as [r|] eqn:Hr; cbn [from_option]; [|reflexivity].
      apply (Hown r eq_refl).
    + cbn [p_user_id].
      destruct (user_progress d !! (bookId ++ "_" ++ profile_id)%string)
        as [r|] eqn:Hr; cbn [from_option]; [|reflexivity].
      apply (Hown r eq_refl).
  - cbn. repeat split; reflexivity.
Qed.

Lemma progress_read_back_witness :
  ("d"%string ≠ ""%string ∧ "Di"%string ≠ ""%string
   ∧ progress_keys_ok one_report
   ∧ ∀ (k : string) (r : progress_row),
       user_progress one_report !! k = Some r →
       String.length (p_book_id r) = String.length "x_y")
  ∧ progress_keys_ok
      (post_progress "x_y" (report "d" "Di" 40%Q (Some 3)) 9 false false
         one_report).1.
Proof.
  assert (Hp : "d"%string ≠ ""%string) by discriminate.
  assert (Hu : "Di"%string ≠ ""%string) by discriminate.
  assert (Hok : progress_keys_ok one_report).
  { apply post_progress_keys_ok;
      [discriminate|discriminate|apply progress_keys_ok_empty]. }
  assert (Hlen : ∀ (k : string) (r : progress_row),
            user_progress one_report !! k = Some r →
            String.length (p_book_id r) = String.length "x_y").
  { intros k r. unfold one_report.
    rewrite post_progress_table by discriminate.
    cbn [fst user_progress set_user_progress empty_db].
    destruct (decide (k = ("a_b" ++ "_" ++ "c")%string)) as [->|Hk].
    - rewrite lookup_insert_eq. intros H. injection H as <-. reflexivity.
    - rewrite lookup_insert_ne by congruence. rewrite lookup_empty.
      discriminate. }
  split; [repeat split; assumption|].
  exact (proj1 (progress_read_back "x_y" "d" "Di" 40%Q (Some 3) 9 one_report
                  Hp Hu Hok Hlen)).
Defined.

(** X18. Two pairs, one id. The progress id is the book id, an underscore
    and the profile id, so different pairs of book and profile can share it
    (book a with profile b_c, book a_b with profile c). On a table whose
    rows sit under their ids: when the id of a report already holds the row
    of another pair, the report is answered with success, but
    GET .../progress/:userId finds nothing for the reporting book and
    profile, and returns the reported progress and user name for the other
    pair instead. *)
Theorem progress_ids_collide (bookId profile_id username : string)
  (progress : Q) (chapter : option Z) (now : Z) (d : db) (other : progress_row) :
  profile_id ≠ ""%string → username ≠ ""%string →
  progress_keys_ok d →
  user_progress d !! (bookId ++ "_" ++ profile_id)%string = Some other →
  ¬ (p_book_id other = bookId ∧ p_user_id other = profile_id) →
  let after := post_progress bookId
                 (report profile_id username progress chapter)
                 now false false d in
  after.2 = RSuccess
  ∧ get_user_progress bookId profile_id false after.1
    = ProgressError 404 "User progress not found"
  ∧ ∃ row : progress_row,
      get_user_progress (p_book_id other) (p_user_id other) false after.1
      = ProgressFound row
      ∧ p_progress row = progress ∧ p_username row = username.
Proof.
  intros Hp Hu Hok Hother Hdiff after.
  assert (Hok' : progress_keys_ok after.1)
    by (apply post_progress_keys_ok; assumption).
  subst after. revert Hok'. rewrite post_progress_table by assumption.
  rewrite Hother. cbn [fst snd from_option]. intros Hok'.
  split; [reflexivity|]. split.
  - apply get_user_progress_missing; [exact Hok'|].
    intros r. cbn [user_progress set_user_progress].
    rewrite lookup_insert_eq. intros H. injection H as <-.
    cbn [p_book_id p_user_id]. exact Hdiff.
  - match type of Hok' with
    | progress_keys_ok (set_user_progress (insert _ ?r) _) => exists r
    end.
    split.
    + apply get_user_progress_found; [exact Hok'| |reflexivity|reflexivity].
      cbn [user_progress set_user_progress].
      pose proof (Hok _ _ Hother) as Hkey. rewrite <- Hkey.
      apply lookup_insert_eq.
    + cbn. split; reflexivity.
Qed.

Lemma progress_ids_collide_witness :
  user_progress one_report !! ("a" ++ "_" ++ "b_c")%string
  = Some {| p_book_id := "a_b"; p_user_id := "c"; p_username := "Cy";
            p_progress := 10%Q; p_chapter := 1; p_created_at := 0;
            p_last_updated := 0 |}
  ∧ get_user_progress "a" "b_c" false
      (post_progress "a" (report "b_c" "Bo" 70%Q None) 5 false false
         one_report).1
    = ProgressError 404 "User progress not found".
Proof.
  assert (Hp : "b_c"%string ≠ ""%string) by discriminate.
  assert (Hu : "Bo"%string ≠ ""%string) by discriminate.
  assert (Hok : progress_keys_ok one_report).
  { apply post_progress_keys_ok;
      [discriminate|discriminate|apply progress_keys_ok_empty]. }
  assert (Hother : user_progress one_report !! ("a" ++ "_" ++ "b_c")%string
                   = Some {| p_book_id := "a_b"; p_user_id := "c";
                             p_username := "Cy"; p_progress := 10%Q;
                             p_chapter := 1; p_created_at := 0;
                             p_last_updated := 0 |})
    by reflexivity.
  assert (Hdiff : ¬ (p_book_id {| p_book_id := "a_b"; p_user_id := "c";
                                  p_username := "Cy"; p_progress := 10%Q;
                                  p_chapter := 1; p_created_at := 0;
                                  p_last_updated := 0 |} = "a"%string
                     ∧ p_user_id {| p_book_id := "a_b"; p_user_id := "c";
                                    p_username := "Cy"; p_progress := 10%Q;
                                    p_chapter := 1; p_created_at := 0;
                                    p_last_updated := 0 |} = "b_c"%string)).
  { intros [H _]. discriminate H. }
  split; [exact Hother|].
  exact (proj1 (proj2 (progress_ids_collide "a" "b_c" "Bo" 70%Q None 5
                         one_report _ Hp Hu Hok Hother Hdiff))).
Defined.

End RoutesFacts.

(* ===================================================================== *)
(** ** Rooms, announcements and users nobody holds *)
(* ===================================================================== *)

Section RoomFacts.

Import Limits Socket Server Spec Notions.
Local Open Scope Z_scope.

Lemma members_socket_join (r sock room room' : string)
  (rooms : gmap string (gset string)) :
  r ∈ members (socket_join sock room rooms) room'
  ↔ (r = sock ∧ room' = room) ∨ r ∈ members rooms room'.
Proof.
  unfold socket_join, members at 1.
  destruct (decide (room = room')) as [->|Hne].
  - rewrite lookup_insert_eq. cbn [default from_option Datatypes.id].
    rewrite elem_of_union, elem_of_singleton. split.
    + intros [->|H]; auto.
    + intros [[-> _]|H]; auto.
  - rewrite lookup_insert_ne by exact Hne. fold (members rooms room'). split.
    + auto.
    + intros [[_ ->]|H]; [congruence|exact H].
Qed.

(** What join-session does to closure and rooms. *)
Lemma join_session_rooms (limits : value) (sock : string) (data : join_data)
  (env : join_env) (c : closure) (d : db) (rooms : gmap string (gset string)) :
  (closure_in (join_session limits sock data env c d rooms) = c
   ∧ rooms_of (join_session limits sock data env c d rooms) = rooms)
  ∨ (currentSession (closure_in (join_session limits sock data env c d rooms))
     = Some (jd_sessionId data)
     ∧ rooms_of (join_session limits sock data env c d rooms)
       = socket_join sock (jd_sessionId data) rooms).
Proof.
  unfold join_session, closure_in, rooms_of.
  destruct (if je_get_err env then None else sessions d !! jd_sessionId data);
    [|left; split; reflexivity].
  destruct (num_ge _ _); [left; split; reflexivity|].
  destruct (insert_user _ _ d); [right|left]; split; reflexivity.
Qed.

Lemma create_highlight_rooms (limits : value) (sock : string)
  (data : highlight_data) (env : write_env) (c : closure) (d : db)
  (rooms : gmap string (gset string)) :
  closure_in (create_highlight limits sock data env c d rooms) = c
  ∧ rooms_of (create_highlight limits sock data env c d rooms) = rooms.
Proof.
  unfold create_highlight, closure_in, rooms_of.
  destruct (currentUser c), (currentSession c); try (split; reflexivity).
  destruct (str_eqb _ ""); [split; reflexivity|].
  destruct (we_count_err env || _); [split; reflexivity|].
  destruct (insert_highlight _ _ d); split; reflexivity.
Qed.

Lemma create_comment_rooms (limits : value) (sock : string)
  (data : comment_data) (env : write_env) (c : closure) (d : db)
  (rooms : gmap string (gset string)) :
  closure_in (create_comment limits sock data env c d rooms) = c
  ∧ rooms_of (create_comment limits sock data env c d rooms) = rooms.
Proof.
  unfold create_comment, closure_in, rooms_of.
  destruct (currentUser c), (currentSession c); try (split; reflexivity).
  destruct (str_eqb _ ""); [split; reflexivity|].
  destruct (num_lt _ _ || num_gt _ _); [split; reflexivity|].
  destruct (we_count_err env || _); [split; reflexivity|].
  destruct (insert_comment _ _ d); split; reflexivity.
Qed.

Lemma update_progress_rooms (sock : string) (data : progress_data)
  (c : closure) (d : db) (rooms : gmap string (gset string)) :
  closure_in (update_progress sock data c d rooms) = c
  ∧ rooms_of (update_progress sock data c d rooms) = rooms.
Proof.
  unfold update_progress, closure_in, rooms_of.
  destruct (currentUser c), (currentSession c); try (split; reflexivity).
  destruct (str_eqb _ ""); split; reflexivity.
Qed.

Lemma on_socket_rooms_same (sock : string)
  (h : closure → db → gmap string (gset string) → result) (st : state) :
  (∀ c d rooms, closure_in (h c d rooms) = c ∧ rooms_of (h c d rooms) = rooms) →
  st_rooms (on_socket sock h st).1 = st_rooms st
  ∧ st_conns (on_socket sock h st).1 = st_conns st.
Proof.
  intros Hh. unfold on_socket.
  destruct (st_conns st !! sock) as [c|] eqn:Hc; [|split; reflexivity].
  specialize (Hh c (st_db st) (st_rooms st)). unfold closure_in, rooms_of in Hh.
  destruct (h c (st_db st) (st_rooms st)) as [[[c' d'] rooms'] out].
  cbn [fst snd] in *. destruct Hh as [-> ->].
  split; [reflexivity|]. apply insert_id. exact Hc.
Qed.

Lemma rooms_sound_same (st st' : state) :
  st_rooms st' = st_rooms st → st_conns st' = st_conns st →
  rooms_sound st → rooms_sound st'.
Proof.
  intros Hr Hc [H1 H2]. split; rewrite ?Hr, ?Hc; assumption.
Qed.

Lemma rooms_sound_step (limits : value) (e : server_event) (st : state) :
  rooms_sound st → rooms_sound (step limits e st).1.
Proof.
  intros Hst. destruct e as [sock|sessionId bookId now err|sock data env
    |sock data env|sock data env|sock data|sock delete_err update_err]; cbn [step].
  - destruct (st_conns st !! sock) as [c|] eqn:Hc; [exact Hst|].
    destruct Hst as [H1 H2]. cbn [fst]. split; cbn [st_conns st_rooms].
    + intros sock' c' s. destruct (decide (sock' = sock)) as [->|Hne].
      * rewrite lookup_insert_eq. intros H. injection H as <-. discriminate.
      * rewrite lookup_insert_ne by congruence. apply H1.
    + intros room sock' Hin. apply lookup_insert_is_Some'. right.
      apply (H2 room). exact Hin.
  - apply (rooms_sound_same st); [reflexivity|reflexivity|exact Hst].
  - unfold on_socket.
    destruct (st_conns st !! sock) as [c|] eqn:Hc; [|exact Hst].
    pose proof (join_session_rooms limits sock data env c (st_db st)
                  (st_rooms st)) as Hj.
    unfold closure_in, rooms_of in Hj.
    destruct (join_session limits sock data env c (st_db st) (st_rooms st))
      as [[[c' d'] rooms'] out].
    cbn [fst snd] in *. destruct Hj as [[-> ->]|[Hs ->]].
    + apply (rooms_sound_same st); cbn [st_rooms st_conns];
        [reflexivity|apply insert_id; exact Hc|exact Hst].
    + destruct Hst as [H1 H2]. split; cbn [st_conns st_rooms].
      * intros sock' c0 s. rewrite members_socket_join.
        destruct (decide (sock' = sock)) as [->|Hne].
        -- rewrite lookup_insert_eq. intros H. injection H as <-.
           rewrite Hs. intros H. injection H as <-. left. split; reflexivity.
        -- rewrite lookup_insert_ne by congruence. intros Hc0 Hs0. right.
           apply (H1 sock' c0 s); assumption.
      * intros room sock'. rewrite members_socket_join.
        intros [[-> _]|Hin]; apply lookup_insert_is_Some'.
        -- left. reflexivity.
        -- right. apply (H2 room). exact Hin.
  - destruct (on_socket_rooms_same sock (create_highlight limits sock data env)
                st) as [Hr Hc]; [apply create_highlight_rooms|].
    apply (rooms_sound_same st); assumption.
  - destruct (on_socket_rooms_same sock (create_comment limits sock data env)
                st) as [Hr Hc]; [apply create_comment_rooms|].
    apply (rooms_sound_same st); assumption.
  - destruct (on_socket_rooms_same sock (update_progress sock data) st)
      as [Hr Hc]; [apply update_progress_rooms|].
    apply (rooms_sound_same st); assumption.
  - destruct (st_conns st !! sock) as [c|] eqn:Hc; [|exact Hst].
    destruct (disconnect sock delete_err update_err c (st_db st)
                (leave_all sock (st_rooms st))) as [[[c' d'] rooms'] out].
    cbn [fst]. destruct Hst as [H1 H2]. split; cbn [st_conns st_rooms].
    + intros sock' c0 s. destruct (decide (sock' = sock)) as [->|Hne].
      * rewrite lookup_delete_eq. discriminate.
      * rewrite lookup_delete_ne by congruence. intros Hc0 Hs0.
        apply members_leave_all. split; [|exact Hne].
        apply (H1 sock' c0 s); assumption.
    + intros room sock'. rewrite members_leave_all. intros [Hin Hne].
      rewrite lookup_delete_ne by congruence. apply (H2 room). exact Hin.
Qed.

Lemma rooms_sound_run (limits : value) (evs : list server_event) (st : state) :
  rooms_sound st → rooms_sound (run limits evs st).1.
Proof.
  revert st. induction evs as [|e evs IH]; intros st Hst; [exact Hst|].
  cbn [run]. pose proof (rooms_sound_step limits e st Hst) as H1.
  destruct (step limits e st) as [st1 out1]. cbn [fst] in H1.
  specialize (IH st1 H1).
  destruct (run limits evs st1) as [st2 out2]. exact IH.
Qed.

(** X19. Rooms and connections agree. When the server handles its events
    one at a time, after any sequence of connections, uploads, joins,
    annotation and progress messages and disconnections, whatever the
    limits and the database errors met: every connection whose
    currentSession is set is a member of that session's room, so that the
    room's broadcasts reach it; and every member of a room is a connected
    socket. *)
Theorem serial_rooms_hold_the_joined (limits : value)
  (evs : list server_event) :
  (∀ (sock : string) (c : closure) (s : string),
     st_conns (run limits evs init).1 !! sock = Some c →
     currentSession c = Some s →
     sock ∈ members (st_rooms (run limits evs init).1) s)
  ∧ (∀ (room sock : string),
       sock ∈ members (st_rooms (run limits evs init).1) room →
       is_Some (st_conns (run limits evs init).1 !! sock)).
Proof.
  assert (H : rooms_sound (run limits evs init).1).
  { apply rooms_sound_run. split; cbn.
    - intros sock c s H. rewrite lookup_empty in H. discriminate.
    - intros room sock H. unfold members in H. rewrite lookup_empty in H.
      apply not_elem_of_empty in H. destruct H. }
  destruct H as [H1 H2]. split; assumption.
Qed.

Lemma serial_rooms_hold_the_joined_witness :
  (st_conns (run production two_readers init).1 !! "B"%string
   = Some {| currentUser :=
               Some {| id := "uB"; username := "Curious Dolphin";
                       color := "#4ECDC4" |};
             currentSession := Some "s1"%string |})
  ∧ "B"%string ∈ members (st_rooms (run production two_readers init).1) "s1".
Proof.
  assert (Hc : st_conns (run production two_readers init).1 !! "B"%string
               = Some {| currentUser :=
                           Some {| id := "uB"; username := "Curious Dolphin";
                                   color := "#4ECDC4" |};
                         currentSession := Some "s1"%string |})
    by (vm_compute; reflexivity).
  split; [exact Hc|].
  exact (proj1 (serial_rooms_hold_the_joined production two_readers)
           "B"%string _ "s1"%string Hc eq_refl).
Defined.

(** X20. A socket leaves a room only by disconnecting. Whatever event the
    server handles other than the socket's own disconnection, a socket that
    is in a room is still in it afterwards: in particular a socket that
    joins a second session stays in the room of the first and keeps
    receiving its broadcasts. *)
Theorem rooms_shrink_only_on_disconnect (limits : value) (e : server_event)
  (st : state) (r room : string) :
  r ∈ members (st_rooms st) room →
  (∀ delete_err update_err : bool, e ≠ Disconnect r delete_err update_err) →
  r ∈ members (st_rooms (step limits e st).1) room.
Proof.
  intros Hin Hne.
  destruct e as [sock|sessionId bookId now err|sock data env
    |sock data env|sock data env|sock data|sock delete_err update_err]; cbn [step].
  - destruct (st_conns st !! sock); exact Hin.
  - exact Hin.
  - unfold on_socket. destruct (st_conns st !! sock) as [c|]; [|exact Hin].
    pose proof (join_session_rooms limits sock data env c (st_db st)
                  (st_rooms st)) as Hj.
    unfold closure_in, rooms_of in Hj.
    destruct (join_session limits sock data env c (st_db st) (st_rooms st))
      as [[[c' d'] rooms'] out].
    cbn [fst snd] in *. destruct Hj as [[_ ->]|[_ ->]]; [exact Hin|].
    apply members_socket_join. right. exact Hin.
  - destruct (on_socket_rooms_same sock (create_highlight limits sock data env)
                st) as [Hr _]; [apply create_highlight_rooms|].
    rewrite Hr. exact Hin.
  - destruct (on_socket_rooms_same sock (create_comment limits sock data env)
                st) as [Hr _]; [apply create_comment_rooms|].
    rewrite Hr. exact Hin.
  - destruct (on_socket_rooms_same sock (update_progress sock data) st)
      as [Hr _]; [apply update_progress_rooms|].
    rewrite Hr. exact Hin.
  - destruct (st_conns st !! sock) as [c|] eqn:Hc; [|exact Hin].
    destruct (disconnect sock delete_err update_err c (st_db st)
                (leave_all sock (st_rooms st))) as [[[c' d'] rooms'] out].
    cbn [fst st_rooms]. apply members_leave_all. split; [exact Hin|].
    intros ->. apply (Hne delete_err update_err). reflexivity.
Qed.

Lemma rooms_shrink_only_on_disconnect_witness :
  "A"%string ∈ members (st_rooms joined_state) "s1"
  ∧ "A"%string
    ∈ members
        (st_rooms
           (step production
              (JoinSession "A" {| jd_sessionId := "s2";
                                  jd_participantId := None |}
                 (env_join "uA2" 3 9))
              (step production (Upload "s2" "b2" 8 false) joined_state).1).1)
        "s1".
Proof.
  assert (H0 : "A"%string ∈ members (st_rooms joined_state) "s1").
  { apply (bool_decide_unpack _). vm_compute. exact I. }
  split; [exact H0|].
  apply rooms_shrink_only_on_disconnect;
    [|intros delete_err update_err; discriminate].
  apply rooms_shrink_only_on_disconnect; [exact H0|].
  intros delete_err update_err. discriminate.
Defined.

(** *** Announcements of a join *)

(** X21. Who is told of a join. When join-session admits a socket (the
    session exists and has a free slot, the generated id is new, no
    statement fails), the socket itself receives exactly one user-joined
    with its new user and exactly one session-users, whose list is the
    session's roster before the join followed by the new user, and no
    user-joined-session; every other socket of the session's room receives
    exactly one user-joined-session with the new user and neither of the
    other two; a socket outside the room receives nothing. *)
Theorem join_announcements (limits : value) (M : Z) (sock : string)
  (data : join_data) (env : join_env) (c : closure) (d : db)
  (rooms : gmap string (gset string)) (session : session_row) :
  at_path limits USER_MAX_CONCURRENT_PER_SESSION = VNum M →
  sessions d !! jd_sessionId data = Some session →
  s_user_count session < M →
  je_get_err env = false → je_insert_err env = false →
  je_all_err env = false →
  has_user d (je_uuid env) = false →
  let s := jd_sessionId data in
  let me := {| id := je_uuid env;
               username := pf_username (generateUserProfile (je_draws env));
               color := pf_color (generateUserProfile (je_draws env)) |} in
  let row := {| u_id := je_uuid env; u_session_id := Some s;
                u_username := pf_username (generateUserProfile (je_draws env));
                u_color := pf_color (generateUserProfile (je_draws env)) |} in
  let out := emits_of (join_session limits sock data env c d rooms) in
  received sock "user-joined" out
  = [{| to := sock; event := "user-joined"; body := PUser me |}]
  ∧ received sock "session-users" out
    = [{| to := sock; event := "session-users";
          body := PUsers (roster d s ++ [row]) |}]
  ∧ received sock "user-joined-session" out = []
  ∧ (∀ r : string, r ≠ sock → r ∈ members rooms s →
       received r "user-joined-session" out
       = [{| to := r; event := "user-joined-session"; body := PUser me |}]
       ∧ received r "user-joined" out = []
       ∧ received r "session-users" out = [])
  ∧ (∀ r ev : string, r ≠ sock → r ∉ members rooms s →
       received r ev out = []).
Proof.
  intros HM Hs Hlt Hg Hi Ha Hfresh s me row out.
  assert (Hout : out
    = socket_emit sock "user-joined" (PUser me)
      ++ socket_to_emit (socket_join sock s rooms) sock s
           "user-joined-session" (PUser me)
      ++ socket_emit sock "session-users" (PUsers (roster d s ++ [row]))).
  { subst out me row s. unfold join_session, emits_of.
    rewrite Hg, Hs, HM. cbn [num_ge num_le].
    rewrite (proj2 (Z.leb_gt _ _) Hlt).
    unfold insert_user. cbn [u_id]. rewrite Hi, Hfresh, Ha. cbn [orb snd].
    do 3 f_equal. unfold roster. rewrite bump_user_count_users.
    cbn [users set_users].
    rewrite List.filter_app. cbn [List.filter u_session_id opt_is].
    rewrite str_eqb_refl. reflexivity. }
  assert (Hmem : ∀ r, r ≠ sock →
            (r ∈ members (socket_join sock s rooms) s ↔ r ∈ members rooms s)).
  { intros r Hr. rewrite members_socket_join. tauto. }
  rewrite Hout. split; [|split; [|split; [|split]]].
  - rewrite !received_app, received_socket_emit_own,
      received_socket_to_emit_sender, received_socket_emit_other;
      [reflexivity|right; discriminate].
  - rewrite !received_app, received_socket_emit_own,
      received_socket_to_emit_sender, received_socket_emit_other;
      [reflexivity|right; discriminate].
  - rewrite !received_app, received_socket_to_emit_sender,
      !received_socket_emit_other; [reflexivity|right; discriminate..].
  - intros r Hr Hin. rewrite !received_app.
    rewrite !(received_socket_emit_other r sock) by (left; exact Hr).
    rewrite received_socket_to_emit_member
      by (try apply Hmem; assumption).
    rewrite !received_socket_to_emit_event by discriminate.
    repeat split; reflexivity.
  - intros r ev Hr Hout'. rewrite !received_app.
    rewrite !(received_socket_emit_other r sock) by (left; exact Hr).
    rewrite received_socket_to_emit_outside; [reflexivity|].
    intros H. apply Hout'. apply Hmem; assumption.
Qed.

Lemma join_announcements_witness :
  (at_path production USER_MAX_CONCURRENT_PER_SESSION = VNum 5
   ∧ sessions (st_db one_reader) !! "s1"%string
     = Some {| s_book_id := "b1"; s_user_count := 1; s_last_activity := 1 |}
   ∧ has_user (st_db one_reader) "uB" = false)
  ∧ received "B" "session-users"
      (emits_of (join_session production "B" join_s1 (env_join "uB" 1 2)
                   fresh_closure (st_db one_reader) (st_rooms one_reader)))
    = [{| to := "B"; event := "session-users";
          body := PUsers
                    (roster (st_db one_reader) "s1"
                     ++ [{| u_id := "uB"; u_session_id := Some "s1"%string;
                            u_username := "Curious Dolphin";
                            u_color := "#4ECDC4" |}]) |}].
Proof.
  assert (HM : at_path production USER_MAX_CONCURRENT_PER_SESSION = VNum 5)
    by reflexivity.
  assert (Hs : sessions (st_db one_reader) !! jd_sessionId join_s1
               = Some {| s_book_id := "b1"; s_user_count := 1;
                         s_last_activity := 1 |})
    by (vm_compute; reflexivity).
  assert (Hfresh : has_user (st_db one_reader) (je_uuid (env_join "uB" 1 2))
                   = false)
    by (vm_compute; reflexivity).
  split; [repeat split; assumption|].
  exact (proj1 (proj2 (join_announcements production 5 "B" join_s1
                         (env_join "uB" 1 2) fresh_closure (st_db one_reader)
                         (st_rooms one_reader) _ HM Hs ltac:(cbn; lia)
                         eq_refl eq_refl eq_refl Hfresh))).
Defined.

(** *** Users nobody holds *)

Lemma has_user_true (d : db) (i : string) :
  has_user d i = true ↔ ∃ row : user_row, row ∈ users d ∧ u_id row = i.
Proof.
  unfold has_user. rewrite existsb_exists. split.
  - intros (row & Hin & H). apply str_eqb_eq in H. exists row.
    split; [apply list_elem_of_In; exact Hin|exact H].
  - intros (row & Hin & H). exists row.
    split; [apply list_elem_of_In; exact Hin|apply str_eqb_eq; exact H].
Qed.

(** What join-session does to closure and users. *)
Lemma join_session_users (limits : value) (sock : string) (data : join_data)
  (env : join_env) (c : closure) (d : db) (rooms : gmap string (gset string)) :
  (closure_in (join_session limits sock data env c d rooms) = c
   ∧ users (db_of (join_session limits sock data env c d rooms)) = users d
   ∧ received sock "user-joined"
       (emits_of (join_session limits sock data env c d rooms)) = [])
  ∨ (has_user d (je_uuid env) = false
     ∧ (∃ me : user,
          currentUser (closure_in (join_session limits sock data env c d rooms))
          = Some me ∧ id me = je_uuid env)
     ∧ ∃ row : user_row,
         users (db_of (join_session limits sock data env c d rooms))
         = users d ++ [row]).
Proof.
  unfold join_session, closure_in, db_of, emits_of.
  assert (Herr : ∀ msg : string,
            received sock "user-joined" (socket_emit sock "error" (PText msg))
            = []).
  { intros msg. apply received_socket_emit_other. right. discriminate. }
  destruct (if je_get_err env then None else sessions d !! jd_sessionId data);
    [|left; repeat split; apply Herr].
  destruct (num_ge _ _); [left; repeat split; apply Herr|].
  unfold insert_user. cbn [u_id].
  destruct (je_insert_err env); cbn [orb]; [left; repeat split; apply Herr|].
  destruct (has_user d (je_uuid env)) eqn:E; [left; repeat split; apply Herr|].
  right. split; [reflexivity|]. split.
  - eexists. split; reflexivity.
  - eexists. cbn [fst snd]. rewrite bump_user_count_users. reflexivity.
Qed.

Lemma disconnect_users (sock : string) (delete_err update_err : bool)
  (c : closure) (d : db) (rooms : gmap string (gset string)) :
  users (db_of (disconnect sock delete_err update_err c d rooms)) = users d
  ∨ ∃ me : user,
      currentUser c = Some me
      ∧ users (db_of (disconnect sock delete_err update_err c d rooms))
        = List.filter (λ r, negb (str_eqb (u_id r) (id me))) (users d).
Proof.
  destruct (disconnect_cases sock delete_err update_err c d rooms)
    as [->|(me & session & Hu & _ & _ & ->)]; [left; reflexivity|].
  right. exists me. split; [exact Hu|]. apply bump_user_count_users.
Qed.

Lemma orphaned_same (row : user_row) (st st' : state) :
  users (st_db st') = users (st_db st) → st_conns st' = st_conns st →
  orphaned row st → orphaned row st'.
Proof.
  intros Hu Hc [H1 H2]. split; rewrite ?Hu, ?Hc; assumption.
Qed.

Lemma on_socket_users_same (sock : string)
  (h : closure → db → gmap string (gset string) → result) (st : state) :
  (∀ c d rooms, closure_in (h c d rooms) = c
                ∧ users (db_of (h c d rooms)) = users d) →
  users (st_db (on_socket sock h st).1) = users (st_db st)
  ∧ st_conns (on_socket sock h st).1 = st_conns st.
Proof.
  intros Hh. unfold on_socket.
  destruct (st_conns st !! sock) as [c|] eqn:Hc; [|split; reflexivity].
  specialize (Hh c (st_db st) (st_rooms st)). unfold closure_in, db_of in Hh.
  destruct (h c (st_db st) (st_rooms st)) as [[[c' d'] rooms'] out].
  cbn [fst snd] in *. destruct Hh as [-> Hu].
  split; [exact Hu|]. apply insert_id. exact Hc.
Qed.

Lemma orphaned_step (limits : value) (row : user_row) (e : server_event)
  (st : state) :
  orphaned row st → orphaned row (step limits e st).1.
Proof.
  intros Hst. destruct e as [sock|sessionId bookId now err|sock data env
    |sock data env|sock data env|sock data|sock delete_err update_err]; cbn [step].
  - destruct (st_conns st !! sock) as [c|] eqn:Hc; [exact Hst|].
    destruct Hst as [H1 H2]. cbn [fst]. split; cbn [st_conns st_db];
      [exact H1|].
    intros sock' c' me. destruct (decide (sock' = sock)) as [->|Hne].
    + rewrite lookup_insert_eq. intros H. injection H as <-. discriminate.
    + rewrite lookup_insert_ne by congruence. apply H2.
  - apply (orphaned_same row st); [|reflexivity|exact Hst].
    cbn [fst st_db]. unfold insert_session.
    destruct err; [reflexivity|].
    destruct (sessions (st_db st) !! sessionId); reflexivity.
  - unfold on_socket.
    destruct (st_conns st !! sock) as [c|] eqn:Hc; [|exact Hst].
    pose proof (join_session_users limits sock data env c (st_db st)
                  (st_rooms st)) as Hj.
    unfold closure_in, db_of in Hj.
    destruct (join_session limits sock data env c (st_db st) (st_rooms st))
      as [[[c' d'] rooms'] out].
    cbn [fst snd] in *.
    destruct Hj as [(-> & Hu & _)|(Hfresh & (me & Hme & Hid) & (row' & Hu))].
    + apply (orphaned_same row st); cbn [st_db st_conns];
        [exact Hu|apply insert_id; exact Hc|exact Hst].
    + destruct Hst as [H1 H2]. split; cbn [st_db st_conns].
      * rewrite Hu. apply elem_of_app. left. exact H1.
      * intros sock' c0 me0. destruct (decide (sock' = sock)) as [->|Hne].
        -- rewrite lookup_insert_eq. intros H. injection H as <-.
           rewrite Hme. intros H. injection H as <-. rewrite Hid.
           intros E. apply has_user_false in Hfresh. apply Hfresh.
           rewrite E. apply list_elem_of_fmap. exists row.
           split; [reflexivity|exact H1].
        -- rewrite lookup_insert_ne by congruence. apply H2.
  - destruct (on_socket_users_same sock (create_highlight limits sock data env)
                st) as [Hu Hc].
    { intros c d rooms.
      destruct (create_highlight_keeps limits sock data env c d rooms)
        as (H1 & H2 & _). split; assumption. }
    apply (orphaned_same row st); assumption.
  - destruct (on_socket_users_same sock (create_comment limits sock data env)
                st) as [Hu Hc].
    { intros c d rooms.
      destruct (create_comment_keeps limits sock data env c d rooms)
        as (H1 & H2 & _). split; assumption. }
    apply (orphaned_same row st); assumption.
  - destruct (on_socket_users_same sock (update_progress sock data) st)
      as [Hu Hc].
    { intros c d rooms.
      destruct (update_progress_keeps sock data c d rooms) as (H1 & H2).
      split; [exact H1|rewrite H2; reflexivity]. }
    apply (orphaned_same row st); assumption.
  - destruct (st_conns st !! sock) as [c|] eqn:Hc; [|exact Hst].
    pose proof (disconnect_users sock delete_err update_err c (st_db st)
                  (leave_all sock (st_rooms st))) as Hd.
    unfold db_of in Hd.
    destruct (disconnect sock delete_err update_err c (st_db st)
                (leave_all sock (st_rooms st))) as [[[c' d'] rooms'] out].
    cbn [fst snd] in *. destruct Hst as [H1 H2]. split; cbn [st_db st_conns].
    + destruct Hd as [->|(me & Hme & ->)]; [exact H1|].
      apply filter_filter_elem. split; [exact H1|].
      intros E. apply (H2 sock c me Hc Hme). symmetry. exact E.
    + intros sock' c0 me0. destruct (decide (sock' = sock)) as [->|Hne].
      * rewrite lookup_delete_eq. discriminate.
      * rewrite lookup_delete_ne by congruence. apply H2.
Qed.

Lemma orphaned_run (limits : value) (row : user_row)
  (evs : list server_event) (st : state) :
  orphaned row st → orphaned row (run limits evs st).1.
Proof.
  revert st. induction evs as [|e evs IH]; intros st Hst; [exact Hst|].
  cbn [run]. pose proof (orphaned_step limits row e st Hst) as H1.
  destruct (step limits e st) as [st1 out1]. cbn [fst] in H1.
  specialize (IH st1 H1).
  destruct (run limits evs st1) as [st2 out2]. exact IH.
Qed.

Lemma run_app_state (limits : value) (l1 l2 : list server_event)
  (st : state) :
  (run limits (l1 ++ l2) st).1 = (run limits l2 (run limits l1 st).1).1.
Proof.
  revert st. induction l1 as [|e l1 IH]; intros st; [reflexivity|].
  cbn [app run]. destruct (step limits e st) as [st1 out1].
  specialize (IH st1).
  destruct (run limits (l1 ++ l2) st1) as [st2 out2].
  destruct (run limits l1 st1) as [st3 out3]. cbn [fst] in *.
  rewrite IH. destruct (run limits l2 st3) as [st4 out4]. reflexivity.
Qed.

(** A user nobody holds stays stored and stays held by nobody, whatever
    events the server handles one at a time; its session stays stored, and
    counts it wherever the counts are right. *)
Lemma orphaned_keeps_its_slot (limits : value) (row : user_row)
  (s : string) (evs : list server_event) (st : state) :
  registered st → orphaned row st → u_session_id row = Some s →
  row ∈ users (st_db (run limits evs st).1)
  ∧ (∀ (sock : string) (c : closure) (me : user),
       st_conns (run limits evs st).1 !! sock = Some c →
       currentUser c = Some me → id me ≠ u_id row)
  ∧ ∃ session : session_row,
      sessions (st_db (run limits evs st).1) !! s = Some session
      ∧ ∀ M : Z, consistent M (run limits evs st).1 →
                 1 ≤ s_user_count session.
Proof.
  intros Hst Horph Hs.
  pose proof (orphaned_run limits row evs st Horph) as [H1 H2].
  pose proof (registered_run limits evs st Hst) as Hreg.
  split; [exact H1|]. split; [exact H2|].
  destruct (sessions_known _ Hreg row s H1 Hs) as [session Hsession].
  exists session. split; [exact Hsession|]. intros M Hc.
  destruct (counts_right _ _ Hc s session Hsession) as [Hcount _].
  rewrite Hcount.
  assert (Hin : row ∈ roster (st_db (run limits evs st).1) s).
  { unfold roster. apply list_elem_of_In, List.filter_In.
    split; [apply list_elem_of_In; exact H1|].
    apply opt_is_true. exact Hs. }
  destruct (roster (st_db (run limits evs st).1) s) as [|x l];
    [inversion Hin|cbn [length]; lia].
Qed.

(** X22. A second join leaks the first user. In a server that has handled
    any events one at a time, when a socket that already has a user is
    admitted by join-session again, the user it had is never removed:
    whatever events follow (the socket's disconnection included), that user
    is still stored, no connection holds it as its current user (so no
    disconnection can delete it), and the session it joined is still
    stored and, when every UPDATE of a count took effect, still counts at
    least one user. *)
Theorem rejoin_orphans_the_first_user (NODE_ENV : option string)
  (before : list server_event) (sock : string) (c : closure) (me : user)
  (data : join_data) (env : join_env) (evs : list server_event) :
  let limits := server_limits NODE_ENV in
  let st := (run limits before init).1 in
  let final := (run limits (JoinSession sock data env :: evs) st).1 in
  st_conns st !! sock = Some c → currentUser c = Some me →
  received sock "user-joined" (step limits (JoinSession sock data env) st).2
  ≠ [] →
  has_user (st_db final) (id me) = true
  ∧ (∀ (sock' : string) (c' : closure) (me' : user),
       st_conns final !! sock' = Some c' → currentUser c' = Some me' →
       id me' ≠ id me)
  ∧ ∃ (s : string) (session : session_row),
      currentSession c = Some s
      ∧ sessions (st_db final) !! s = Some session
      ∧ (Forall (λ e, update_fails e = false)
           (before ++ JoinSession sock data env :: evs) →
         1 ≤ s_user_count session).
Proof.
  intros limits st final Hc Hme Hjoined.
  destruct (server_limits_values NODE_ENV) as (M & mh & HM & _ & Hpath & _).
  fold limits in Hpath.
  assert (Hst : registered st).
  { apply registered_run. apply registered_init. }
  destruct (conn_rows _ Hst sock c me Hc Hme) as (row & s & Hrow & Hid & Hs & Hcs).
  set (st1 := (step limits (JoinSession sock data env) st).1).
  assert (Hst1 : registered st1).
  { apply registered_step. exact Hst. }
  assert (Horph : orphaned row st1).
  { subst st1. revert Hjoined. cbn [step]. unfold on_socket. rewrite Hc.
    pose proof (join_session_users limits sock data env c (st_db st)
                  (st_rooms st)) as Hj.
    unfold closure_in, db_of, emits_of in Hj.
    destruct (join_session limits sock data env c (st_db st) (st_rooms st))
      as [[[c' d'] rooms'] out].
    cbn [fst snd] in *. intros Hjoined.
    destruct Hj as [(_ & _ & Hnone)|(Hfresh & (me1 & Hme1 & Hid1) & (row' & Hu))];
      [contradiction|].
    split; cbn [st_db st_conns].
    - rewrite Hu. apply elem_of_app. left. exact Hrow.
    - intros sock' c0 me0. destruct (decide (sock' = sock)) as [->|Hne].
      + rewrite lookup_insert_eq. intros H. injection H as <-.
        rewrite Hme1. intros H. injection H as <-. rewrite Hid1.
        intros E. apply has_user_false in Hfresh. apply Hfresh.
        rewrite E. apply list_elem_of_fmap. exists row.
        split; [reflexivity|exact Hrow].
      + rewrite lookup_insert_ne by congruence. intros Hc0 Hme0.
        rewrite Hid.
        apply (conn_distinct _ Hst sock' sock c0 c me0 me Hne Hc0 Hc Hme0 Hme). }
  assert (Hfinal : final = (run limits evs st1).1).
  { subst final st1. cbn [run].
    destruct (step limits (JoinSession sock data env) st) as [st1 out1].
    cbn [fst]. destruct (run limits evs st1) as [st2 out2]. reflexivity. }
  destruct (orphaned_keeps_its_slot limits row s evs st1 Hst1 Horph Hs)
    as (H1 & H2 & session & Hsession & Hcount).
  rewrite <- Hfinal in H1, H2, Hsession, Hcount.
  split; [|split].
  - apply has_user_true. exists row. split; assumption.
  - intros sock' c' me' Hc' Hme'. rewrite <- Hid. apply (H2 sock' c' me' Hc' Hme').
  - exists s, session. split; [exact Hcs|]. split; [exact Hsession|].
    intros Hupd. apply (Hcount M).
    assert (Hall : final
              = (run limits (before ++ JoinSession sock data env :: evs)
                   init).1).
    { subst final st. symmetry. apply run_app_state. }
    rewrite Hall.
    apply consistent_run; [exact Hpath|lia|exact Hupd|].
    apply consistent_init; lia.
Qed.

Lemma rejoin_orphans_the_first_user_witness :
  (st_conns (run (server_limits (Some "production"%string)) two_readers init).1
     !! "A"%string
   = Some {| currentUser := Some user_A;
             currentSession := Some "s1"%string |}
   ∧ received "A" "user-joined"
       (step (server_limits (Some "production"%string))
          (JoinSession "A" join_s1 (env_join "uA2" 3 9))
          (run (server_limits (Some "production"%string)) two_readers init).1).2
     ≠ [])
  ∧ has_user
      (st_db (run (server_limits (Some "production"%string))
                [JoinSession "A" join_s1 (env_join "uA2" 3 9);
                 Disconnect "A" false false; Disconnect "B" false false]
                (run (server_limits (Some "production"%string))
                   two_readers init).1).1)
      (id user_A) = true.
Proof.
  assert (Hc : st_conns (run (server_limits (Some "production"%string))
                           two_readers init).1 !! "A"%string
               = Some {| currentUser := Some user_A;
                         currentSession := Some "s1"%string |})
    by (vm_compute; reflexivity).
  assert (Hj : received "A" "user-joined"
                 (step (server_limits (Some "production"%string))
                    (JoinSession "A" join_s1 (env_join "uA2" 3 9))
                    (run (server_limits (Some "production"%string))
                       two_readers init).1).2 ≠ [])
    by (vm_compute; discriminate).
  split; [split; assumption|].
  exact (proj1 (rejoin_orphans_the_first_user (Some "production"%string)
                  two_readers "A" _ user_A join_s1 (env_join "uA2" 3 9)
                  [Disconnect "A" false false; Disconnect "B" false false]
                  Hc eq_refl Hj)).
Defined.

(** X23. A failed DELETE leaks the user. In a server that has handled any
    events one at a time, when a socket that has a user disconnects and the
    DELETE of its user fails, nobody is told, and the user is never
    removed: whatever events follow, it is still stored, no connection
    holds it, and the session it joined is still stored and, when every
    UPDATE of a count took effect, still counts at least one user. *)
Theorem failed_delete_orphans_the_user (NODE_ENV : option string)
  (before : list server_event) (sock : string) (c : closure) (me : user)
  (update_err : bool) (evs : list server_event) :
  let limits := server_limits NODE_ENV in
  let st := (run limits before init).1 in
  let final := (run limits (Disconnect sock true update_err :: evs) st).1 in
  st_conns st !! sock = Some c → currentUser c = Some me →
  (step limits (Disconnect sock true update_err) st).2 = []
  ∧ has_user (st_db final) (id me) = true
  ∧ (∀ (sock' : string) (c' : closure) (me' : user),
       st_conns final !! sock' = Some c' → currentUser c' = Some me' →
       id me' ≠ id me)
  ∧ ∃ (s : string) (session : session_row),
      currentSession c = Some s
      ∧ sessions (st_db final) !! s = Some session
      ∧ (Forall (λ e, update_fails e = false) (before ++ evs) →
         1 ≤ s_user_count session).
Proof.
  intros limits st final Hc Hme.
  destruct (server_limits_values NODE_ENV) as (M & mh & HM & _ & Hpath & _).
  fold limits in Hpath.
  assert (Hst : registered st).
  { apply registered_run. apply registered_init. }
  destruct (conn_rows _ Hst sock c me Hc Hme) as (row & s & Hrow & Hid & Hs & Hcs).
  set (st1 := (step limits (Disconnect sock true update_err) st).1).
  assert (Hst1 : registered st1).
  { apply registered_step. exact Hst. }
  assert (Hstep : step limits (Disconnect sock true update_err) st
                  = ({| st_db := st_db st;
                        st_rooms := leave_all sock (st_rooms st);
                        st_conns := delete sock (st_conns st) |}, [])).
  { cbn [step]. rewrite Hc. unfold disconnect. rewrite Hme, Hcs.
    destruct (str_eqb s ""); reflexivity. }
  assert (Horph : orphaned row st1).
  { subst st1. rewrite Hstep. cbn [fst]. split; cbn [st_db st_conns].
    - exact Hrow.
    - intros sock' c0 me0. destruct (decide (sock' = sock)) as [->|Hne].
      + rewrite lookup_delete_eq. discriminate.
      + rewrite lookup_delete_ne by congruence. intros Hc0 Hme0.
        rewrite Hid.
        apply (conn_distinct _ Hst sock' sock c0 c me0 me Hne Hc0 Hc Hme0 Hme). }
  assert (Hfinal : final = (run limits evs st1).1).
  { subst final st1. cbn [run].
    destruct (step limits (Disconnect sock true update_err) st)
      as [st1 out1].
    cbn [fst]. destruct (run limits evs st1) as [st2 out2]. reflexivity. }
  destruct (orphaned_keeps_its_slot limits row s evs st1 Hst1 Horph Hs)
    as (H1 & H2 & session & Hsession & Hcount).
  rewrite <- Hfinal in H1, H2, Hsession, Hcount.
  split; [rewrite Hstep; reflexivity|]. split; [|split].
  - apply has_user_true. exists row. split; assumption.
  - intros sock' c' me' Hc' Hme'. rewrite <- Hid. apply (H2 sock' c' me' Hc' Hme').
  - exists s, session. split; [exact Hcs|]. split; [exact Hsession|].
    intros Hupd. apply Forall_app in Hupd as [Hbefore Hevs].
    apply (Hcount M). rewrite Hfinal.
    apply consistent_run; [exact Hpath|lia|exact Hevs|].
    subst st1. apply consistent_disconnect; [left; reflexivity|].
    apply consistent_run; [exact Hpath|lia|exact Hbefore|].
    apply consistent_init; lia.
Qed.

Lemma failed_delete_orphans_the_user_witness :
  st_conns (run (server_limits (Some "production"%string)) two_readers init).1
    !! "A"%string
  = Some {| currentUser := Some user_A; currentSession := Some "s1"%string |}
  ∧ has_user
      (st_db (run (server_limits (Some "production"%string))
                [Disconnect "A" true false; Disconnect "B" false false]
                (run (server_limits (Some "production"%string))
                   two_readers init).1).1)
      (id user_A) = true.
Proof.
  assert (Hc : st_conns (run (server_limits (Some "production"%string))
                           two_readers init).1 !! "A"%string
               = Some {| currentUser := Some user_A;
                         currentSession := Some "s1"%string |})
    by (vm_compute; reflexivity).
  split; [exact Hc|].
  exact (proj1 (proj2 (failed_delete_orphans_the_user
                         (Some "production"%string) two_readers "A" _ user_A
                         false [Disconnect "B" false false] Hc eq_refl))).
Defined.

End RoomFacts.

(* ===================================================================== *)
(** ** Properties of the reader component *)
(* ===================================================================== *)

Section ReaderFacts.

Import Limits Socket Server Spec Notions Reader ReaderNav.
Local Open Scope Z_scope.

Lemma percent_scrolled_range (fl : Q → Q) (s : scroll) :
  (0 <= percent_scrolled fl s <= 100)%Q.
Proof.
  unfold percent_scrolled. split.
  - apply Q.min_glb; [discriminate|apply Q.le_max_l].
  - apply Q.le_min_l.
Qed.

(** X24. updateReadingProgress only moves forward. Whatever the scroll
    container reports (none, nothing to scroll, any offsets) and however
    the arithmetic rounds, a call that sees a furthest progress of at most
    100 sets a furthest progress that is not lower and at most 100; it
    hands sendProgressUpdate a value only when that value is strictly above
    the furthest progress it saw, between 0 and 100, and the new furthest
    progress; and when it sends nothing the furthest progress is
    unchanged. *)
Theorem updateReadingProgress_only_forward (fl : Q → Q) (furthestProgress : Q)
  (container : option scroll) :
  (furthestProgress <= 100)%Q →
  (furthestProgress <= (updateReadingProgress fl furthestProgress container).1
   <= 100)%Q
  ∧ (∀ sent : Q,
       (updateReadingProgress fl furthestProgress container).2 = Some sent →
       (furthestProgress < sent)%Q ∧ (0 <= sent <= 100)%Q
       ∧ (updateReadingProgress fl furthestProgress container).1 = sent)
  ∧ ((updateReadingProgress fl furthestProgress container).2 = None →
     (updateReadingProgress fl furthestProgress container).1
     = furthestProgress).
Proof.
  intros Hf. unfold updateReadingProgress.
  destruct container as [s|]; cbn [fst snd].
  2:{ split; [split; [apply Qle_refl|exact Hf]|]. split; [discriminate|].
      reflexivity. }
  destruct (Qgtb (scrollHeight s) (clientHeight s)); cbn [fst snd].
  2:{ split; [split; [apply Qle_refl|exact Hf]|]. split; [discriminate|].
      reflexivity. }
  destruct (Qgtb (percent_scrolled fl s) furthestProgress) eqn:E;
    cbn [fst snd].
  - apply Qgtb_true in E. pose proof (percent_scrolled_range fl s) as [H0 H1].
    split; [split; [apply Qlt_le_weak; exact E|exact H1]|].
    split; [|discriminate].
    intros sent H. injection H as <-. repeat split; assumption.
  - split; [split; [apply Qle_refl|exact Hf]|]. split; [discriminate|].
    reflexivity.
Qed.

(** At offset 50 of 100 scrollable units every operation is exact. *)
Lemma updateReadingProgress_only_forward_witness :
  (30 <= 100)%Q
  ∧ (30 <= (updateReadingProgress (λ q, q) 30 (scrolled_to 50)).1 <= 100)%Q.
Proof.
  assert (H : (30 <= 100)%Q) by discriminate.
  split; [exact H|].
  exact (proj1 (updateReadingProgress_only_forward (λ q, q) 30
                  (scrolled_to 50) H)).
Defined.

(** X25. The chapter buttons stay in the book. From a chapter of a book of
    n chapters, any series of clicks on next and previous ends on a chapter
    of the book; next does nothing on the last chapter and previous nothing
    on the first; and previous undoes next wherever next moves. *)
Theorem chapters_stay_in_the_book (n : Z) (clicks : list click)
  (currentChapter : Z) :
  0 ≤ currentChapter < n →
  0 ≤ fold_left (turn (Some n)) clicks currentChapter < n
  ∧ nextChapter (Some n) (n - 1) = n - 1
  ∧ prevChapter 0 = 0
  ∧ (currentChapter < n - 1 →
     prevChapter (nextChapter (Some n) currentChapter) = currentChapter).
Proof.
  intros Hc. split; [|split; [|split]].
  - revert currentChapter Hc.
    induction clicks as [|k clicks IH]; intros cur Hc; [exact Hc|].
    cbn [fold_left]. apply IH. destruct k; cbn [turn].
    + unfold nextChapter. destruct (Z.ltb_spec cur (n - 1)); lia.
    + unfold prevChapter. destruct (Z.ltb_spec 0 cur); lia.
  - unfold nextChapter. rewrite Z.ltb_irrefl. reflexivity.
  - reflexivity.
  - intros H. unfold nextChapter, prevChapter.
    rewrite (proj2 (Z.ltb_lt _ _) H).
    rewrite (proj2 (Z.ltb_lt 0 (currentChapter + 1))) by lia. lia.
Qed.

Lemma chapters_stay_in_the_book_witness :
  0 ≤ 1 < 3
  ∧ 0 ≤ fold_left (turn (Some 3)) [Next; Next; Next; Previous] 1 < 3.
Proof.
  assert (H : 0 ≤ 1 < 3) by lia.
  split; [exact H|].
  exact (proj1 (chapters_stay_in_the_book 3 [Next; Next; Next; Previous] 1 H)).
Defined.

(** X26. What the reader posts, the server stores. With a profile whose id
    and name are not empty, a book id, a chapter index that is not negative
    and two seconds or more since the last recorded update,
    sendProgressUpdate posts a body that POST /api/books/:bookId/progress
    (meeting no database error) answers with success, storing under
    bookId_profileId the progress given, the profile's name and the chapter
    number counted from one. *)
Theorem reader_report_is_stored (profile_id username book : string)
  (currentChapter lastProgressUpdate now : Z) (progress : Q)
  (serverTime : Z) (d : db) :
  profile_id ≠ ""%string → username ≠ ""%string → book ≠ ""%string →
  0 ≤ currentChapter → 2000 ≤ now - lastProgressUpdate →
  ∃ body : progress_body,
    sendProgressUpdate (Some (profile_id, username)) (Some book)
      currentChapter lastProgressUpdate now progress = Some (book, body)
    ∧ (post_progress book body serverTime false false d).2 = RSuccess
    ∧ ∃ row : progress_row,
        user_progress (post_progress book body serverTime false false d).1
          !! (book ++ "_" ++ profile_id)%string = Some row
        ∧ p_progress row = progress
        ∧ p_chapter row = currentChapter + 1
        ∧ p_username row = username.
Proof.
  intros Hp Hu Hb Hc Ht. eexists. split.
  - unfold sendProgressUpdate. rewrite (proj2 (str_eqb_neq _ _) Hb).
    unfold PROGRESS_UPDATE_THROTTLE.
    rewrite (proj2 (Z.ltb_ge _ _) Ht). reflexivity.
  - unfold post_progress.
    cbn [pb_profile_id pb_username pb_progress pb_chapter].
    rewrite (proj2 (str_eqb_neq _ _) Hp), (proj2 (str_eqb_neq _ _) Hu).
    cbn [orb fst snd user_progress set_user_progress].
    split; [reflexivity|].
    assert (Hone : or_one (Some (currentChapter + 1)) = currentChapter + 1).
    { unfold or_one. rewrite (proj2 (Z.eqb_neq _ _)) by lia. reflexivity. }
    rewrite lookup_alter_eq.
    destruct (user_progress d !! (book ++ "_" ++ profile_id)%string)
      as [old|] eqn:Hold.
    + rewrite Hold. eexists. split; [reflexivity|].
      cbn [p_progress p_chapter p_username].
      rewrite Hone. repeat split; reflexivity.
    + rewrite lookup_insert_eq. eexists. split; [reflexivity|].
      cbn [p_progress p_chapter p_username].
      rewrite Hone. repeat split; reflexivity.
Qed.

Lemma reader_report_is_stored_witness :
  ("p1"%string ≠ ""%string ∧ "Happy Owl"%string ≠ ""%string
   ∧ "b1"%string ≠ ""%string ∧ 0 ≤ 4 ∧ 2000 ≤ 9000 - 6000)
  ∧ ∃ body : progress_body,
      sendProgressUpdate (Some ("p1"%string, "Happy Owl"%string))
        (Some "b1"%string) 4 6000 9000 62%Q = Some ("b1"%string, body)
      ∧ (post_progress "b1" body 9001 false false empty_db).2 = RSuccess
      ∧ ∃ row : progress_row,
          user_progress (post_progress "b1" body 9001 false false empty_db).1
            !! ("b1" ++ "_" ++ "p1")%string = Some row
          ∧ p_progress row = 62%Q
          ∧ p_chapter row = 4 + 1
          ∧ p_username row = "Happy Owl"%string.
Proof.
  assert (Hp : "p1"%string ≠ ""%string) by discriminate.
  assert (Hu : "Happy Owl"%string ≠ ""%string) by discriminate.
  assert (Hb : "b1"%string ≠ ""%string) by discriminate.
  assert (Hc : 0 ≤ 4) by lia.
  assert (Ht : 2000 ≤ 9000 - 6000) by lia.
  split; [repeat split; assumption|].
  exact (reader_report_is_stored "p1" "Happy Owl" "b1" 4 6000 9000 62%Q 9001
           empty_db Hp Hu Hb Hc Ht).
Defined.

End ReaderFacts.

(* ===================================================================== *)
(** ** The design document's reply function at a concrete reply *)
(* ===================================================================== *)

Section ReplyFacts.

Import Limits.
Local Open Scope Z_scope.

Lemma addReplyWithLimits_depth_witness :
  (120 ≤ 300 ∧ 3 < 10)
  ∧ Pseudocode.addReplyWithLimits 1 120 3 = Pseudocode.ReplyCreated (1 + 1).
Proof.
  assert (Hlen : 120 ≤ 300) by lia.
  assert (Hcount : 3 < 10) by lia.
  split; [split; assumption|].
  exact (addReplyWithLimits_depth 1 120 3 Hlen Hcount).
Defined.

End ReplyFacts.

(* ===================================================================== *)
(** ** Properties of the upload route *)
(* ===================================================================== *)

Section UploadFacts.

Import Limits Socket Server Spec Routes Notions.
Local Open Scope Z_scope.

Lemma slug_taken_spec (books : gmap string book_row) (slug : string) :
  slug_taken books slug = true
  ↔ ∃ (i : string) (r : book_row), books !! i = Some r ∧ b_slug r = slug.
Proof.
  unfold slug_taken. rewrite existsb_exists. split.
  - intros ([i r] & Hin & H). apply list_elem_of_In in Hin.
    apply elem_of_map_to_list in Hin. cbn [snd] in H.
    apply str_eqb_eq in H. exists i, r. auto.
  - intros (i & r & Hl & H). exists (i, r). split.
    + apply list_elem_of_In, elem_of_map_to_list. exact Hl.
    + cbn [snd]. apply str_eqb_eq. exact H.
Qed.

(** X27. The three outcomes of an upload. With a file received: if the
    INSERT of the book fails (an error, the id taken, or the slug taken)
    the answer is 500 and nothing is stored. Otherwise the book is stored
    with the session id and the slug; if then the INSERT of the session
    fails (an error or the id taken) the answer is 500, the sessions are as
    before, and the book stays stored; if it succeeds, the answer carries
    the book id, the session id and the slug, the session is stored for the
    book with a user count of 0, and the database is the one the server
    model reaches by its Upload event. *)
Theorem upload_route_outcomes (limits : value) (file : uploaded)
  (bookId sessionId : string) (extracted : option metadata) (draw : nat → nat)
  (now : Z) (book_err session_err : bool) (books : gmap string book_row)
  (st : state) :
  let r := upload_route (Some file) bookId sessionId extracted draw now
             book_err session_err books (st_db st) in
  (book_err = true ∨ is_Some (books !! bookId)
   ∨ slug_taken books (generateSlug draw) = true →
   r = (books, st_db st, UploadError 500 "Failed to save book information"))
  ∧ (book_err = false → books !! bookId = None →
     slug_taken books (generateSlug draw) = false →
     (∃ row : book_row,
        r.1.1 = <[bookId := row]> books
        ∧ b_session_id row = sessionId ∧ b_slug row = generateSlug draw
        ∧ b_filename row = filename file)
     ∧ (session_err = true ∨ is_Some (sessions (st_db st) !! sessionId) →
        r.1.2 = st_db st
        ∧ r.2 = UploadError 500 "Failed to create session")
     ∧ (session_err = false → sessions (st_db st) !! sessionId = None →
        (∃ response : upload_response,
           r.2 = Uploaded response
           ∧ ur_bookId response = bookId ∧ ur_sessionId response = sessionId
           ∧ ur_slug response = generateSlug draw)
        ∧ sessions r.1.2 !! sessionId
          = Some {| s_book_id := bookId; s_user_count := 0;
                    s_last_activity := now |}
        ∧ r.1.2
          = st_db (step limits (Upload sessionId bookId now false) st).1)).
Proof.
  intros r. subst r. unfold upload_route. split.
  - intros [->|[H|H]].
    + reflexivity.
    + rewrite (bool_decide_eq_true_2 _ H), orb_true_r. reflexivity.
    + rewrite H, orb_true_r. reflexivity.
  - intros -> Hfree Hslug.
    rewrite Hslug, bool_decide_eq_false_2
      by (rewrite Hfree; intros [x Hx]; discriminate Hx).
    cbn [orb]. split; [|split].
    + destruct (insert_session session_err sessionId bookId now (st_db st));
        cbn [fst snd]; eexists; (split; [reflexivity|]);
        repeat split; reflexivity.
    + intros Hs. unfold insert_session.
      destruct Hs as [->|[old Hold]]; [split; reflexivity|].
      rewrite Hold. destruct session_err; split; reflexivity.
    + intros -> Hnone. cbn [step fst st_db]. unfold insert_session.
      rewrite Hnone. cbn [fst snd]. split; [|split].
      * eexists. split; [reflexivity|]. repeat split; reflexivity.
      * cbn [sessions set_sessions]. apply lookup_insert_eq.
      * reflexivity.
Qed.

Lemma upload_route_outcomes_witness :
  is_Some (sessions (st_db joined_state) !! "s1"%string)
  ∧ (upload_route (Some a_file) "b9" "s1" None (λ i, i) 5 false false ∅
       (st_db joined_state)).1.2 = st_db joined_state
  ∧ (upload_route (Some a_file) "b9" "s1" None (λ i, i) 5 false false ∅
       (st_db joined_state)).2
    = UploadError 500 "Failed to create session".
Proof.
  assert (Hs : is_Some (sessions (st_db joined_state) !! "s1"%string))
    by (vm_compute; eauto).
  assert (Hslug : slug_taken (∅ : gmap string book_row)
                    (generateSlug (λ i, i)) = false)
    by (vm_compute; reflexivity).
  split; [exact Hs|].
  apply (proj1 (proj2 (proj2 (upload_route_outcomes production a_file "b9" "s1"
                                None (λ i, i) 5 false false ∅ joined_state)
                         eq_refl (lookup_empty _) Hslug))).
  right. exact Hs.
Defined.

(** X28. One slug per book. If no two stored books carry the same slug,
    this is still so after any upload, whatever its outcome, and every
    stored book is left as it was: a generated slug that is already taken
    makes the upload fail. *)
Theorem upload_keeps_slugs_unique (file : option uploaded)
  (bookId sessionId : string) (extracted : option metadata) (draw : nat → nat)
  (now : Z) (book_err session_err : bool) (books : gmap string book_row)
  (d : db) :
  slugs_unique books →
  slugs_unique
    (upload_route file bookId sessionId extracted draw now book_err
       session_err books d).1.1
  ∧ ∀ (i : string) (r : book_row),
      books !! i = Some r →
      (upload_route file bookId sessionId extracted draw now book_err
         session_err books d).1.1 !! i = Some r.
Proof.
  intros Hu. unfold upload_route.
  destruct file as [file|]; [|split; [exact Hu|auto]].
  destruct book_err; cbn [orb]; [split; [exact Hu|auto]|].
  destruct (bool_decide (is_Some (books !! bookId))) eqn:E1; cbn [orb];
    [split; [exact Hu|auto]|].
  destruct (slug_taken books (generateSlug draw)) eqn:E2;
    [split; [exact Hu|auto]|].
  apply bool_decide_eq_false in E1.
  assert (Hfree : books !! bookId = None).
  { destruct (books !! bookId); [|reflexivity]. exfalso. apply E1. eauto. }
  set (row := {| b_title := _ |}).
  assert (Hgoal : slugs_unique (<[bookId := row]> books)
                  ∧ ∀ i r, books !! i = Some r →
                           <[bookId := row]> books !! i = Some r).
  { split.
    - intros i j r1 r2.
      destruct (decide (i = bookId)) as [->|Hi];
        destruct (decide (j = bookId)) as [->|Hj].
      + reflexivity.
      + rewrite lookup_insert_eq, lookup_insert_ne by congruence.
        intros H1 H2 Hs. injection H1 as <-. exfalso.
        assert (Ht : slug_taken books (generateSlug draw) = true).
        { apply slug_taken_spec. exists j, r2. split; [exact H2|].
          symmetry. exact Hs. }
        congruence.
      + rewrite lookup_insert_eq, lookup_insert_ne by congruence.
        intros H1 H2 Hs. injection H2 as <-. exfalso.
        assert (Ht : slug_taken books (generateSlug draw) = true).
        { apply slug_taken_spec. exists i, r1. split; [exact H1|exact Hs]. }
        congruence.
      + rewrite !lookup_insert_ne by congruence. apply Hu.
    - intros i r Hr. rewrite lookup_insert_ne; [exact Hr|].
      intros <-. congruence. }
  destruct (insert_session session_err sessionId bookId now d);
    cbn [fst]; exact Hgoal.
Qed.

Lemma upload_keeps_slugs_unique_witness :
  slugs_unique ∅
  ∧ slugs_unique
      (upload_route (Some a_file) "b9" "s9" None (λ i, i) 5 false false ∅
         empty_db).1.1.
Proof.
  assert (H : slugs_unique ∅).
  { intros i j r1 r2 H1. rewrite lookup_empty in H1. discriminate H1. }
  split; [exact H|].
  exact (proj1 (upload_keeps_slugs_unique (Some a_file) "b9" "s9" None
                  (λ i, i) 5 false false ∅ empty_db H)).
Defined.

Lemma remove_first_stem (stem : string) :
  has_dot stem = false →
  remove_first ".epub" (String.append stem ".epub") = stem.
Proof.
  induction stem as [|c rest IH]; intros Hd; [reflexivity|].
  cbn [has_dot] in Hd. apply orb_false_iff in Hd as [Hc Hrest].
  change (String.append (String c rest) ".epub")
    with (String c (String.append rest ".epub")).
  cbn [remove_first String.prefix].
  destruct (Ascii.ascii_dec _ c) as [E|_].
  - subst c. discriminate Hc.
  - rewrite (IH Hrest). reflexivity.
Qed.

(** X29. The title falls back to the file's stem. For a file whose
    original name is a stem without a full stop followed by ".epub", a book
    that gets stored has as its title the title the metadata gave, and the
    stem when the extraction threw or gave no title or an empty one; its
    author is the metadata's, and "Unknown Author" in those cases. *)
Theorem upload_title_falls_back_to_the_stem (file : uploaded) (stem : string)
  (bookId sessionId : string) (extracted : option metadata) (draw : nat → nat)
  (now : Z) (session_err : bool) (books : gmap string book_row) (d : db) :
  originalname file = String.append stem ".epub" → has_dot stem = false →
  books !! bookId = None → slug_taken books (generateSlug draw) = false →
  ∃ row : book_row,
    (upload_route (Some file) bookId sessionId extracted draw now false
       session_err books d).1.1 !! bookId = Some row
    ∧ b_title row
      = match extracted with
        | Some m => or_fallback (md_title m) stem
        | None => stem
        end
    ∧ b_author row
      = match extracted with
        | Some m => or_fallback (md_author m) "Unknown Author"
        | None => "Unknown Author"%string
        end.
Proof.
  intros Hname Hdot Hfree Hslug. unfold upload_route.
  rewrite Hslug, bool_decide_eq_false_2
    by (rewrite Hfree; intros [x Hx]; discriminate Hx).
  cbn [orb]. rewrite Hname, (remove_first_stem stem Hdot).
  destruct (insert_session session_err sessionId bookId now d); cbn [fst];
    rewrite lookup_insert_eq; eexists; (split; [reflexivity|]);
    split; reflexivity.
Qed.

Lemma upload_title_falls_back_to_the_stem_witness :
  (originalname a_file = String.append "moby-dick" ".epub"
   ∧ has_dot "moby-dick" = false)
  ∧ ∃ row : book_row,
      (upload_route (Some a_file) "b9" "s9"
         (Some {| md_title := Some ""%string;
                  md_author := Some "Herman Melville"%string |})
         (λ i, i) 5 false false ∅ empty_db).1.1 !! "b9"%string = Some row
      ∧ b_title row = or_fallback (Some ""%string) "moby-dick"
      ∧ b_author row
        = or_fallback (Some "Herman Melville"%string) "Unknown Author".
Proof.
  assert (Hn : originalname a_file = String.append "moby-dick" ".epub")
    by reflexivity.
  assert (Hd : has_dot "moby-dick" = false) by reflexivity.
  split; [split; assumption|].
  assert (Hslug : slug_taken (∅ : gmap string book_row)
                    (generateSlug (λ i, i)) = false)
    by (vm_compute; reflexivity).
  exact (upload_title_falls_back_to_the_stem a_file "moby-dick" "b9" "s9"
           (Some {| md_title := Some ""%string;
                    md_author := Some "Herman Melville"%string |})
           (λ i, i) 5 false ∅ empty_db Hn Hd (lookup_empty _) Hslug).
Defined.

End UploadFacts.

(* ===================================================================== *)
(** ** Properties of the HTTP annotation routes *)
(* ===================================================================== *)

Section AnnotationRoutes.

Import Limits Socket Server Spec.
Local Open Scope Z_scope.

(** X30. The HTTP routes store what the socket handlers count. A well-formed
    POST /api/books/:bookId/highlights answers 500 and stores nothing when
    the INSERT reports an error; with a new id and no error it answers with
    the new highlight and raises by one the count create-highlight reads
    for the profile and the book. A well-formed
    POST /api/books/:bookId/comments, whatever the length of its text, does
    the same for the count create-comment reads for the highlight, and the
    comment it stores has no parent. *)
Theorem posted_annotations_are_counted :
  (∀ (bookId : string) (body : highlight_body) (uuid : string) (now : Z)
     (d : db) (text : string) (chapter : Z) (profile_id username : string),
     hb_text body = Some text → hb_chapter body = Some chapter →
     hb_profile_id body = Some profile_id → hb_username body = Some username →
     text ≠ ""%string → chapter ≠ 0 → profile_id ≠ ""%string →
     username ≠ ""%string →
     post_highlight bookId body uuid now true d
     = (d, PostError 500 "Failed to create highlight")
     ∧ (existsb (λ h, str_eqb (h_id h) uuid) (highlights d) = false →
        (∃ posted : new_highlight,
           (post_highlight bookId body uuid now false d).2 = PostJson posted
           ∧ nh_id posted = uuid ∧ nh_user_id posted = profile_id)
        ∧ count_highlights (post_highlight bookId body uuid now false d).1
            profile_id bookId
          = count_highlights d profile_id bookId + 1))
  ∧ (∀ (bookId : string) (body : comment_body) (uuid : string) (now : Z)
       (d : db) (text selectedText : string) (chapter : Z)
       (highlightId profile_id username : string),
       cb_text body = Some text → cb_selectedText body = Some selectedText →
       cb_chapter body = Some chapter →
       cb_highlightId body = Some highlightId →
       cb_profile_id body = Some profile_id → cb_username body = Some username →
       text ≠ ""%string → selectedText ≠ ""%string → chapter ≠ 0 →
       highlightId ≠ ""%string → profile_id ≠ ""%string →
       username ≠ ""%string →
       post_comment bookId body uuid now true d
       = (d, PostError 500 "Failed to create comment")
       ∧ (existsb (λ c, str_eqb (c_id c) uuid) (comments d) = false →
          (∃ posted : new_comment,
             (post_comment bookId body uuid now false d).2 = PostJson posted
             ∧ nc_id posted = uuid ∧ nc_comment posted = text)
          ∧ c_parent_id <$> comments (post_comment bookId body uuid now false d).1
            = (c_parent_id <$> comments d) ++ [None]
          ∧ count_comments (post_comment bookId body uuid now false d).1
              highlightId
            = count_comments d highlightId + 1)).
Proof.
  split.
  - intros bookId body uuid now d text chapter profile_id username
      Ht Hc Hp Hu Ht' Hc' Hp' Hu'.
    unfold post_highlight. rewrite Ht, Hc, Hp, Hu.
    rewrite (proj2 (str_eqb_neq _ _) Ht'), (proj2 (Z.eqb_neq _ _) Hc'),
      (proj2 (str_eqb_neq _ _) Hp'), (proj2 (str_eqb_neq _ _) Hu').
    cbn [orb]. unfold insert_highlight. cbn [h_username h_id orb].
    split; [reflexivity|]. intros Hfresh. rewrite Hfresh.
    cbn [fst snd]. split; [eexists; repeat split; reflexivity|].
    unfold count_highlights. cbn [highlights set_highlights].
    rewrite List.filter_app, length_app. cbn [List.filter h_user_id h_book_id].
    rewrite !str_eqb_refl. cbn [andb length]. lia.
  - intros bookId body uuid now d text selectedText chapter highlightId
      profile_id username Ht Hs Hc Hh Hp Hu Ht' Hs' Hc' Hh' Hp' Hu'.
    unfold post_comment. rewrite Ht, Hs, Hc, Hp, Hu, Hh.
    rewrite (proj2 (str_eqb_neq _ _) Ht'), (proj2 (str_eqb_neq _ _) Hs'),
      (proj2 (Z.eqb_neq _ _) Hc'),
      (proj2 (str_eqb_neq _ _) Hp'), (proj2 (str_eqb_neq _ _) Hu').
    cbn [orb]. unfold insert_comment. cbn [c_username c_id orb].
    split; [reflexivity|]. intros Hfresh. rewrite Hfresh.
    cbn [fst snd]. split; [eexists; repeat split; reflexivity|].
    cbn [comments set_comments]. split.
    + rewrite fmap_app. reflexivity.
    + unfold count_comments. cbn [comments set_comments].
      rewrite List.filter_app, length_app.
      cbn [List.filter c_highlight_id or_null opt_is].
      rewrite (proj2 (str_eqb_neq _ _) Hh'). cbn [opt_is].
      rewrite str_eqb_refl. cbn [length]. lia.
Qed.

Lemma posted_annotations_are_counted_witness :
  count_comments (st_db commented_state) "h1"
  = count_comments (st_db highlighted_state) "h1" + 1.
Proof.
  exact (proj2 (proj2 (proj2
    (proj2 posted_annotations_are_counted "b1"%string a_posted_comment
       "c1"%string 0 (st_db highlighted_state) _ _ _ _ _ _
       eq_refl eq_refl eq_refl eq_refl eq_refl eq_refl
       ltac:(discriminate) ltac:(discriminate) ltac:(discriminate)
       ltac:(discriminate) ltac:(discriminate) ltac:(discriminate))
    ltac:(vm_compute; reflexivity)))).
Defined.

End AnnotationRoutes.
